(** * Mobile-Sensor-Streamer: the orientation decoder and its listeners

    A shallow embedding of the three Python programs that decode
    rotation-vector packets:

    - [Orientation_Fast.py]  (3D cube viewer, optional CSV log),
    - [Sensor_Dashboard.py]  (3D cube + map dashboard),
    - [rpy_output_text.py]   (console text, optional CSV log).

    Python values are dynamically typed, so the embedding works over a
    small universe [pyval] of the values [json.loads] produces, over an
    error monad [result] for Python exceptions, and over an abstract
    interface [Float64] for the arithmetic of Python's [float].  The
    interface is instantiated twice: by the real numbers (the arithmetic
    the formulas of the decoder are meant to compute) and by IEEE-754
    binary64 floats (the arithmetic CPython performs). *)

From Stdlib Require Import ZArith List String Ascii Bool Lia.
From Stdlib Require Import Reals Lra RNsatz.
From Stdlib Require Import Floats.
Import ListNotations.

Set Implicit Arguments.
Set Warnings "-register-all".

(* ================================================================== *)
(** * Python exceptions and the error monad                             *)
(* ================================================================== *)

(** The exception classes the modelled code can meet. *)
Inductive exn : Type :=
| ValueError
| TypeError
| IndexError
| OverflowError
| AttributeError.

Definition exn_eqb (a b : exn) : bool :=
  match a, b with
  | ValueError, ValueError
  | TypeError, TypeError
  | IndexError, IndexError
  | OverflowError, OverflowError
  | AttributeError, AttributeError => true
  | _, _ => false
  end.

(** A computation either returns a value or raises. *)
Inductive result (A : Type) : Type :=
| Ok (a : A)
| Raise (e : exn).

Arguments Ok {A} a.
Arguments Raise {A} e.

Definition bind {A B : Type} (m : result A) (k : A -> result B) : result B :=
  match m with
  | Ok a => k a
  | Raise e => Raise e
  end.

Declare Scope py_scope.
Delimit Scope py_scope with py.
Notation "x <- m ;; k" := (bind m (fun x => k))
  (at level 61, m at next level, right associativity) : py_scope.
Notation "' pat <- m ;; k" := (bind m (fun x => match x with pat => k end))
  (at level 61, pat pattern, m at next level, right associativity) : py_scope.
Open Scope py_scope.

(** [try: body / except (classes): handler / <rest>]: the body's value
    flows into the rest, an exception of a listed class runs the
    handler, any other exception propagates. *)
Definition try_except {A B : Type} (body : result A) (classes : list exn)
    (handler : result B) (rest : A -> result B) : result B :=
  match body with
  | Ok a => rest a
  | Raise e => if existsb (exn_eqb e) classes then handler else Raise e
  end.

(* ================================================================== *)
(** * Python values                                                     *)
(* ================================================================== *)

(** The values a JSON field can hold once parsed, over a float type [T].
    JSON objects nested in a packet (as a field, or inside a string
    handed to [json.loads]) are left out: no field the listeners read is
    expected to hold one. Strings are read byte by byte, which is
    Python's reading of them when they are ASCII. *)
Inductive pyval (T : Type) : Type :=
| PNone
| PBool (b : bool)
| PInt (z : Z)
| PFloat (t : T)
| PStr (s : string)
| PList (l : list (pyval T)).

Arguments PNone {T}.
Arguments PBool {T} b.
Arguments PInt {T} z.
Arguments PFloat {T} t.
Arguments PStr {T} s.
Arguments PList {T} l.

(** The elements of a sequence: a list's items, a string's characters
    (each a one-character string). [None] for a value that is no
    sequence. *)
Definition py_items {T} (v : pyval T) : option (list (pyval T)) :=
  match v with
  | PList l => Some l
  | PStr s => Some (map (fun c => PStr (String c EmptyString)) (list_ascii_of_string s))
  | _ => None
  end.

(** [len(v)]: [TypeError] on a value without a length. *)
Definition py_len {T} (v : pyval T) : result nat :=
  match py_items v with
  | Some l => Ok (List.length l)
  | None => Raise TypeError
  end.

(** [v[i]] for a non-negative index. *)
Definition py_getitem {T} (v : pyval T) (i : nat) : result (pyval T) :=
  match py_items v with
  | Some l => match nth_error l i with
              | Some x => Ok x
              | None => Raise IndexError
              end
  | None => Raise TypeError
  end.

(** The items [v[:n]] yields when iterated. *)
Definition py_slice_to {T} (v : pyval T) (n : nat) : result (list (pyval T)) :=
  match py_items v with
  | Some l => Ok (firstn n l)
  | None => Raise TypeError
  end.

(* ================================================================== *)
(** * The arithmetic of Python's [float]                                *)
(* ================================================================== *)

(** What the decoder uses of [float], [math] and the comparison
    operators.  [float_of_int] is [float(n)] on an [int] ([None]:
    [OverflowError]); [float_of_str] is [float(s)] on a [str] ([None]:
    [ValueError]); [asin_value] is [math.asin] inside its domain. *)
Class Float64 (T : Type) : Type := {
  fzero : T;
  fone : T;
  ftwo : T;
  fneg : T -> T;
  fadd : T -> T -> T;
  fsub : T -> T -> T;
  fmul : T -> T -> T;
  flt : T -> T -> bool;
  feq : T -> T -> bool;
  float_of_int : Z -> option T;
  float_of_str : string -> option T;
  math_atan2 : T -> T -> T;
  asin_value : T -> T;
  math_degrees : T -> T
}.

Section Builtins.
Context {T : Type} `{Float64 T}.

(** [float(v)]. *)
Definition py_float (v : pyval T) : result T :=
  match v with
  | PNone => Raise TypeError
  | PBool b => Ok (if b then fone else fzero)
  | PInt z => match float_of_int z with
              | Some t => Ok t
              | None => Raise OverflowError
              end
  | PFloat t => Ok t
  | PStr s => match float_of_str s with
              | Some t => Ok t
              | None => Raise ValueError
              end
  | PList _ => Raise TypeError
  end.

(** [math.asin(t)]: a domain error outside [-1, 1]; a NaN, which
    compares false with everything, passes through. *)
Definition math_asin (t : T) : result T :=
  if flt t (fneg fone) || flt fone t then Raise ValueError
  else Ok (asin_value t).

(** The builtins [min(a, b)] and [max(a, b)] on two arguments: the
    first is kept unless the second is strictly smaller (larger). *)
Definition py_min (a b : T) : T := if flt b a then b else a.
Definition py_max (a b : T) : T := if flt a b then b else a.

(** [v == k] for an integer literal [k]. *)
Definition py_eq_int (v : pyval T) (k : Z) : bool :=
  match v with
  | PInt z => Z.eqb z k
  | PBool b => Z.eqb (if b then 1 else 0) k
  | PFloat t => match float_of_int k with
                | Some f => feq t f
                | None => false
                end
  | _ => false
  end.

(** [v in [k1, k2, ...]]. *)
Definition py_in_ints (v : pyval T) (ks : list Z) : bool :=
  existsb (py_eq_int v) ks.
End Builtins.

(* ================================================================== *)
(** * Quaternions and decoder results                                   *)
(* ================================================================== *)

(** A 4-element numpy array [x, y, z, w]. *)
Record quat (T : Type) : Type := Quat { qx : T; qy : T; qz : T; qw : T }.

Arguments Quat {T} qx qy qz qw.

(** What a decoder returns: a tuple of three or of four entries, each
    possibly [None]. *)
Inductive rpy (T : Type) : Type :=
| Tup3 (roll pitch yaw : option T)
| Tup4 (roll pitch yaw : option T) (q : option (quat T)).

Arguments Tup3 {T} roll pitch yaw.
Arguments Tup4 {T} roll pitch yaw q.

(** [a, b, c, d = t] and [a, b, c = t]: unpacking a tuple of the wrong
    length raises [ValueError]. *)
Definition unpack4 {T} (t : rpy T)
  : result (option T * option T * option T * option (quat T)) :=
  match t with
  | Tup4 r p y q => Ok (r, p, y, q)
  | Tup3 _ _ _ => Raise ValueError
  end.

Definition unpack3 {T} (t : rpy T) : result (option T * option T * option T) :=
  match t with
  | Tup3 r p y => Ok (r, p, y)
  | Tup4 _ _ _ _ => Raise ValueError
  end.

Section Kernel.
Context {T : Type} `{Float64 T}.

(** [float(vals[0]), float(vals[1]), float(vals[2]), float(vals[3])],
    evaluated left to right. *)
Definition float_first_four (vals : pyval T) : result (T * T * T * T) :=
  v0 <- py_getitem vals 0 ;; x <- py_float v0 ;;
  v1 <- py_getitem vals 1 ;; y <- py_float v1 ;;
  v2 <- py_getitem vals 2 ;; z <- py_float v2 ;;
  v3 <- py_getitem vals 3 ;; w <- py_float v3 ;;
  Ok (x, y, z, w).

(** [x, y, z, w = map(float, vals[:4])]: the slice, then [float] on
    each item in turn, then the unpacking into four names. *)
Fixpoint map_float (l : list (pyval T)) : result (list T) :=
  match l with
  | [] => Ok []
  | v :: l' => t <- py_float v ;; ts <- map_float l' ;; Ok (t :: ts)
  end.

Definition map_float_slice (vals : pyval T) : result (T * T * T * T) :=
  l <- py_slice_to vals 4 ;;
  ts <- map_float l ;;
  match ts with
  | [x; y; z; w] => Ok (x, y, z, w)
  | _ => Raise ValueError
  end.

End Kernel.

(* ================================================================== *)
(** * Packets, CSV rows and library functions                           *)
(* ================================================================== *)

(** A parsed packet: the JSON object of one line, as the list of its
    fields. *)
Definition packet (T : Type) : Type := list (string * pyval T).

(** [obj.get(key, default)]. *)
Fixpoint dict_get {T} (obj : packet T) (key : string) (default : pyval T) : pyval T :=
  match obj with
  | [] => default
  | (k, v) :: obj' => if String.eqb k key then v else dict_get obj' key default
  end.

(** A cell handed to [csv.writer.writerow]: a literal string, a value
    written as it is, a float formatted with [.2f], or the
    [";".join(str(v) for v in vals)] of a sequence's items. *)
Inductive cell (T : Type) : Type :=
| CText (s : string)
| CValue (v : pyval T)
| CFixed2 (t : T)
| CJoined (items : list (pyval T)).

Arguments CText {T} s.
Arguments CValue {T} v.
Arguments CFixed2 {T} t.
Arguments CJoined {T} items.

Definition row (T : Type) : Type := list (cell T).

(** [";".join(str(v) for v in vals)]: [TypeError] when [vals] cannot be
    iterated. *)
Definition join_values {T} (vals : pyval T) : result (cell T) :=
  match py_items vals with
  | Some l => Ok (CJoined l)
  | None => Raise TypeError
  end.

(** [s.lower()] on ASCII letters. *)
Definition lower_ascii (c : ascii) : ascii :=
  let n := nat_of_ascii c in
  if ((65 <=? n) && (n <=? 90))%nat then ascii_of_nat (n + 32) else c.

Fixpoint lower (s : string) : string :=
  match s with
  | EmptyString => EmptyString
  | String c s' => String (lower_ascii c) (lower s')
  end.

(** [needle in hay] on strings. *)
Fixpoint contains (needle hay : string) : bool :=
  String.prefix needle hay ||
  match hay with
  | EmptyString => false
  | String _ hay' => contains needle hay'
  end.

(** [name.lower()]: only a [str] has the method. *)
Definition py_lower {T} (name : pyval T) : result string :=
  match name with
  | PStr s => Ok (lower s)
  | _ => Raise AttributeError
  end.

(* ================================================================== *)
(** * Orientation_Fast.py                                               *)
(* ================================================================== *)

Module Orientation_Fast.
Section Program.
Context {T : Type} `{Float64 T}.
(** [json.loads]: [None] is [json.JSONDecodeError]. *)
Variable json_loads : string -> option (pyval T).

Definition get_rpy_from_quaternion (vals : pyval T) : result (rpy T) :=
  n <- py_len vals ;;
  if (n <? 4)%nat then Ok (Tup3 None None None) else
  try_except (float_first_four vals) [ValueError; TypeError; IndexError]
    (Ok (Tup3 None None None))
    (fun '(x, y, z, w) =>
      let q := Quat x y z w in
      let q_fixed := Quat (qx q) (fneg (qy q)) (fneg (qz q)) (qw q) in
      let q_conj :=
        Quat (fneg (qx q_fixed)) (fneg (qy q_fixed)) (fneg (qz q_fixed)) (qw q_fixed) in
      let x := qx q_conj in
      let y := qy q_conj in
      let z := qz q_conj in
      let w := qw q_conj in
      let t0 := fmul ftwo (fadd (fmul w x) (fmul y z)) in
      let t1 := fsub fone (fmul ftwo (fadd (fmul x x) (fmul y y))) in
      let roll_x := math_atan2 t0 t1 in
      let t2 := fmul ftwo (fsub (fmul w y) (fmul z x)) in
      let t2 := if flt fone t2 then fone else t2 in
      let t2 := if flt t2 (fneg fone) then fneg fone else t2 in
      pitch_y <- math_asin t2 ;;
      let t3 := fmul ftwo (fadd (fmul w z) (fmul x y)) in
      let t4 := fsub fone (fmul ftwo (fadd (fmul y y) (fmul z z))) in
      let yaw_z := math_atan2 t3 t4 in
      Ok (Tup4 (Some (math_degrees roll_x)) (Some (math_degrees pitch_y))
               (Some (math_degrees yaw_z)) (Some q_conj))).

(** The rows of the 3x3 rotation matrix. *)
Definition rotmat_from_quat (x y z w : T) : list (list T) :=
  [ [ fsub fone (fmul ftwo (fadd (fmul y y) (fmul z z)));
      fmul ftwo (fsub (fmul x y) (fmul z w));
      fmul ftwo (fadd (fmul x z) (fmul y w)) ];
    [ fmul ftwo (fadd (fmul x y) (fmul z w));
      fsub fone (fmul ftwo (fadd (fmul x x) (fmul z z)));
      fmul ftwo (fsub (fmul y z) (fmul x w)) ];
    [ fmul ftwo (fsub (fmul x z) (fmul y w));
      fmul ftwo (fadd (fmul y z) (fmul x w));
      fsub fone (fmul ftwo (fadd (fmul x x) (fmul y y))) ] ].

(** The fields of [SensorVisualizer] the polling loop reads and
    writes. [csv] is [None] without [--csv], else the rows written so
    far; [angle_label] holds the three numbers of the label's text. *)
Record state : Type := State {
  q_latest : quat T;
  have_quat : bool;
  angle_label : option (T * T * T);
  csv : option (list (row T))
}.

Definition header : row T :=
  [CText "host_ts"; CText "ts_ns"; CText "type"; CText "name";
   CText "roll_deg"; CText "pitch_deg"; CText "yaw_deg"; CText "values"].

Definition init (csv_path : option string) : state :=
  State (Quat fzero fzero fzero fone) false None
        (match csv_path with Some _ => Some [header] | None => None end).

(** Lines 193-202: the [values] field made a sequence. *)
Definition normalize_values (vals_raw : pyval T) : pyval T :=
  match vals_raw with
  | PStr s => match json_loads s with
              | Some v => v
              | None => PList [vals_raw]
              end
  | PList _ => vals_raw
  | _ => PList []
  end.

(** Line 207: the sensor-type gate. *)
Definition dispatches (obj : packet T) : bool :=
  py_in_ints (dict_get obj "type" PNone) [11; 15]%Z.

(** Lines 193-227: the body of the loop over a datagram's lines, for
    a line that parsed as a JSON object. [host_ts] is the clock
    reading [datetime.utcnow().isoformat()]. In the branch
    [roll is not None] an entry that is [None] all the same fails in
    the label's format string. The function called at line 208 is
    the argument [decode], so that a statement can tell whether the
    call is reached. *)
Definition update_line_with (decode : pyval T -> result (rpy T))
    (host_ts : string) (obj : packet T) (st : state) : result state :=
  let vals_raw := dict_get obj "values" (PList []) in
  let vals := normalize_values vals_raw in
  let sensor_type := dict_get obj "type" PNone in
  let name := dict_get obj "name" (PStr "Unknown") in
  if py_in_ints sensor_type [11; 15]%Z then
    t <- decode vals ;;
    '(roll, pitch, yaw, q) <- unpack4 t ;;
    match roll with
    | None => Ok st
    | Some roll =>
      match pitch, yaw, q with
      | Some pitch, Some yaw, Some q =>
        match csv st with
        | None => Ok (State q true (Some (roll, pitch, yaw)) None)
        | Some rows =>
          joined <- join_values vals ;;
          Ok (State q true (Some (roll, pitch, yaw))
                (Some (rows ++
                   [[CText host_ts; CValue (dict_get obj "ts_ns" PNone);
                     CValue sensor_type; CValue name;
                     CFixed2 roll; CFixed2 pitch; CFixed2 yaw; joined]])))
        end
      | _, _, _ => Raise TypeError
      end
    end
  else Ok st.

Definition update_line : string -> packet T -> state -> result state :=
  update_line_with get_rpy_from_quaternion.

(** The loop itself: the lines in order; an exception leaves the
    loop and the method. *)
Fixpoint update_lines (lines : list (string * packet T)) (st : state)
  : result state :=
  match lines with
  | [] => Ok st
  | (host_ts, obj) :: lines' =>
    st' <- update_line host_ts obj st ;; update_lines lines' st'
  end.

(** Lines 229-233: the matrix the cube is given after the loop. *)
Definition cube_rotation (st : state) : option (list (list T)) :=
  if have_quat st then
    Some (rotmat_from_quat (qx (q_latest st)) (qy (q_latest st))
                           (qz (q_latest st)) (qw (q_latest st)))
  else None.
End Program.
End Orientation_Fast.

(* ================================================================== *)
(** * Sensor_Dashboard.py                                               *)
(* ================================================================== *)

Module Sensor_Dashboard.
Section Program.
Context {T : Type} `{Float64 T}.
(** [json.loads]: [None] is [json.JSONDecodeError]. *)
Variable json_loads : string -> option (pyval T).

Definition get_rpy_from_quaternion (vals : pyval T) : result (rpy T) :=
  n <- py_len vals ;;
  if (n <? 4)%nat then Ok (Tup4 None None None None) else
  try_except (map_float_slice vals) [ValueError; TypeError]
    (Ok (Tup4 None None None None))
    (fun '(x, y, z, w) =>
      let q := Quat x y z w in
      let q_fixed := Quat (qx q) (fneg (qy q)) (fneg (qz q)) (qw q) in
      let q_conj :=
        Quat (fneg (qx q_fixed)) (fneg (qy q_fixed)) (fneg (qz q_fixed)) (qw q_fixed) in
      let x := qx q_conj in
      let y := qy q_conj in
      let z := qz q_conj in
      let w := qw q_conj in
      let t0 := fmul ftwo (fadd (fmul w x) (fmul y z)) in
      let t1 := fsub fone (fmul ftwo (fadd (fmul x x) (fmul y y))) in
      let roll := math_degrees (math_atan2 t0 t1) in
      let t2 := fmul ftwo (fsub (fmul w y) (fmul z x)) in
      let t2 := py_max (fneg fone) (py_min fone t2) in
      a <- math_asin t2 ;;
      let pitch := math_degrees a in
      let t3 := fmul ftwo (fadd (fmul w z) (fmul x y)) in
      let t4 := fsub fone (fmul ftwo (fadd (fmul y y) (fmul z z))) in
      let yaw := math_degrees (math_atan2 t3 t4) in
      Ok (Tup4 (Some roll) (Some pitch) (Some yaw) (Some q_conj))).

(** The rows of the 3x3 rotation matrix. *)
Definition rotmat_from_quat (x y z w : T) : list (list T) :=
  [ [ fsub fone (fmul ftwo (fadd (fmul y y) (fmul z z)));
      fmul ftwo (fsub (fmul x y) (fmul z w));
      fmul ftwo (fadd (fmul x z) (fmul y w)) ];
    [ fmul ftwo (fadd (fmul x y) (fmul z w));
      fsub fone (fmul ftwo (fadd (fmul x x) (fmul z z)));
      fmul ftwo (fsub (fmul y z) (fmul x w)) ];
    [ fmul ftwo (fsub (fmul x z) (fmul y w));
      fmul ftwo (fadd (fmul y z) (fmul x w));
      fsub fone (fmul ftwo (fadd (fmul x x) (fmul y y))) ] ].

(** The orientation and logging fields of [SensorDashboard]; the GPS
    and battery fields belong to branches that are not modelled. *)
Record state : Type := State {
  roll : T;
  pitch : T;
  yaw : T;
  q_latest : quat T;
  have_quat : bool;
  csv : option (list (row T))
}.

Definition header : row T :=
  map CText
    ["host_ts"; "type"; "name"; "roll"; "pitch"; "yaw";
     "lat"; "lon"; "alt"; "speed"; "acc";
     "batt_V"; "batt_A"; "batt_W"; "charging"]%string.

Definition init (csv_path : option string) : state :=
  State fzero fzero fzero (Quat fzero fzero fzero fone) false
        (match csv_path with Some _ => Some [header] | None => None end).

(** Lines 227-232: only a string is touched. *)
Definition normalize_values (vals : pyval T) : pyval T :=
  match vals with
  | PStr s => match json_loads s with
              | Some v => v
              | None => PList [vals]
              end
  | _ => vals
  end.

(** Line 235: the gate; [or] evaluates [name.lower()] only when the
    type is none of the three codes. *)
Definition dispatches (obj : packet T) : result bool :=
  let name := dict_get obj "name" (PStr "") in
  let stype := dict_get obj "type" PNone in
  if py_in_ints stype [11; 15; 20]%Z then Ok true
  else l <- py_lower name ;; Ok (contains "rotation" l).

(** Lines 225-240: the body of the loop for one parsed line, up to
    the orientation branch. [Ok None] stands for a packet that goes
    on to the GPS and battery branches. [decode] is the function
    called at line 236. *)
Definition _update_line_with (decode : pyval T -> result (rpy T))
    (obj : packet T) (st : state) : result (option state) :=
  let vals := normalize_values (dict_get obj "values" (PList [])) in
  go <- dispatches obj ;;
  if go then
    t <- decode vals ;;
    '(roll, pitch, yaw, q) <- unpack4 t ;;
    match roll with
    | None => Ok (Some st)
    | Some roll =>
      match pitch, yaw, q with
      | Some pitch, Some yaw, Some q =>
        Ok (Some (State roll pitch yaw q true (csv st)))
      | _, _, _ => Raise TypeError
      end
    end
  else Ok None.

Definition _update_line : packet T -> state -> result (option state) :=
  _update_line_with get_rpy_from_quaternion.

(** Lines 256-260. *)
Definition cube_rotation (st : state) : option (list (list T)) :=
  if have_quat st then
    Some (rotmat_from_quat (qx (q_latest st)) (qy (q_latest st))
                           (qz (q_latest st)) (qw (q_latest st)))
  else None.
End Program.
End Sensor_Dashboard.

(* ================================================================== *)
(** * rpy_output_text.py                                                *)
(* ================================================================== *)

Module rpy_output_text.
Section Program.
Context {T : Type} `{Float64 T}.
(** [json.loads]: [None] is [json.JSONDecodeError]. *)
Variable json_loads : string -> option (pyval T).

Definition get_rpy_from_quaternion (vals : pyval T) : result (rpy T) :=
  n <- py_len vals ;;
  if (n <? 4)%nat then Ok (Tup3 None None None) else
  try_except (float_first_four vals) [ValueError; TypeError; IndexError]
    (Ok (Tup3 None None None))
    (fun '(x, y, z, w) =>
      let t0 := fmul ftwo (fadd (fmul w x) (fmul y z)) in
      let t1 := fsub fone (fmul ftwo (fadd (fmul x x) (fmul y y))) in
      let roll_x := math_atan2 t0 t1 in
      let t2 := fmul ftwo (fsub (fmul w y) (fmul z x)) in
      let t2 := if flt fone t2 then fone else t2 in
      let t2 := if flt t2 (fneg fone) then fneg fone else t2 in
      pitch_y <- math_asin t2 ;;
      let t3 := fmul ftwo (fadd (fmul w z) (fmul x y)) in
      let t4 := fsub fone (fmul ftwo (fadd (fmul y y) (fmul z z))) in
      let yaw_z := math_atan2 t3 t4 in
      Ok (Tup3 (Some (math_degrees roll_x)) (Some (math_degrees pitch_y))
               (Some (math_degrees yaw_z)))).

(** What [main] writes: the lines printed (the three numbers of
    each) and, with [--csv], the rows of the log. *)
Record state : Type := State {
  printed : list (T * T * T);
  csv : option (list (row T))
}.

Definition header : row T :=
  map CText
    ["host_ts"; "ts_ns"; "type"; "name"; "vendor"; "version"; "acc";
     "values"; "roll_deg"; "pitch_deg"; "yaw_deg"]%string.

Definition init (csv_path : option string) : state :=
  State [] (match csv_path with Some _ => Some [header] | None => None end).

(** Lines 88-98: [vals] starts as [[]] and only a string or a list
    replaces it. *)
Definition normalize_values (vals_raw : pyval T) : pyval T :=
  match vals_raw with
  | PStr s => match json_loads s with
              | Some v => v
              | None => PList [vals_raw]
              end
  | PList _ => vals_raw
  | _ => PList []
  end.

(** Line 105: the sensor-type gate. *)
Definition dispatches (obj : packet T) : bool :=
  py_in_ints (dict_get obj "type" PNone) [11; 15]%Z.

(** [roll if roll is not None else ""]. *)
Definition angle_cell (a : option T) : cell T :=
  match a with
  | Some t => CValue (PFloat t)
  | None => CText ""
  end.

(** Lines 80-129: the body of the loop for one parsed line.
    [decode] is the function called at line 106. *)
Definition main_line_with (decode : pyval T -> result (rpy T))
    (host_ts : string) (obj : packet T) (st : state) : result state :=
  let vals_raw := dict_get obj "values" (PList []) in
  let sensor_type := dict_get obj "type" PNone in
  let name := dict_get obj "name" (PStr "Unknown") in
  let acc_val := dict_get obj "acc" (PStr "?") in
  let vals := normalize_values vals_raw in
  '(roll, pitch, yaw, out) <-
    (if py_in_ints sensor_type [11; 15]%Z then
       t <- decode vals ;;
       '(roll, pitch, yaw) <- unpack3 t ;;
       match roll with
       | None => Ok (roll, pitch, yaw, printed st)
       | Some r =>
         match pitch, yaw with
         | Some p, Some y => Ok (roll, pitch, yaw, printed st ++ [(r, p, y)])
         | _, _ => Raise TypeError
         end
       end
     else Ok (None, None, None, printed st)) ;;
  match csv st with
  | None => Ok (State out None)
  | Some rows =>
    joined <- join_values vals ;;
    Ok (State out
          (Some (rows ++
             [[CText host_ts; CValue (dict_get obj "ts_ns" PNone);
               CValue sensor_type; CValue name;
               CValue (dict_get obj "vendor" PNone);
               CValue (dict_get obj "version" PNone);
               CValue acc_val; joined;
               angle_cell roll; angle_cell pitch; angle_cell yaw]])))
  end.

Definition main_line : string -> packet T -> state -> result state :=
  main_line_with get_rpy_from_quaternion.

Fixpoint main_lines (lines : list (string * packet T)) (st : state)
  : result state :=
  match lines with
  | [] => Ok st
  | (host_ts, obj) :: lines' =>
    st' <- main_line host_ts obj st ;; main_lines lines' st'
  end.
End Program.
End rpy_output_text.

(* ================================================================== *)
(** * The two arithmetics                                               *)
(* ================================================================== *)

(** ** Real numbers: the arithmetic the formulas are written for.
    [atan2] is the two-argument arctangent with values in (-pi, pi],
    with Python's value 0 at the origin; [math.degrees] multiplies by
    [180 / pi]. [strtod] reads a number from a string. *)
Module RealModel.
Local Open Scope R_scope.

Definition Rltb (a b : R) : bool := if Rlt_dec a b then true else false.
Definition Reqb (a b : R) : bool := if Req_dec_T a b then true else false.

Definition atan2 (y x : R) : R :=
  if Rlt_dec 0 x then atan (y / x)
  else if Rlt_dec x 0 then
    (if Rle_dec 0 y then atan (y / x) + PI else atan (y / x) - PI)
  else if Rlt_dec 0 y then PI / 2
  else if Rlt_dec y 0 then - (PI / 2)
  else 0.

Definition degrees (x : R) : R := x * (180 / PI).

Definition R_Float64 (strtod : string -> option R) : Float64 R := {|
  fzero := 0;
  fone := 1;
  ftwo := 2;
  fneg := Ropp;
  fadd := Rplus;
  fsub := Rminus;
  fmul := Rmult;
  flt := Rltb;
  feq := Reqb;
  float_of_int := fun z => Some (IZR z);
  float_of_str := strtod;
  math_atan2 := atan2;
  asin_value := asin;
  math_degrees := degrees
|}.
End RealModel.

(** ** IEEE-754 binary64: the arithmetic CPython performs. The C
    library's [atan2], [asin] and [strtod] are parameters; the rest is
    the kernel's primitive float arithmetic. *)
Module FloatModel.
Local Open Scope float_scope.

(** [float(n)]: the nearest double, [OverflowError] when that is
    infinite. *)
Definition of_int (z : Z) : option float :=
  let f := SF2Prim (binary_normalize prec emax z 0 false) in
  if is_infinity f then None else Some f.

(** The double nearest to pi, and [math.degrees]'s
    [x * (180.0 / pi)]. *)
Definition pi : float := 0x1.921fb54442d18p+1.
Definition degrees (x : float) : float := x * (180 / pi).

Definition F_Float64 (c_atan2 : float -> float -> float)
    (c_asin : float -> float) (strtod : string -> option float)
  : Float64 float := {|
  fzero := 0;
  fone := 1;
  ftwo := 2;
  fneg := PrimFloat.opp;
  fadd := PrimFloat.add;
  fsub := PrimFloat.sub;
  fmul := PrimFloat.mul;
  flt := PrimFloat.ltb;
  feq := PrimFloat.eqb;
  float_of_int := of_int;
  float_of_str := strtod;
  math_atan2 := c_atan2;
  asin_value := c_asin;
  math_degrees := degrees
|}.
End FloatModel.

(* ================================================================== *)
(** * Facts that hold in every arithmetic                               *)
(* ================================================================== *)

Section Coercion.
Context {T : Type} `{Float64 T}.

Lemma py_len_items (vals : pyval T) (n : nat) :
  py_len vals = Ok n -> exists l, py_items vals = Some l /\ List.length l = n.
Proof.
  unfold py_len. destruct (py_items vals) as [l|]; intros E; inversion E.
  now exists l.
Qed.

Lemma four_items (l : list (pyval T)) :
  (4 <= List.length l)%nat -> exists a b c d rest, l = a :: b :: c :: d :: rest.
Proof.
  destruct l as [|a [|b [|c [|d rest]]]]; simpl; intros Hl; try lia.
  now exists a, b, c, d, rest.
Qed.

(** On a sequence of four items or more, the two ways of coercing the
    first four agree, value for value and exception for exception. *)
Lemma map_float_slice_first_four (vals : pyval T) (n : nat) :
  py_len vals = Ok n -> (4 <= n)%nat ->
  map_float_slice vals = float_first_four vals.
Proof.
  intros Hn H4. destruct (py_len_items _ Hn) as (l & Hl & Hlen).
  destruct (@four_items l) as (a & b & c & d & rest & ->); [lia|].
  unfold map_float_slice, float_first_four, py_slice_to, py_getitem.
  rewrite Hl. simpl.
  destruct (py_float a); simpl; [|reflexivity].
  destruct (py_float b); simpl; [|reflexivity].
  destruct (py_float c); simpl; [|reflexivity].
  destruct (py_float d); simpl; reflexivity.
Qed.

(** [float] raises nothing but [TypeError], [ValueError] and
    [OverflowError]. *)
Lemma py_float_raises (v : pyval T) (e : exn) :
  py_float v = Raise e -> e = TypeError \/ e = ValueError \/ e = OverflowError.
Proof.
  destruct v; simpl; try (intros E; inversion E; auto; fail).
  - destruct (float_of_int z); intros E; inversion E; auto.
  - destruct (float_of_str s); intros E; inversion E; auto.
Qed.

Lemma float_first_four_raises (vals : pyval T) (e : exn) :
  float_first_four vals = Raise e ->
  e = TypeError \/ e = ValueError \/ e = OverflowError \/ e = IndexError.
Proof.
  unfold float_first_four, py_getitem.
  destruct (py_items vals) as [l|]; simpl; [|intros E; inversion E; auto].
  do 4 (destruct l as [|?v l]; simpl; [intros HR; inversion HR; auto|];
        match goal with
        | |- context [py_float ?v] =>
            let E := fresh "E" in
            destruct (py_float v) eqn:E; simpl;
            [|intros HR; inversion HR; subst;
              destruct (py_float_raises _ E) as [?|[?|?]]; auto]
        end).
  intros HR; inversion HR.
Qed.
End Coercion.

(** ** The sentinel each decoder returns *)

Section Sentinels.
Context {T : Type} `{Float64 T}.

(** Fewer than four items: three [None]s from [Orientation_Fast] and
    [rpy_output_text], four from [Sensor_Dashboard]. *)
Lemma fast_short (vals : pyval T) (n : nat) :
  py_len vals = Ok n -> (n < 4)%nat ->
  Orientation_Fast.get_rpy_from_quaternion vals = Ok (Tup3 None None None).
Proof.
  intros Hn Hlt. unfold Orientation_Fast.get_rpy_from_quaternion.
  rewrite Hn. simpl. now apply Nat.ltb_lt in Hlt as ->.
Qed.

Lemma dash_short (vals : pyval T) (n : nat) :
  py_len vals = Ok n -> (n < 4)%nat ->
  Sensor_Dashboard.get_rpy_from_quaternion vals = Ok (Tup4 None None None None).
Proof.
  intros Hn Hlt. unfold Sensor_Dashboard.get_rpy_from_quaternion.
  rewrite Hn. simpl. now apply Nat.ltb_lt in Hlt as ->.
Qed.

Lemma text_short (vals : pyval T) (n : nat) :
  py_len vals = Ok n -> (n < 4)%nat ->
  rpy_output_text.get_rpy_from_quaternion vals = Ok (Tup3 None None None).
Proof.
  intros Hn Hlt. unfold rpy_output_text.get_rpy_from_quaternion.
  rewrite Hn. simpl. now apply Nat.ltb_lt in Hlt as ->.
Qed.

(** An entry [float] rejects with [ValueError] or [TypeError]: the
    same sentinels. *)
Lemma fast_not_numeric (vals : pyval T) (n : nat) (e : exn) :
  py_len vals = Ok n -> (4 <= n)%nat ->
  float_first_four vals = Raise e -> e <> OverflowError ->
  Orientation_Fast.get_rpy_from_quaternion vals = Ok (Tup3 None None None).
Proof.
  intros Hn H4 He Hov. unfold Orientation_Fast.get_rpy_from_quaternion.
  rewrite Hn. simpl. apply Nat.ltb_ge in H4 as ->. rewrite He.
  destruct (float_first_four_raises _ He) as [->|[->|[->| ->]]];
    simpl; congruence.
Qed.

Lemma dash_not_numeric (vals : pyval T) (n : nat) (e : exn) :
  py_len vals = Ok n -> (4 <= n)%nat ->
  float_first_four vals = Raise e -> e <> OverflowError ->
  Sensor_Dashboard.get_rpy_from_quaternion vals = Ok (Tup4 None None None None).
Proof.
  intros Hn H4 He Hov. unfold Sensor_Dashboard.get_rpy_from_quaternion.
  rewrite Hn. simpl. pose proof H4 as H4'. apply Nat.ltb_ge in H4' as ->.
  rewrite (map_float_slice_first_four _ Hn H4), He.
  assert (Hl : exists l, py_items vals = Some l /\ (4 <= List.length l)%nat).
  { destruct (py_len_items _ Hn) as (l & Hl & Hlen). exists l. split; [easy|lia]. }
  destruct Hl as (l & Hl & Hlen).
  destruct (float_first_four_raises _ He) as [->|[->|[->| ->]]];
    simpl; try congruence.
  exfalso. revert He. unfold float_first_four, py_getitem. rewrite Hl.
  destruct (@four_items _ l Hlen) as (a & b & c & d & rest & ->). simpl.
  destruct (py_float a) eqn:Ea; simpl;
    [|intros E; inversion E; subst; destruct (py_float_raises _ Ea) as [?|[?|?]]; discriminate].
  destruct (py_float b) eqn:Eb; simpl;
    [|intros E; inversion E; subst; destruct (py_float_raises _ Eb) as [?|[?|?]]; discriminate].
  destruct (py_float c) eqn:Ec; simpl;
    [|intros E; inversion E; subst; destruct (py_float_raises _ Ec) as [?|[?|?]]; discriminate].
  destruct (py_float d) eqn:Ed; simpl;
    [|intros E; inversion E; subst; destruct (py_float_raises _ Ed) as [?|[?|?]]; discriminate].
  discriminate.
Qed.

(** An integer too large for a double: [OverflowError] is in no
    [except] clause and leaves every decoder. *)
Lemma fast_overflow (vals : pyval T) (n : nat) :
  py_len vals = Ok n -> (4 <= n)%nat ->
  float_first_four vals = Raise OverflowError ->
  Orientation_Fast.get_rpy_from_quaternion vals = Raise OverflowError.
Proof.
  intros Hn H4 He. unfold Orientation_Fast.get_rpy_from_quaternion.
  rewrite Hn. simpl. apply Nat.ltb_ge in H4 as ->. now rewrite He.
Qed.

Lemma dash_overflow (vals : pyval T) (n : nat) :
  py_len vals = Ok n -> (4 <= n)%nat ->
  float_first_four vals = Raise OverflowError ->
  Sensor_Dashboard.get_rpy_from_quaternion vals = Raise OverflowError.
Proof.
  intros Hn H4 He. unfold Sensor_Dashboard.get_rpy_from_quaternion.
  rewrite Hn. simpl. pose proof H4 as H4'. apply Nat.ltb_ge in H4' as ->.
  now rewrite (map_float_slice_first_four _ Hn H4), He.
Qed.
End Sentinels.

(* ================================================================== *)
(** * The listeners                                                     *)
(* ================================================================== *)

(** A listener's line body [run], given the decoder it is to call,
    invokes it when the decoder's exception becomes the line's: no
    listener wraps the call in a [try], and a body that never reaches
    the call cannot follow the decoder's choice of exception. *)
Definition invokes {T S : Type}
    (run : (pyval T -> result (rpy T)) -> result S) : Prop :=
  forall e : exn, run (fun _ => Raise e) = Raise e.

(** The gate as the specification words it: the type is one of the two
    rotation-vector codes, or the declared name holds "rotation" in any
    letter case. *)
Definition spec_gate {T} `{Float64 T} (obj : packet T) : bool :=
  py_in_ints (dict_get obj "type" PNone) [11; 15]%Z ||
  match dict_get obj "name" PNone with
  | PStr s => contains "rotation" (lower s)
  | _ => false
  end.

Section Listeners.
Context {T : Type} `{Float64 T}.
Variable json_loads : string -> option (pyval T).

(** A rotation-vector packet with three values, as [Orientation_Fast]
    handles it: the decoder answers with three [None]s, the caller
    unpacks four names, and the [ValueError] of the unpacking ends the
    loop with the remaining lines unread. *)
Theorem C1_fast_short_packet_aborts_loop
    (ts : string) (rest : list (string * packet T))
    (st : Orientation_Fast.state) :
  let obj : packet T :=
    [("type", PInt 11); ("values", PList [PInt 1; PInt 2; PInt 3])]%string in
  Orientation_Fast.get_rpy_from_quaternion
    (Orientation_Fast.normalize_values json_loads
       (dict_get obj "values" (PList [])))
    = Ok (Tup3 None None None)
  /\ Orientation_Fast.update_lines json_loads ((ts, obj) :: rest) st
     = Raise ValueError.
Proof. split; reflexivity. Qed.

(** More generally: whenever the gate lets a packet through and the
    decoder answers with its three-entry sentinel, the line raises. *)
Lemma fast_sentinel_aborts_line
    (ts : string) (obj : packet T) (st : Orientation_Fast.state) :
  Orientation_Fast.dispatches obj = true ->
  Orientation_Fast.get_rpy_from_quaternion
    (Orientation_Fast.normalize_values json_loads
       (dict_get obj "values" (PList [])))
    = Ok (Tup3 None None None) ->
  Orientation_Fast.update_line json_loads ts obj st = Raise ValueError.
Proof.
  unfold Orientation_Fast.dispatches, Orientation_Fast.update_line,
    Orientation_Fast.update_line_with.
  intros -> ->. reflexivity.
Qed.

(** The same packet in the two sibling listeners: the sentinel has the
    arity the caller unpacks, and the line completes. *)
Lemma dash_short_packet_survives (st : Sensor_Dashboard.state) :
  Sensor_Dashboard._update_line json_loads
    [("type", PInt 11); ("values", PList [PInt 1; PInt 2; PInt 3])]%string st
  = Ok (Some st).
Proof. reflexivity. Qed.

Lemma text_short_packet_survives (ts : string) (pr : list (T * T * T)) :
  rpy_output_text.main_line json_loads ts
    [("type", PInt 11); ("values", PList [PInt 1; PInt 2; PInt 3])]%string
    (rpy_output_text.State pr None)
  = Ok (rpy_output_text.State pr None).
Proof. reflexivity. Qed.

(** ** The sensor-type gate *)

Lemma fast_gate (ts : string) (obj : packet T) (st : Orientation_Fast.state) :
  invokes (fun d => Orientation_Fast.update_line_with json_loads d ts obj st)
  <-> py_in_ints (dict_get obj "type" PNone) [11; 15]%Z = true.
Proof.
  unfold invokes, Orientation_Fast.update_line_with.
  destruct (py_in_ints (dict_get obj "type" PNone) [11; 15]%Z); split; intros G.
  - reflexivity.
  - intros e. reflexivity.
  - specialize (G ValueError). discriminate.
  - discriminate.
Qed.

Lemma text_gate (ts : string) (obj : packet T) (st : rpy_output_text.state) :
  invokes (fun d => rpy_output_text.main_line_with json_loads d ts obj st)
  <-> py_in_ints (dict_get obj "type" PNone) [11; 15]%Z = true.
Proof.
  unfold invokes, rpy_output_text.main_line_with.
  destruct (py_in_ints (dict_get obj "type" PNone) [11; 15]%Z); split; intros G.
  - reflexivity.
  - intros e. reflexivity.
  - specialize (G ValueError). revert G. simpl.
    destruct (rpy_output_text.csv st); simpl; [|discriminate].
    unfold join_values. destruct (py_items _); simpl; discriminate.
  - discriminate.
Qed.

Lemma dash_gate (obj : packet T) (st : Sensor_Dashboard.state) :
  invokes (fun d => Sensor_Dashboard._update_line_with json_loads d obj st)
  <-> (py_in_ints (dict_get obj "type" PNone) [11; 15; 20]%Z = true
       \/ exists s, dict_get obj "name" (PStr "") = PStr s
                    /\ contains "rotation" (lower s) = true).
Proof.
  unfold invokes, Sensor_Dashboard._update_line_with, Sensor_Dashboard.dispatches.
  destruct (py_in_ints (dict_get obj "type" PNone) [11; 15; 20]%Z); simpl.
  - split; [auto | intros _ e; reflexivity].
  - destruct (dict_get obj "name" (PStr "")) as [| | | |s|]; simpl;
      try (split; [intros G; specialize (G ValueError); discriminate
                  |intros [G|(s' & G & _)]; discriminate]).
    destruct (contains "rotation" (lower s)) eqn:E; simpl.
    + split; [intros _; right; now exists s | intros _ e; reflexivity].
    + split; [intros G; specialize (G ValueError); discriminate|].
      intros [G|(s' & G & G')]; [discriminate|].
      inversion G; subst. congruence.
Qed.

(** C7, as amended: each listener has its own gate. [Orientation_Fast]
    and [rpy_output_text] invoke the decoder exactly when the packet's
    type is 11 or 15, whatever the name; [Sensor_Dashboard] invokes it
    exactly when the type is 11, 15 or 20, or the name is a string
    holding "rotation" in any letter case. *)
Theorem C7_listener_gates
    (ts : string) (obj : packet T) (stF : Orientation_Fast.state)
    (stT : rpy_output_text.state) (stD : Sensor_Dashboard.state) :
  (invokes (fun d => Orientation_Fast.update_line_with json_loads d ts obj stF)
   <-> py_in_ints (dict_get obj "type" PNone) [11; 15]%Z = true)
  /\ (invokes (fun d => rpy_output_text.main_line_with json_loads d ts obj stT)
      <-> py_in_ints (dict_get obj "type" PNone) [11; 15]%Z = true)
  /\ (invokes (fun d => Sensor_Dashboard._update_line_with json_loads d obj stD)
      <-> (py_in_ints (dict_get obj "type" PNone) [11; 15; 20]%Z = true
           \/ exists s, dict_get obj "name" (PStr "") = PStr s
                        /\ contains "rotation" (lower s) = true)).
Proof.
  split; [apply fast_gate | split; [apply text_gate | apply dash_gate]].
Qed.
End Listeners.

(** C7 as stated fails in both directions: a packet of an unlisted type
    whose name says "Rotation Vector" passes the specification's gate,
    and [Orientation_Fast] does not decode it; a packet of type 20 with
    another name does not pass it, and [Sensor_Dashboard] decodes it. *)
Lemma C7_gate_counterexample :
  (exists obj : packet float,
     forall (F : Float64 float) loads ts st,
       spec_gate obj = true
       /\ ~ invokes (fun d => Orientation_Fast.update_line_with loads d ts obj st))
  /\ (exists obj : packet float,
        forall (F : Float64 float) loads st,
          spec_gate obj = false
          /\ invokes (fun d => Sensor_Dashboard._update_line_with loads d obj st)).
Proof.
  split.
  - exists [("type", PInt 99); ("name", PStr "Rotation Vector")]%string.
    intros F loads ts st. split; [reflexivity|].
    intros G. apply fast_gate in G. discriminate.
  - exists [("type", PInt 20); ("name", PStr "x")]%string.
    intros F loads st. split; [reflexivity|].
    apply dash_gate. left. reflexivity.
Qed.

(** ** The shape of a decoder's answer: all [None] or none *)

Section Shapes.
Context {T : Type} `{Float64 T}.

Lemma fast_shape (vals : pyval T) (t : rpy T) :
  Orientation_Fast.get_rpy_from_quaternion vals = Ok t ->
  t = Tup3 None None None
  \/ exists r p y q, t = Tup4 (Some r) (Some p) (Some y) (Some q).
Proof.
  unfold Orientation_Fast.get_rpy_from_quaternion, try_except.
  destruct (py_len vals) as [n|]; simpl; [|discriminate].
  destruct (n <? 4)%nat; [intros E; inversion E; auto|].
  destruct (float_first_four vals) as [[[[x y] z] w]|e].
  - match goal with |- context [math_asin ?a] => destruct (math_asin a) end;
      simpl; intros E; inversion E. right. eauto.
  - destruct e; simpl; intros E; inversion E; auto.
Qed.

Lemma dash_shape (vals : pyval T) (t : rpy T) :
  Sensor_Dashboard.get_rpy_from_quaternion vals = Ok t ->
  t = Tup4 None None None None
  \/ exists r p y q, t = Tup4 (Some r) (Some p) (Some y) (Some q).
Proof.
  unfold Sensor_Dashboard.get_rpy_from_quaternion, try_except.
  destruct (py_len vals) as [n|]; simpl; [|discriminate].
  destruct (n <? 4)%nat; [intros E; inversion E; auto|].
  destruct (map_float_slice vals) as [[[[x y] z] w]|e].
  - match goal with |- context [math_asin ?a] => destruct (math_asin a) end;
      simpl; intros E; inversion E. right. eauto.
  - destruct e; simpl; intros E; inversion E; auto.
Qed.

Lemma text_shape (vals : pyval T) (t : rpy T) :
  rpy_output_text.get_rpy_from_quaternion vals = Ok t ->
  t = Tup3 None None None
  \/ exists r p y, t = Tup3 (Some r) (Some p) (Some y).
Proof.
  unfold rpy_output_text.get_rpy_from_quaternion, try_except.
  destruct (py_len vals) as [n|]; simpl; [|discriminate].
  destruct (n <? 4)%nat; [intros E; inversion E; auto|].
  destruct (float_first_four vals) as [[[[x y] z] w]|e].
  - match goal with |- context [math_asin ?a] => destruct (math_asin a) end;
      simpl; intros E; inversion E. right. eauto.
  - destruct e; simpl; intros E; inversion E; auto.
Qed.
End Shapes.

(** ** The CSV log *)

(** The row [rpy_output_text] writes, given the three angle cells, and
    the row [Orientation_Fast] writes. *)
Definition text_row {T} (host_ts : string) (obj : packet T)
    (items : list (pyval T)) (roll pitch yaw : cell T) : row T :=
  [CText host_ts; CValue (dict_get obj "ts_ns" PNone);
   CValue (dict_get obj "type" PNone);
   CValue (dict_get obj "name" (PStr "Unknown"));
   CValue (dict_get obj "vendor" PNone);
   CValue (dict_get obj "version" PNone);
   CValue (dict_get obj "acc" (PStr "?"));
   CJoined items; roll; pitch; yaw].

Definition fast_row {T} (host_ts : string) (obj : packet T)
    (items : list (pyval T)) (roll pitch yaw : T) : row T :=
  [CText host_ts; CValue (dict_get obj "ts_ns" PNone);
   CValue (dict_get obj "type" PNone);
   CValue (dict_get obj "name" (PStr "Unknown"));
   CFixed2 roll; CFixed2 pitch; CFixed2 yaw; CJoined items].

Section Logging.
Context {T : Type} `{Float64 T}.
Variable json_loads : string -> option (pyval T).

Lemma text_logs_undecoded (ts : string) (obj : packet T)
    (pr : list (T * T * T)) (rows : list (row T)) (items : list (pyval T)) :
  let vals :=
    rpy_output_text.normalize_values json_loads (dict_get obj "values" (PList [])) in
  py_items vals = Some items ->
  rpy_output_text.dispatches obj = false
  \/ rpy_output_text.get_rpy_from_quaternion vals = Ok (Tup3 None None None) ->
  rpy_output_text.main_line json_loads ts obj (rpy_output_text.State pr (Some rows))
  = Ok (rpy_output_text.State pr
          (Some (rows ++ [text_row ts obj items (CText "") (CText "") (CText "")]))).
Proof.
  intros vals Hit Hcase.
  unfold rpy_output_text.main_line, rpy_output_text.main_line_with,
    rpy_output_text.dispatches in *.
  fold vals. unfold join_values.
  destruct (py_in_ints (dict_get obj "type" PNone) [11; 15]%Z).
  - destruct Hcase as [Hd|Hd]; [discriminate|]. rewrite Hd. simpl.
    rewrite Hit. reflexivity.
  - simpl. rewrite Hit. reflexivity.
Qed.

Lemma text_logs_decoded (ts : string) (obj : packet T)
    (pr : list (T * T * T)) (rows : list (row T)) (items : list (pyval T))
    (r p y : T) :
  let vals :=
    rpy_output_text.normalize_values json_loads (dict_get obj "values" (PList [])) in
  py_items vals = Some items ->
  rpy_output_text.dispatches obj = true ->
  rpy_output_text.get_rpy_from_quaternion vals = Ok (Tup3 (Some r) (Some p) (Some y)) ->
  rpy_output_text.main_line json_loads ts obj (rpy_output_text.State pr (Some rows))
  = Ok (rpy_output_text.State (pr ++ [(r, p, y)])
          (Some (rows ++ [text_row ts obj items (CValue (PFloat r))
                            (CValue (PFloat p)) (CValue (PFloat y))]))).
Proof.
  intros vals Hit Hd Hdec.
  unfold rpy_output_text.main_line, rpy_output_text.main_line_with,
    rpy_output_text.dispatches in *.
  fold vals. unfold join_values. rewrite Hd, Hdec. simpl.
  rewrite Hit. reflexivity.
Qed.

Lemma fast_logs_decoded (ts : string) (obj : packet T)
    (st : Orientation_Fast.state) (rows : list (row T))
    (items : list (pyval T)) (r p y : T) (q : quat T) :
  let vals :=
    Orientation_Fast.normalize_values json_loads (dict_get obj "values" (PList [])) in
  Orientation_Fast.csv st = Some rows ->
  py_items vals = Some items ->
  Orientation_Fast.dispatches obj = true ->
  Orientation_Fast.get_rpy_from_quaternion vals
    = Ok (Tup4 (Some r) (Some p) (Some y) (Some q)) ->
  Orientation_Fast.update_line json_loads ts obj st
  = Ok (Orientation_Fast.State q true (Some (r, p, y))
          (Some (rows ++ [fast_row ts obj items r p y]))).
Proof.
  intros vals Hcsv Hit Hd Hdec.
  unfold Orientation_Fast.update_line, Orientation_Fast.update_line_with,
    Orientation_Fast.dispatches in *.
  fold vals. unfold join_values. rewrite Hd, Hdec. simpl.
  rewrite Hcsv, Hit. reflexivity.
Qed.

Lemma fast_logs_only_decoded (ts : string) (obj : packet T)
    (st st' : Orientation_Fast.state) :
  let vals :=
    Orientation_Fast.normalize_values json_loads (dict_get obj "values" (PList [])) in
  Orientation_Fast.update_line json_loads ts obj st = Ok st' ->
  Orientation_Fast.csv st' = Orientation_Fast.csv st
  \/ exists r p y q,
       Orientation_Fast.dispatches obj = true
       /\ Orientation_Fast.get_rpy_from_quaternion vals
          = Ok (Tup4 (Some r) (Some p) (Some y) (Some q)).
Proof.
  intros vals.
  unfold Orientation_Fast.update_line, Orientation_Fast.update_line_with,
    Orientation_Fast.dispatches.
  fold vals.
  destruct (py_in_ints (dict_get obj "type" PNone) [11; 15]%Z);
    [|intros E; inversion E; auto].
  destruct (Orientation_Fast.get_rpy_from_quaternion vals) as [t|e] eqn:Hdec;
    simpl; [|discriminate].
  destruct (fast_shape _ Hdec) as [->|(r & p & y & q & ->)]; simpl;
    [discriminate|].
  intros _. right. exists r, p, y, q. auto.
Qed.

Lemma dash_never_logs (obj : packet T) (st st' : Sensor_Dashboard.state) :
  Sensor_Dashboard._update_line json_loads obj st = Ok (Some st') ->
  Sensor_Dashboard.csv st' = Sensor_Dashboard.csv st.
Proof.
  unfold Sensor_Dashboard._update_line, Sensor_Dashboard._update_line_with.
  destruct (Sensor_Dashboard.dispatches obj) as [[|]|]; simpl;
    try discriminate.
  destruct (Sensor_Dashboard.get_rpy_from_quaternion _) as [t|e] eqn:Hdec;
    simpl; [|discriminate].
  destruct (dash_shape _ Hdec) as [->|(r & p & y & q & ->)]; simpl;
    intros E; inversion E; reflexivity.
Qed.

(** A line of [rpy_output_text] that completes with logging on has
    appended exactly one row: the values were a sequence, and the angle
    cells are empty strings unless the packet was decoded. *)
Lemma text_logs_one_row (ts : string) (obj : packet T)
    (st st' : rpy_output_text.state) (rows : list (row T)) :
  let vals :=
    rpy_output_text.normalize_values json_loads (dict_get obj "values" (PList [])) in
  rpy_output_text.csv st = Some rows ->
  rpy_output_text.main_line json_loads ts obj st = Ok st' ->
  exists items,
    py_items vals = Some items
    /\ ((rpy_output_text.csv st'
         = Some (rows ++ [text_row ts obj items (CText "") (CText "") (CText "")])
         /\ rpy_output_text.printed st' = rpy_output_text.printed st
         /\ (rpy_output_text.dispatches obj = false
             \/ rpy_output_text.get_rpy_from_quaternion vals
                = Ok (Tup3 None None None)))
        \/ exists r p y,
             rpy_output_text.dispatches obj = true
             /\ rpy_output_text.get_rpy_from_quaternion vals
                = Ok (Tup3 (Some r) (Some p) (Some y))
             /\ rpy_output_text.csv st'
                = Some (rows ++ [text_row ts obj items (CValue (PFloat r))
                                   (CValue (PFloat p)) (CValue (PFloat y))])
             /\ rpy_output_text.printed st'
                = rpy_output_text.printed st ++ [(r, p, y)]).
Proof.
  intros vals Hcsv.
  unfold rpy_output_text.main_line, rpy_output_text.main_line_with,
    rpy_output_text.dispatches.
  fold vals. rewrite Hcsv. unfold join_values.
  destruct (py_in_ints (dict_get obj "type" PNone) [11; 15]%Z).
  - destruct (rpy_output_text.get_rpy_from_quaternion vals) as [t|e] eqn:Hdec;
      [|discriminate].
    destruct (text_shape _ Hdec) as [->|(r & p & y & ->)]; simpl;
      destruct (py_items vals) as [items|]; simpl; try discriminate;
      intros E; inversion E; subst; simpl; exists items;
      (split; [reflexivity|]).
    + left. auto.
    + right. exists r, p, y. auto.
  - simpl. destruct (py_items vals) as [items|]; simpl; [|discriminate].
    intros E. inversion E; subst; simpl. exists items.
    split; [reflexivity|]. left. auto.
Qed.

(** The two ways a line of [rpy_output_text] raises before the row is
    written: the decoder raises, or the values cannot be iterated when
    they are joined. *)
Lemma text_raises_before_write (ts : string) (obj : packet T)
    (st : rpy_output_text.state) :
  let vals :=
    rpy_output_text.normalize_values json_loads (dict_get obj "values" (PList [])) in
  (forall e,
     rpy_output_text.dispatches obj = true ->
     rpy_output_text.get_rpy_from_quaternion vals = Raise e ->
     rpy_output_text.main_line json_loads ts obj st = Raise e)
  /\ (forall rows,
        py_items vals = None ->
        rpy_output_text.csv st = Some rows ->
        rpy_output_text.main_line json_loads ts obj st = Raise TypeError).
Proof.
  intros vals.
  unfold rpy_output_text.main_line, rpy_output_text.main_line_with,
    rpy_output_text.dispatches.
  fold vals. split.
  - intros e Hd Hdec. rewrite Hd, Hdec. reflexivity.
  - intros rows Hit Hcsv. rewrite Hcsv. unfold join_values. rewrite Hit.
    destruct (py_in_ints (dict_get obj "type" PNone) [11; 15]%Z);
      [|reflexivity].
    unfold rpy_output_text.get_rpy_from_quaternion, py_len. rewrite Hit.
    reflexivity.
Qed.

End Logging.


(** ** The [values] field *)

Section Values.
Context {T : Type} `{Float64 T}.
Variable json_loads : string -> option (pyval T).

(** C10, as amended: a [values] string that is not JSON becomes the
    one-element list of that string in all three listeners, and every
    decoder answers that list with its sentinel, raising nothing. A
    [values] field that is neither a string nor a list becomes the
    empty list in [Orientation_Fast] and [rpy_output_text];
    [Sensor_Dashboard] hands it to the decoder as it is. *)
Theorem C10_values_field (s : string) :
  json_loads s = None ->
  (Orientation_Fast.normalize_values json_loads (PStr s) = PList [PStr s]
   /\ rpy_output_text.normalize_values json_loads (PStr s) = PList [PStr s]
   /\ Sensor_Dashboard.normalize_values json_loads (PStr s) = PList [PStr s])
  /\ (py_len (PList [@PStr T s]) = Ok 1%nat
      /\ Orientation_Fast.get_rpy_from_quaternion (PList [PStr s])
         = Ok (Tup3 None None None)
      /\ rpy_output_text.get_rpy_from_quaternion (PList [PStr s])
         = Ok (Tup3 None None None)
      /\ Sensor_Dashboard.get_rpy_from_quaternion (PList [PStr s])
         = Ok (Tup4 None None None None))
  /\ (forall v : pyval T,
        (forall s', v <> PStr s') -> (forall l, v <> PList l) ->
        Orientation_Fast.normalize_values json_loads v = PList []
        /\ rpy_output_text.normalize_values json_loads v = PList []
        /\ Sensor_Dashboard.normalize_values json_loads v = v).
Proof.
  intros Hs. split; [|split].
  - unfold Orientation_Fast.normalize_values, rpy_output_text.normalize_values,
      Sensor_Dashboard.normalize_values. rewrite Hs. auto.
  - repeat split.
  - intros v Hstr Hlist. destruct v; simpl; auto.
    + now destruct (Hstr s0).
    + now destruct (Hlist l).
Qed.
End Values.

(** C10 as stated fails in [Sensor_Dashboard]: a rotation-vector packet
    whose [values] is the number 5 is not given an empty list; the
    decoder receives the number, and [len] raises [TypeError]. *)
Lemma C10_dashboard_keeps_scalar :
  exists obj : packet float,
    forall (F : Float64 float) loads (st : Sensor_Dashboard.state),
      Sensor_Dashboard.normalize_values loads (dict_get obj "values" (PList []))
        = PInt 5
      /\ Sensor_Dashboard.normalize_values loads (dict_get obj "values" (PList []))
         <> PList []
      /\ Sensor_Dashboard._update_line loads obj st = Raise TypeError.
Proof.
  exists [("type", PInt 11); ("values", PInt 5)]%string.
  intros F loads st. repeat split. discriminate.
Qed.

(* ================================================================== *)
(** * The decoder over the real numbers                                 *)
(* ================================================================== *)

Module RealSpec.
Local Open Scope R_scope.

(** The frame correction in the specification's words. *)
Definition qFixed (q : quat R) : quat R :=
  Quat (qx q) (- qy q) (- qz q) (qw q).

Definition qCorrected (qf : quat R) : quat R :=
  Quat (- qx qf) (- qy qf) (- qz qf) (qw qf).

(** [t] clamped to [[lo, hi]]. *)
Definition clamp (t lo hi : R) : R := Rmax lo (Rmin hi t).

(** The Euler extraction in the specification's words, in degrees. *)
Definition roll (q : quat R) : R :=
  RealModel.degrees
    (RealModel.atan2 (2 * (qw q * qx q + qy q * qz q))
                     (1 - 2 * (qx q * qx q + qy q * qy q))).

Definition pitch (q : quat R) : R :=
  RealModel.degrees (asin (clamp (2 * (qw q * qy q - qz q * qx q)) (-1) 1)).

Definition yaw (q : quat R) : R :=
  RealModel.degrees
    (RealModel.atan2 (2 * (qw q * qz q + qx q * qy q))
                     (1 - 2 * (qy q * qy q + qz q * qz q))).

Definition dot (u v : list R) : R :=
  fold_right Rplus 0 (map (fun p => fst p * snd p) (combine u v)).

(** Rows of unit length, mutually orthogonal. *)
Definition orthonormal (m : list (list R)) : Prop :=
  match m with
  | [r1; r2; r3] =>
      dot r1 r1 = 1 /\ dot r2 r2 = 1 /\ dot r3 r3 = 1
      /\ dot r1 r2 = 0 /\ dot r1 r3 = 0 /\ dot r2 r3 = 0
  | _ => False
  end.
End RealSpec.

Section RealDecoder.
Local Open Scope R_scope.
Variable strtod : string -> option R.
Let F : Float64 R := RealModel.R_Float64 strtod.
#[local] Existing Instance F.

Lemma Rltb_true (a b : R) : RealModel.Rltb a b = true <-> a < b.
Proof. unfold RealModel.Rltb. destruct (Rlt_dec a b); split; intros; easy. Qed.

Lemma Rltb_false (a b : R) : RealModel.Rltb a b = false <-> b <= a.
Proof.
  unfold RealModel.Rltb. destruct (Rlt_dec a b); split; intros; try easy; lra.
Qed.

(** The two clamping idioms compute the same clamp. *)
Lemma clamp_conditional_real (t : R) :
  (let t' := if RealModel.Rltb 1 t then 1 else t in
   if RealModel.Rltb t' (-1) then -1 else t') = RealSpec.clamp t (-1) 1.
Proof.
  unfold RealSpec.clamp, Rmax, Rmin, RealModel.Rltb. cbv zeta.
  destruct (Rlt_dec 1 t); destruct (Rle_dec 1 t); try lra;
    repeat match goal with
    | |- context [Rlt_dec ?a ?b] => destruct (Rlt_dec a b)
    | |- context [Rle_dec ?a ?b] => destruct (Rle_dec a b)
    end; lra.
Qed.

Lemma clamp_max_min_real (t : R) :
  @py_max R F (-1) (@py_min R F 1 t) = RealSpec.clamp t (-1) 1.
Proof.
  unfold py_max, py_min, RealSpec.clamp, Rmax, Rmin. cbn.
  unfold RealModel.Rltb.
  destruct (Rle_dec 1 t); destruct (Rlt_dec t 1);
  repeat match goal with
  | |- context [Rlt_dec ?a ?b] => destruct (Rlt_dec a b)
  | |- context [Rle_dec ?a ?b] => destruct (Rle_dec a b)
  end; lra.
Qed.

Lemma clamp_range (t : R) : -1 <= RealSpec.clamp t (-1) 1 <= 1.
Proof.
  unfold RealSpec.clamp, Rmax, Rmin.
  destruct (Rle_dec 1 t);
  repeat match goal with
  | |- context [Rle_dec ?a ?b] => destruct (Rle_dec a b)
  end; lra.
Qed.

(** Inside [[-1, 1]] [math.asin] has no domain error. *)
Lemma math_asin_in_domain (t : R) :
  -1 <= t <= 1 -> @math_asin R F t = Ok (asin t).
Proof.
  intros [Hlo Hhi]. unfold math_asin. cbn.
  assert (E1 : RealModel.Rltb t (-1) = false) by (apply Rltb_false; lra).
  assert (E2 : RealModel.Rltb 1 t = false) by (apply Rltb_false; lra).
  replace (- (1)) with (-1) by lra.
  now rewrite E1, E2.
Qed.
Lemma fast_clamp_asin (t : R) :
  @math_asin R F
    (if flt (if flt fone t then fone else t) (fneg fone) then fneg fone
     else (if flt fone t then fone else t))
  = Ok (asin (RealSpec.clamp t (-1) 1)).
Proof.
  rewrite <- (clamp_conditional_real t). cbv zeta.
  apply math_asin_in_domain.
  pose proof (clamp_range t) as Hr. rewrite <- (clamp_conditional_real t) in Hr.
  exact Hr.
Qed.

Lemma dash_clamp_asin (t : R) :
  @math_asin R F (py_max (fneg fone) (py_min fone t))
  = Ok (asin (RealSpec.clamp t (-1) 1)).
Proof.
  change (@fneg R F fone) with (-1). change (@fone R F) with 1.
  rewrite clamp_max_min_real. apply math_asin_in_domain, clamp_range.
Qed.

(** What the three decoders return once the first four entries have
    coerced to [(x, y, z, w)]: the two viewers extract the angles of
    the corrected quaternion, the text listener those of the raw one. *)
Lemma fast_decode_real (vals : pyval R) (n : nat) (x y z w : R) :
  py_len vals = Ok n -> (4 <= n)%nat ->
  float_first_four vals = Ok (x, y, z, w) ->
  let qc := RealSpec.qCorrected (RealSpec.qFixed (Quat x y z w)) in
  Orientation_Fast.get_rpy_from_quaternion vals
  = Ok (Tup4 (Some (RealSpec.roll qc)) (Some (RealSpec.pitch qc))
             (Some (RealSpec.yaw qc)) (Some qc)).
Proof.
  intros Hn H4 Hff qc. unfold Orientation_Fast.get_rpy_from_quaternion.
  rewrite Hn. simpl bind. apply Nat.ltb_ge in H4 as ->.
  unfold try_except. rewrite Hff. cbv zeta.
  rewrite fast_clamp_asin. reflexivity.
Qed.

Lemma dash_decode_real (vals : pyval R) (n : nat) (x y z w : R) :
  py_len vals = Ok n -> (4 <= n)%nat ->
  float_first_four vals = Ok (x, y, z, w) ->
  let qc := RealSpec.qCorrected (RealSpec.qFixed (Quat x y z w)) in
  Sensor_Dashboard.get_rpy_from_quaternion vals
  = Ok (Tup4 (Some (RealSpec.roll qc)) (Some (RealSpec.pitch qc))
             (Some (RealSpec.yaw qc)) (Some qc)).
Proof.
  intros Hn H4 Hff qc. unfold Sensor_Dashboard.get_rpy_from_quaternion.
  rewrite Hn. simpl bind. pose proof H4 as H4'. apply Nat.ltb_ge in H4' as ->.
  unfold try_except. rewrite (map_float_slice_first_four _ Hn H4), Hff. cbv zeta.
  rewrite dash_clamp_asin. reflexivity.
Qed.

Lemma text_decode_real (vals : pyval R) (n : nat) (x y z w : R) :
  py_len vals = Ok n -> (4 <= n)%nat ->
  float_first_four vals = Ok (x, y, z, w) ->
  let q := Quat x y z w in
  rpy_output_text.get_rpy_from_quaternion vals
  = Ok (Tup3 (Some (RealSpec.roll q)) (Some (RealSpec.pitch q))
             (Some (RealSpec.yaw q))).
Proof.
  intros Hn H4 Hff q. unfold rpy_output_text.get_rpy_from_quaternion.
  rewrite Hn. simpl bind. apply Nat.ltb_ge in H4 as ->.
  unfold try_except. rewrite Hff. cbv zeta.
  rewrite fast_clamp_asin. reflexivity.
Qed.

(** A list that starts with four floats coerces to them. *)
Lemma four_floats (x y z w : R) (rest : list (pyval R)) :
  let vals := PList (PFloat x :: PFloat y :: PFloat z :: PFloat w :: rest) in
  py_len vals = Ok (4 + List.length rest)%nat
  /\ float_first_four vals = Ok (x, y, z, w).
Proof. split; reflexivity. Qed.
End RealDecoder.

(** ** The libm functions over the reals *)

Section RealTrig.
Local Open Scope R_scope.

Lemma atan2_right (y x : R) : 0 < x -> RealModel.atan2 y x = atan (y / x).
Proof. intros Hx. unfold RealModel.atan2. now destruct (Rlt_dec 0 x). Qed.

(** [atan2] takes its values in (-pi, pi]. *)
Lemma atan2_range (y x : R) : - PI < RealModel.atan2 y x <= PI.
Proof.
  pose proof PI_RGT_0 as Hpi. pose proof (atan_bound (y / x)) as [Hlo Hhi].
  unfold RealModel.atan2.
  destruct (Rlt_dec 0 x) as [Hx|Hx]; [lra|].
  destruct (Rlt_dec x 0) as [Hx'|Hx'].
  - destruct (Rle_dec 0 y) as [Hy|Hy].
    + assert (y / x <= 0).
      { unfold Rdiv. assert (/ x < 0) by now apply Rinv_lt_0_compat. nra. }
      assert (atan (y / x) <= 0).
      { destruct (Req_dec (y / x) 0) as [->|Hne]; [rewrite atan_0; lra|].
        left. rewrite <- atan_0. apply atan_increasing. lra. }
      lra.
    + assert (0 < y / x).
      { unfold Rdiv. assert (/ x < 0) by now apply Rinv_lt_0_compat. nra. }
      assert (0 < atan (y / x)).
      { rewrite <- atan_0. now apply atan_increasing. }
      lra.
  - destruct (Rlt_dec 0 y); [lra|]. destruct (Rlt_dec y 0); lra.
Qed.

Lemma degrees_half_turn (a : R) :
  - PI < a <= PI -> -180 < RealModel.degrees a <= 180.
Proof.
  intros [Hlo Hhi]. unfold RealModel.degrees. pose proof PI_RGT_0 as Hpi.
  assert (Hk : 0 < 180 / PI) by (apply Rdiv_lt_0_compat; lra).
  assert (HP : PI * (180 / PI) = 180) by (field; lra).
  nra.
Qed.

Lemma degrees_quarter_turn (a : R) :
  - PI / 2 <= a <= PI / 2 -> -90 <= RealModel.degrees a <= 90.
Proof.
  intros [Hlo Hhi]. unfold RealModel.degrees. pose proof PI_RGT_0 as Hpi.
  assert (Hk : 0 < 180 / PI) by (apply Rdiv_lt_0_compat; lra).
  assert (HP : PI * (180 / PI) = 180) by (field; lra).
  nra.
Qed.

Lemma degrees_right_angle : RealModel.degrees (PI / 2) = 90.
Proof. unfold RealModel.degrees. pose proof PI_RGT_0. field. lra. Qed.

Lemma degrees_0 : RealModel.degrees 0 = 0.
Proof. unfold RealModel.degrees. lra. Qed.

Lemma clamp_above (t : R) : 1 < t -> RealSpec.clamp t (-1) 1 = 1.
Proof.
  intros Ht. unfold RealSpec.clamp, Rmax, Rmin.
  destruct (Rle_dec 1 t); [|lra]. destruct (Rle_dec (-1) 1); lra.
Qed.

Lemma clamp_below (t : R) : t < -1 -> RealSpec.clamp t (-1) 1 = -1.
Proof.
  intros Ht. unfold RealSpec.clamp, Rmax, Rmin.
  destruct (Rle_dec 1 t); [lra|]. destruct (Rle_dec (-1) t); lra.
Qed.

Lemma clamp_inside (t : R) : -1 <= t <= 1 -> RealSpec.clamp t (-1) 1 = t.
Proof.
  intros Ht. unfold RealSpec.clamp, Rmax, Rmin.
  destruct (Rle_dec 1 t); destruct (Rle_dec (-1) _); lra.
Qed.

(** The ranges of the three angles, for any quaternion. *)
Lemma roll_range (q : quat R) : -180 < RealSpec.roll q <= 180.
Proof. apply degrees_half_turn, atan2_range. Qed.

Lemma yaw_range (q : quat R) : -180 < RealSpec.yaw q <= 180.
Proof. apply degrees_half_turn, atan2_range. Qed.

Lemma pitch_range (q : quat R) : -90 <= RealSpec.pitch q <= 90.
Proof.
  apply degrees_quarter_turn.
  pose proof (asin_bound (RealSpec.clamp (2 * (qw q * qy q - qz q * qx q)) (-1) 1)).
  lra.
Qed.

(** The matrix of a unit quaternion is orthonormal; the two viewers
    build the same matrix. *)
Lemma rotmat_orthonormal (strtod : string -> option R) (x y z w : R) :
  x * x + y * y + z * z + w * w = 1 ->
  RealSpec.orthonormal
    (@Orientation_Fast.rotmat_from_quat R (RealModel.R_Float64 strtod) x y z w).
Proof.
  intros Hu. unfold RealSpec.orthonormal, Orientation_Fast.rotmat_from_quat,
    RealSpec.dot. cbn.
  repeat split; nsatz.
Qed.

Lemma rotmat_same {T} `{Float64 T} (x y z w : T) :
  Sensor_Dashboard.rotmat_from_quat x y z w
  = Orientation_Fast.rotmat_from_quat x y z w.
Proof. reflexivity. Qed.
End RealTrig.

(** ** The decoder's contract over the reals *)

Section RealClaims.
Local Open Scope R_scope.
Variable strtod : string -> option R.
Let F : Float64 R := RealModel.R_Float64 strtod.
#[local] Existing Instance F.

(** C2, as amended: in the two viewers ([Orientation_Fast] and
    [Sensor_Dashboard]), whenever the first four entries coerce to
    floats (x, y, z, w), the decoder returns the quaternion qCorrected
    obtained from qFixed = (x, -y, -z, w) by negating x, y and z, and
    its angles are the ones the uncorrected extraction of
    [rpy_output_text] gives on qCorrected; no switch turns the
    correction off. *)
Theorem C2_viewers_correct_the_frame
    (vals : pyval R) (n : nat) (x y z w : R) :
  py_len vals = Ok n -> (4 <= n)%nat ->
  float_first_four vals = Ok (x, y, z, w) ->
  let qC := RealSpec.qCorrected (RealSpec.qFixed (Quat x y z w)) in
  exists roll pitch yaw : R,
    Orientation_Fast.get_rpy_from_quaternion vals
      = Ok (Tup4 (Some roll) (Some pitch) (Some yaw) (Some qC))
    /\ Sensor_Dashboard.get_rpy_from_quaternion vals
       = Ok (Tup4 (Some roll) (Some pitch) (Some yaw) (Some qC))
    /\ rpy_output_text.get_rpy_from_quaternion
         (PList [PFloat (qx qC); PFloat (qy qC); PFloat (qz qC); PFloat (qw qC)])
       = Ok (Tup3 (Some roll) (Some pitch) (Some yaw)).
Proof.
  intros Hn H4 Hff qC.
  exists (RealSpec.roll qC), (RealSpec.pitch qC), (RealSpec.yaw qC).
  split; [|split].
  - exact (fast_decode_real strtod _ Hn H4 Hff).
  - exact (dash_decode_real strtod _ Hn H4 Hff).
  - destruct (four_floats strtod (qx qC) (qy qC) (qz qC) (qw qC) []) as [Hn' Hff'].
    apply (text_decode_real strtod _ Hn'); [simpl; lia | exact Hff'].
Qed.

(** C4: for every corrected quaternion (x, y, z, w), that is for the
    raw input (-x, y, z, w) the correction sends to it, both viewers
    return roll = atan2(2(wx+yz), 1-2(x^2+y^2)), pitch = asin of
    2(wy-zx) clamped to [-1, 1], yaw = atan2(2(wz+xy), 1-2(y^2+z^2)),
    each times 180/pi. *)
Theorem C4_euler_formulas (x y z w : R) (rest : list (pyval R)) :
  let vals := PList (PFloat (- x) :: PFloat y :: PFloat z :: PFloat w :: rest) in
  let roll :=
    RealModel.atan2 (2 * (w * x + y * z)) (1 - 2 * (x * x + y * y)) * (180 / PI) in
  let pitch := asin (Rmax (-1) (Rmin 1 (2 * (w * y - z * x)))) * (180 / PI) in
  let yaw :=
    RealModel.atan2 (2 * (w * z + x * y)) (1 - 2 * (y * y + z * z)) * (180 / PI) in
  Orientation_Fast.get_rpy_from_quaternion vals
    = Ok (Tup4 (Some roll) (Some pitch) (Some yaw) (Some (Quat x y z w)))
  /\ Sensor_Dashboard.get_rpy_from_quaternion vals
     = Ok (Tup4 (Some roll) (Some pitch) (Some yaw) (Some (Quat x y z w))).
Proof.
  intros vals roll pitch yaw.
  destruct (four_floats strtod (- x) y z w rest) as [Hn Hff]. fold vals in Hn, Hff.
  assert (Hq : RealSpec.qCorrected (RealSpec.qFixed (Quat (- x) y z w)) = Quat x y z w).
  { unfold RealSpec.qCorrected, RealSpec.qFixed. simpl.
    now rewrite !Ropp_involutive. }
  pose proof (fast_decode_real strtod _ Hn (Nat.le_add_r 4 _) Hff) as HF.
  pose proof (dash_decode_real strtod _ Hn (Nat.le_add_r 4 _) Hff) as HD.
  cbv zeta in HF, HD. rewrite Hq in HF, HD.
  split; [exact HF | exact HD].
Qed.


(** C6: when the pitch argument t = 2(wy - zx) of the corrected
    quaternion lies outside [-1, 1], both viewers return, without a
    domain error, pitch = 90 degrees for t > 1 and -90 for t < -1. *)
Theorem C6_pitch_clamped (x y z w : R) (rest : list (pyval R)) :
  let vals := PList (PFloat x :: PFloat y :: PFloat z :: PFloat w :: rest) in
  let qC := RealSpec.qCorrected (RealSpec.qFixed (Quat x y z w)) in
  let t := 2 * (qw qC * qy qC - qz qC * qx qC) in
  1 < t \/ t < -1 ->
  exists roll yaw : R,
    Orientation_Fast.get_rpy_from_quaternion vals
      = Ok (Tup4 (Some roll) (Some (if Rlt_dec 1 t then 90 else -90))
                 (Some yaw) (Some qC))
    /\ Sensor_Dashboard.get_rpy_from_quaternion vals
       = Ok (Tup4 (Some roll) (Some (if Rlt_dec 1 t then 90 else -90))
                  (Some yaw) (Some qC)).
Proof.
  intros vals qC t Ht.
  destruct (four_floats strtod x y z w rest) as [Hn Hff]. fold vals in Hn, Hff.
  exists (RealSpec.roll qC), (RealSpec.yaw qC).
  assert (Hp : RealSpec.pitch qC = if Rlt_dec 1 t then 90 else -90).
  { unfold RealSpec.pitch. fold t. destruct (Rlt_dec 1 t) as [H1|H1].
    - rewrite (clamp_above H1), asin_1. apply degrees_right_angle.
    - assert (Hlt : t < -1) by (destruct Ht; [contradiction|assumption]).
      rewrite (clamp_below Hlt).
      replace (-1) with (- (1)) by lra. rewrite asin_opp, asin_1.
      unfold RealModel.degrees. pose proof PI_RGT_0. field. lra. }
  rewrite <- Hp. split.
  - exact (fast_decode_real strtod _ Hn (Nat.le_add_r 4 _) Hff).
  - exact (dash_decode_real strtod _ Hn (Nat.le_add_r 4 _) Hff).
Qed.
End RealClaims.

(** ** The quarter turn about the vertical axis *)

Section QuarterTurn.
Local Open Scope R_scope.

Lemma sin_le_tan (b : R) : 0 < b < PI / 2 -> sin b <= tan b.
Proof.
  intros [Hlo Hhi]. unfold tan.
  assert (Hs : 0 < sin b) by (apply sin_gt_0; pose proof PI_RGT_0; lra).
  assert (Hc : 0 < cos b) by (apply cos_gt_0; lra).
  assert (Hc1 : cos b <= 1) by apply COS_bound.
  apply (Rmult_le_reg_r (cos b)); [exact Hc|].
  unfold Rdiv. rewrite Rmult_assoc, Rinv_l by lra. nra.
Qed.

(** The arctangent of the small ratio that the input 0.7071 leaves. *)
Lemma atan_residue : 0 < atan (1918 / 99998082) < / 6000.
Proof.
  pose proof PI2_1 as Hpi. split.
  - rewrite <- atan_0. apply atan_increasing. lra.
  - assert (Hb : - (PI / 2) < / 6000 < PI / 2) by lra.
    rewrite <- (atan_tan (/ 6000) Hb). apply atan_increasing.
    apply Rlt_le_trans with (sin (/ 6000)); [|apply sin_le_tan; lra].
    assert (H0 : 0 <= / 6000) by lra.
    assert (H2 : / 6000 <= PI) by lra.
    destruct (SIN _ H0 H2) as [Hlb _].
    unfold sin_lb, sin_approx, sin_term in Hlb. simpl in Hlb. lra.
Qed.

Lemma quarter_turn_yaw :
  let s := 7071 / 10000 in
  let yaw := RealSpec.yaw (RealSpec.qCorrected (RealSpec.qFixed (Quat 0 0 s s))) in
  8999 / 100 < yaw < 90.
Proof.
  intros s yaw. unfold yaw, RealSpec.yaw. simpl.
  replace (2 * (s * - - s + - 0 * - - 0)) with (99998082 / 100000000)
    by (unfold s; field).
  replace (1 - 2 * (- - 0 * - - 0 + - - s * - - s)) with (1918 / 100000000)
    by (unfold s; field).
  rewrite atan2_right by lra.
  replace (99998082 / 100000000 / (1918 / 100000000)) with (/ (1918 / 99998082))
    by field.
  rewrite atan_inv by lra.
  destruct atan_residue as [Hlo Hhi]. pose proof PI2_3_2 as Hpi.
  unfold RealModel.degrees.
  assert (Hk : 0 < 180 / PI) by (apply Rdiv_lt_0_compat; lra).
  assert (Hk' : 180 / PI < 60).
  { apply (Rmult_lt_reg_r PI); [lra|]. unfold Rdiv.
    rewrite Rmult_assoc, Rinv_l by lra. lra. }
  assert (HP : PI / 2 * (180 / PI) = 90) by (field; lra).
  split; nra.
Qed.

Lemma quarter_turn_level :
  let s := 7071 / 10000 in
  let qC := RealSpec.qCorrected (RealSpec.qFixed (Quat 0 0 s s)) in
  RealSpec.roll qC = 0 /\ RealSpec.pitch qC = 0 /\ qC = Quat 0 0 s s.
Proof.
  intros s qC. unfold qC, RealSpec.roll, RealSpec.pitch. simpl. repeat split.
  - replace (2 * (s * - 0 + - - 0 * - - s)) with 0 by lra.
    replace (1 - 2 * (- 0 * - 0 + - - 0 * - - 0)) with 1 by lra.
    rewrite atan2_right by lra.
    replace (0 / 1) with 0 by lra. rewrite atan_0. apply degrees_0.
  - replace (2 * (s * - - 0 - - - s * - 0)) with 0 by lra.
    rewrite clamp_inside by lra. rewrite asin_0. apply degrees_0.
  - unfold RealSpec.qCorrected, RealSpec.qFixed. simpl.
    now rewrite !Ropp_involutive, Ropp_0.
Qed.

(** What both viewers answer to (0, 0, 0.7071, 0.7071). *)
Lemma quarter_turn_decoded (strtod : string -> option R) :
  let F : Float64 R := RealModel.R_Float64 strtod in
  let s := 7071 / 10000 in
  let vals := PList [PFloat 0; PFloat 0; PFloat s; PFloat s] in
  exists yaw : R,
    Orientation_Fast.get_rpy_from_quaternion vals
      = Ok (Tup4 (Some 0) (Some 0) (Some yaw) (Some (Quat 0 0 s s)))
    /\ Sensor_Dashboard.get_rpy_from_quaternion vals
       = Ok (Tup4 (Some 0) (Some 0) (Some yaw) (Some (Quat 0 0 s s)))
    /\ 8999 / 100 < yaw < 90.
Proof.
  intros F s vals. subst F.
  destruct (four_floats strtod 0 0 s s []) as [Hn Hff]. fold vals in Hn, Hff.
  pose proof (fast_decode_real strtod _ Hn (Nat.le_add_r 4 _) Hff) as HF.
  pose proof (dash_decode_real strtod _ Hn (Nat.le_add_r 4 _) Hff) as HD.
  cbv zeta in HF, HD.
  destruct quarter_turn_level as (Hr & Hp & Hq). fold s in Hr, Hp, Hq.
  rewrite Hr, Hp in HF, HD.
  exists (RealSpec.yaw (RealSpec.qCorrected (RealSpec.qFixed (Quat 0 0 s s)))).
  split; [|split].
  - rewrite HF. now rewrite Hq at 2.
  - rewrite HD. now rewrite Hq at 2.
  - apply quarter_turn_yaw.
Qed.

(** C3, as amended: for the input (0, 0, 0.7071, 0.7071) the y/z flip
    followed by the conjugation leaves z as it was, and both viewers
    return roll = 0, pitch = 0 and a yaw within a hundredth of a degree
    below +90 (over real arithmetic). *)
Theorem C3_quarter_turn_is_plus_90 (strtod : string -> option R) :
  let F : Float64 R := RealModel.R_Float64 strtod in
  let s := 7071 / 10000 in
  let vals := PList [PFloat 0; PFloat 0; PFloat s; PFloat s] in
  exists yaw : R,
    Orientation_Fast.get_rpy_from_quaternion vals
      = Ok (Tup4 (Some 0) (Some 0) (Some yaw) (Some (Quat 0 0 s s)))
    /\ Sensor_Dashboard.get_rpy_from_quaternion vals
       = Ok (Tup4 (Some 0) (Some 0) (Some yaw) (Some (Quat 0 0 s s)))
    /\ 8999 / 100 < yaw < 90.
Proof. exact (quarter_turn_decoded strtod). Qed.

(** C3 as stated fails: whatever [float] makes of strings, neither
    viewer returns a yaw within one degree of -90 for that input. *)
Lemma C3_yaw_is_not_minus_90 :
  ~ exists (strtod : string -> option R) (r p y : option R) (q : option (quat R)) (yaw : R),
      (@Orientation_Fast.get_rpy_from_quaternion R (RealModel.R_Float64 strtod)
         (PList [PFloat 0; PFloat 0; PFloat (7071 / 10000); PFloat (7071 / 10000)])
       = Ok (Tup4 r p (Some yaw) q)
       \/ @Sensor_Dashboard.get_rpy_from_quaternion R (RealModel.R_Float64 strtod)
            (PList [PFloat 0; PFloat 0; PFloat (7071 / 10000); PFloat (7071 / 10000)])
          = Ok (Tup4 r p (Some yaw) q))
      /\ Rabs (yaw - (-90)) <= 1.
Proof.
  intros (strtod & r & p & y & q & yaw & Hdec & Habs).
  destruct (quarter_turn_decoded strtod) as (yaw' & HF & HD & Hlo & Hhi).
  cbv zeta in HF, HD.
  assert (yaw = yaw') as ->.
  { destruct Hdec as [Hdec|Hdec]; [rewrite HF in Hdec|rewrite HD in Hdec];
      inversion Hdec; reflexivity. }
  unfold Rabs in Habs. destruct (Rcase_abs _); lra.
Qed.
End QuarterTurn.

(** ** The listener without the correction *)

Section Uncorrected.
Local Open Scope R_scope.

Lemma atan_2_pos : 0 < atan 2.
Proof. rewrite <- atan_0. apply atan_increasing. lra. Qed.

Lemma degrees_sign (a : R) :
  (0 < a -> 0 < RealModel.degrees a) /\ (a < 0 -> RealModel.degrees a < 0).
Proof.
  unfold RealModel.degrees. pose proof PI_RGT_0.
  assert (0 < 180 / PI) by (apply Rdiv_lt_0_compat; lra).
  split; intros; nra.
Qed.

(** For (1/2, 0, 0, 1) the raw roll is positive and the corrected roll
    negative. *)
Lemma half_roll_signs :
  0 < RealSpec.roll (Quat (1 / 2) 0 0 1)
  /\ RealSpec.roll (RealSpec.qCorrected (RealSpec.qFixed (Quat (1 / 2) 0 0 1))) < 0.
Proof.
  unfold RealSpec.roll. simpl. split.
  - replace (2 * (1 * (1 / 2) + 0 * 0)) with 1 by lra.
    replace (1 - 2 * (1 / 2 * (1 / 2) + 0 * 0)) with (1 / 2) by lra.
    rewrite atan2_right by lra.
    replace (1 / (1 / 2)) with 2 by lra.
    apply degrees_sign, atan_2_pos.
  - replace (2 * (1 * - (1 / 2) + - - 0 * - - 0)) with (- (1)) by lra.
    replace (1 - 2 * (- (1 / 2) * - (1 / 2) + - - 0 * - - 0)) with (1 / 2) by lra.
    rewrite atan2_right by lra.
    replace (- (1) / (1 / 2)) with (- (2)) by lra.
    rewrite atan_opp. apply degrees_sign. pose proof atan_2_pos. lra.
Qed.
End Uncorrected.

(** C2 as stated fails for [rpy_output_text]: on (1/2, 0, 0, 1) it
    returns three angles and no quaternion, and its roll, taken from
    the raw quaternion, is positive where the corrected quaternion's
    roll, which [Orientation_Fast] returns, is negative. *)
Lemma C2_text_listener_uncorrected :
  exists vals : pyval R,
    forall strtod : string -> option R,
      let F : Float64 R := RealModel.R_Float64 strtod in
      exists rT pT yT rF pF yF qF,
        rpy_output_text.get_rpy_from_quaternion vals
          = Ok (Tup3 (Some rT) (Some pT) (Some yT))
        /\ Orientation_Fast.get_rpy_from_quaternion vals
           = Ok (Tup4 (Some rF) (Some pF) (Some yF) (Some qF))
        /\ (rF < 0 < rT)%R.
Proof.
  exists (PList [PFloat (1 / 2)%R; PFloat 0%R; PFloat 0%R; PFloat 1%R]).
  intros strtod F. subst F.
  destruct (four_floats strtod (1 / 2) 0 0 1 []) as [Hn Hff].
  pose proof (text_decode_real strtod _ Hn (Nat.le_add_r 4 _) Hff) as HT.
  pose proof (fast_decode_real strtod _ Hn (Nat.le_add_r 4 _) Hff) as HF.
  cbv zeta in HT, HF. destruct half_roll_signs as [Hpos Hneg].
  do 7 eexists. split; [exact HT|]. split; [exact HF|]. split; assumption.
Qed.

(* ================================================================== *)
(** * Instances of the conditional statements                           *)
(* ================================================================== *)

(** A [float] under which no string reads as a number, and a
    [json.loads] under which no string is JSON: enough for packets whose
    numbers arrive as numbers. *)
Definition no_numeral : string -> option R := fun _ => None.
Definition no_json : string -> option (pyval R) := fun _ => None.

Lemma C2_viewers_correct_the_frame_witness :
  let F : Float64 R := RealModel.R_Float64 no_numeral in
  let vals : pyval R := PList [PInt 1; PInt 0; PInt 0; PInt 1] in
  let qC := Quat (- 1)%R (- - 0)%R (- - 0)%R 1%R in
  py_len vals = Ok 4%nat /\ (4 <= 4)%nat
  /\ float_first_four vals = Ok (1%R, 0%R, 0%R, 1%R)
  /\ exists roll pitch yaw : R,
       Orientation_Fast.get_rpy_from_quaternion vals
         = Ok (Tup4 (Some roll) (Some pitch) (Some yaw) (Some qC))
       /\ Sensor_Dashboard.get_rpy_from_quaternion vals
          = Ok (Tup4 (Some roll) (Some pitch) (Some yaw) (Some qC))
       /\ rpy_output_text.get_rpy_from_quaternion
            (PList [PFloat (qx qC); PFloat (qy qC); PFloat (qz qC); PFloat (qw qC)])
          = Ok (Tup3 (Some roll) (Some pitch) (Some yaw)).
Proof.
  intros F vals qC.
  refine (conj eq_refl (conj (le_n 4) (conj eq_refl _))).
  exact (@C2_viewers_correct_the_frame no_numeral vals 4 1 0 0 1
           eq_refl (le_n 4) eq_refl).
Defined.


Lemma C6_pitch_clamped_witness :
  let F : Float64 R := RealModel.R_Float64 no_numeral in
  let vals : pyval R := PList [PFloat 0%R; PFloat 1%R; PFloat 0%R; PFloat 1%R] in
  let qC := RealSpec.qCorrected (RealSpec.qFixed (Quat 0 1 0 1))%R in
  let t := (2 * (qw qC * qy qC - qz qC * qx qC))%R in
  (1 < t \/ t < -1)%R
  /\ exists roll yaw : R,
       Orientation_Fast.get_rpy_from_quaternion vals
         = Ok (Tup4 (Some roll) (Some (if Rlt_dec 1 t then 90 else -90)%R)
                    (Some yaw) (Some qC))
       /\ Sensor_Dashboard.get_rpy_from_quaternion vals
          = Ok (Tup4 (Some roll) (Some (if Rlt_dec 1 t then 90 else -90)%R)
                     (Some yaw) (Some qC)).
Proof.
  intros F vals qC t.
  assert (Ht : (1 < t \/ t < -1)%R) by (left; unfold t; simpl; lra).
  exact (conj Ht (@C6_pitch_clamped no_numeral 0 1 0 1 [] Ht)).
Defined.

Lemma C10_values_field_witness :
  let F : Float64 R := RealModel.R_Float64 no_numeral in
  no_json "abc" = None
  /\ Orientation_Fast.normalize_values no_json (PStr "abc") = PList [PStr "abc"]
  /\ rpy_output_text.normalize_values no_json (PStr "abc") = PList [PStr "abc"]
  /\ Sensor_Dashboard.normalize_values no_json (PStr "abc") = PList [PStr "abc"].
Proof.
  intros F.
  exact (conj eq_refl
           (proj1 (@C10_values_field R F no_json "abc" eq_refl))).
Defined.

(* ================================================================== *)
(** * The decoder over binary64 floats                                  *)
(* ================================================================== *)

(** ** The order of floats around 1 and -1, from the kernel's
    specification of [<?] *)

Section SpecOrder.
Variables (m0 : positive) (e0 : Z).
Let one := S754_finite false m0 e0.
Let mone := S754_finite true m0 e0.

Ltac cases :=
  unfold SFltb, SFcompare, one, mone;
  change (Pos.compare_cont Eq) with Pos.compare;
  repeat match goal with
  | |- context [Z.compare ?a ?b] => destruct (Z.compare_spec a b)
  | |- context [Pos.compare ?a ?b] => destruct (Pos.compare_spec a b)
  end; simpl; intros; subst; try discriminate; try reflexivity; try lia.

Lemma SFltb_one_asym x : SFltb one x = true -> SFltb x one = false.
Proof. destruct x as [s|s| |s m e]; try destruct s; cases. Qed.

Lemma SFltb_asym_one x : SFltb x one = true -> SFltb one x = false.
Proof. destruct x as [s|s| |s m e]; try destruct s; cases. Qed.

Lemma SFltb_mone_asym x : SFltb mone x = true -> SFltb x mone = false.
Proof. destruct x as [s|s| |s m e]; try destruct s; cases. Qed.

Lemma SFltb_below x :
  SFltb x mone = true -> SFltb x one = true /\ SFltb mone x = false.
Proof.
  destruct x as [s|s| |s m e]; try destruct s; intros Hx; split; revert Hx; cases.
Qed.

Lemma SF_eq_one x :
  x <> S754_nan -> SFltb one x = false -> SFltb x one = false -> x = one.
Proof.
  destruct x as [s|s| |s m e]; try destruct s; try congruence; intros _; cases.
Qed.

Lemma SF_eq_mone x :
  x <> S754_nan -> SFltb x mone = false -> SFltb mone x = false -> x = mone.
Proof.
  destruct x as [s|s| |s m e]; try destruct s; try congruence; intros _; cases.
Qed.
End SpecOrder.

Section FloatOrder.
Local Open Scope float_scope.

Lemma not_nan_spec (t : float) : is_nan t = false -> Prim2SF t <> S754_nan.
Proof.
  intros Hn Hsf. unfold is_nan in Hn.
  rewrite FloatAxioms.eqb_spec, Hsf in Hn. discriminate.
Qed.

(** There is one NaN. *)
Lemma nan_unique (t : float) : is_nan t = true -> t = nan.
Proof.
  intros Hn. apply Prim2SF_inj. unfold Prim2SF at 1. rewrite Hn.
  vm_compute. reflexivity.
Qed.

Lemma SF_one : Prim2SF 1 = S754_finite false 4503599627370496 (-52).
Proof. vm_compute. reflexivity. Qed.

Lemma SF_minus_one : Prim2SF (-1) = S754_finite true 4503599627370496 (-52).
Proof. vm_compute. reflexivity. Qed.

Lemma ltb_one_asym t : (1 <? t) = true -> (t <? 1) = false.
Proof. rewrite !FloatAxioms.ltb_spec, SF_one. apply SFltb_one_asym. Qed.

Lemma ltb_asym_one t : (t <? 1) = true -> (1 <? t) = false.
Proof. rewrite !FloatAxioms.ltb_spec, SF_one. apply SFltb_asym_one. Qed.

Lemma ltb_minus_one_asym t : (-1 <? t) = true -> (t <? -1) = false.
Proof. rewrite !FloatAxioms.ltb_spec, SF_minus_one. apply SFltb_mone_asym. Qed.

Lemma ltb_below t : (t <? -1) = true -> (t <? 1) = true /\ (-1 <? t) = false.
Proof.
  rewrite !FloatAxioms.ltb_spec, SF_one, SF_minus_one. apply SFltb_below.
Qed.

Lemma eq_one t :
  is_nan t = false -> (1 <? t) = false -> (t <? 1) = false -> t = 1.
Proof.
  intros Hn. apply not_nan_spec in Hn. rewrite !FloatAxioms.ltb_spec, SF_one.
  intros A B. apply Prim2SF_inj. rewrite SF_one. now apply SF_eq_one.
Qed.

Lemma eq_minus_one t :
  is_nan t = false -> (t <? -1) = false -> (-1 <? t) = false -> t = -1.
Proof.
  intros Hn. apply not_nan_spec in Hn.
  rewrite !FloatAxioms.ltb_spec, SF_minus_one.
  intros A B. apply Prim2SF_inj. rewrite SF_minus_one. now apply SF_eq_mone.
Qed.
End FloatOrder.

Module FloatSpec.
Local Open Scope float_scope.

(** The two clamping idioms on floats: the conditionals of
    [Orientation_Fast], the [max(-1.0, min(1.0, t))] of
    [Sensor_Dashboard]. *)
Definition clamp_conditional (t : float) : float :=
  if (if 1 <? t then 1 else t) <? -1 then -1 else (if 1 <? t then 1 else t).

Definition clamp_max_min (t : float) : float :=
  if -1 <? (if t <? 1 then t else 1) then (if t <? 1 then t else 1) else -1.

(** The pitch argument [2(wy - zx)] of the corrected quaternion of a
    raw (x, y, z, w). *)
Definition pitch_arg (x y z w : float) : float :=
  2 * (w * (- - y) - (- - z) * (- x)).
End FloatSpec.

Section FloatClamps.
Local Open Scope float_scope.

(** Off NaN the two idioms agree; on NaN one keeps it and the other
    answers 1. *)
Lemma clamps_agree (t : float) :
  is_nan t = false -> FloatSpec.clamp_conditional t = FloatSpec.clamp_max_min t.
Proof.
  intros Hn. unfold FloatSpec.clamp_conditional, FloatSpec.clamp_max_min.
  assert (E1 : (1 <? -1) = false) by (vm_compute; reflexivity).
  assert (E2 : (-1 <? 1) = true) by (vm_compute; reflexivity).
  destruct (1 <? t) eqn:A.
  - rewrite E1, (ltb_one_asym A), E2. reflexivity.
  - destruct (t <? -1) eqn:B.
    + destruct (ltb_below B) as [C D]. now rewrite C, D.
    + destruct (t <? 1) eqn:C.
      * destruct (-1 <? t) eqn:D; [reflexivity|].
        now apply eq_minus_one.
      * rewrite E2. now apply eq_one.
Qed.

Lemma clamps_at_nan :
  FloatSpec.clamp_conditional nan = nan /\ FloatSpec.clamp_max_min nan = 1.
Proof. split; vm_compute; reflexivity. Qed.

(** Either clamp leaves [math.asin] inside its domain, or at NaN. *)
Lemma clamp_conditional_in_domain (t : float) :
  let c := FloatSpec.clamp_conditional t in (c <? -1) || (1 <? c) = false.
Proof.
  unfold FloatSpec.clamp_conditional.
  destruct (1 <? t) eqn:A.
  - vm_compute. reflexivity.
  - destruct (t <? -1) eqn:B.
    + vm_compute. reflexivity.
    + cbv zeta. now rewrite A, B.
Qed.

Lemma clamp_max_min_in_domain (t : float) :
  let c := FloatSpec.clamp_max_min t in (c <? -1) || (1 <? c) = false.
Proof.
  unfold FloatSpec.clamp_max_min.
  destruct (t <? 1) eqn:A.
  - destruct (-1 <? t) eqn:B.
    + cbv zeta. now rewrite (ltb_minus_one_asym B), (ltb_asym_one A).
    + vm_compute. reflexivity.
  - vm_compute. reflexivity.
Qed.
End FloatClamps.

Section FloatDecoder.
Local Open Scope float_scope.
Variable c_atan2 : float -> float -> float.
Variable c_asin : float -> float.
Variable strtod : string -> option float.
Let F : Float64 float := FloatModel.F_Float64 c_atan2 c_asin strtod.
#[local] Existing Instance F.

Lemma fast_asin_float (t : float) :
  @math_asin float F
    (if flt (if flt fone t then fone else t) (fneg fone) then fneg fone
     else (if flt fone t then fone else t))
  = Ok (c_asin (FloatSpec.clamp_conditional t)).
Proof.
  change (@math_asin float F (FloatSpec.clamp_conditional t)
          = Ok (c_asin (FloatSpec.clamp_conditional t))).
  unfold math_asin.
  change ((if (FloatSpec.clamp_conditional t <? -1)
              || (1 <? FloatSpec.clamp_conditional t)
           then Raise ValueError
           else Ok (c_asin (FloatSpec.clamp_conditional t)))
          = Ok (c_asin (FloatSpec.clamp_conditional t))).
  now rewrite (clamp_conditional_in_domain t).
Qed.

Lemma dash_asin_float (t : float) :
  @math_asin float F (py_max (fneg fone) (py_min fone t))
  = Ok (c_asin (FloatSpec.clamp_max_min t)).
Proof.
  change (@math_asin float F (FloatSpec.clamp_max_min t)
          = Ok (c_asin (FloatSpec.clamp_max_min t))).
  unfold math_asin.
  change ((if (FloatSpec.clamp_max_min t <? -1)
              || (1 <? FloatSpec.clamp_max_min t)
           then Raise ValueError
           else Ok (c_asin (FloatSpec.clamp_max_min t)))
          = Ok (c_asin (FloatSpec.clamp_max_min t))).
  now rewrite (clamp_max_min_in_domain t).
Qed.

(** What the two viewers return on floats once the first four entries
    have coerced to (x, y, z, w): the same quaternion, roll and yaw,
    and the arcsine of their own clamp of the pitch argument. *)
Definition viewer_answer (x y z w clamped : float) : rpy float :=
  let x' := - x in
  let y' := - - y in
  let z' := - - z in
  Tup4 (Some (FloatModel.degrees
                (c_atan2 (2 * (w * x' + y' * z')) (1 - 2 * (x' * x' + y' * y')))))
       (Some (FloatModel.degrees (c_asin clamped)))
       (Some (FloatModel.degrees
                (c_atan2 (2 * (w * z' + x' * y')) (1 - 2 * (y' * y' + z' * z')))))
       (Some (Quat x' y' z' w)).

Lemma fast_decode_float (vals : pyval float) (n : nat) (x y z w : float) :
  py_len vals = Ok n -> (4 <= n)%nat ->
  float_first_four vals = Ok (x, y, z, w) ->
  Orientation_Fast.get_rpy_from_quaternion vals
  = Ok (viewer_answer x y z w
          (FloatSpec.clamp_conditional (FloatSpec.pitch_arg x y z w))).
Proof.
  intros Hn H4 Hff. unfold Orientation_Fast.get_rpy_from_quaternion.
  rewrite Hn. simpl bind. apply Nat.ltb_ge in H4 as ->.
  unfold try_except. rewrite Hff. cbv zeta.
  rewrite fast_asin_float. reflexivity.
Qed.

Lemma dash_decode_float (vals : pyval float) (n : nat) (x y z w : float) :
  py_len vals = Ok n -> (4 <= n)%nat ->
  float_first_four vals = Ok (x, y, z, w) ->
  Sensor_Dashboard.get_rpy_from_quaternion vals
  = Ok (viewer_answer x y z w
          (FloatSpec.clamp_max_min (FloatSpec.pitch_arg x y z w))).
Proof.
  intros Hn H4 Hff. unfold Sensor_Dashboard.get_rpy_from_quaternion.
  rewrite Hn. simpl bind. pose proof H4 as H4'. apply Nat.ltb_ge in H4' as ->.
  unfold try_except. rewrite (map_float_slice_first_four _ Hn H4), Hff. cbv zeta.
  rewrite dash_asin_float. reflexivity.
Qed.

(** C9, as amended (on binary64 floats, for any C library): when the
    first four entries coerce to floats, the two viewers return the
    same roll, yaw and corrected quaternion, and the same pitch unless
    the pitch argument 2(wy - zx) is NaN; then [Orientation_Fast]
    returns the arcsine of NaN and [Sensor_Dashboard], whose
    [max(-1.0, min(1.0, t))] turns NaN into 1.0, the arcsine of 1. *)
Theorem C9_viewers_agree_off_nan
    (vals : pyval float) (n : nat) (x y z w : float) :
  py_len vals = Ok n -> (4 <= n)%nat ->
  float_first_four vals = Ok (x, y, z, w) ->
  if is_nan (FloatSpec.pitch_arg x y z w) then
    Orientation_Fast.get_rpy_from_quaternion vals
      = Ok (viewer_answer x y z w nan)
    /\ Sensor_Dashboard.get_rpy_from_quaternion vals
       = Ok (viewer_answer x y z w 1)
  else
    Orientation_Fast.get_rpy_from_quaternion vals
    = Sensor_Dashboard.get_rpy_from_quaternion vals.
Proof.
  intros Hn H4 Hff.
  rewrite (fast_decode_float _ Hn H4 Hff), (dash_decode_float _ Hn H4 Hff).
  destruct (is_nan (FloatSpec.pitch_arg x y z w)) eqn:Hnan.
  - rewrite (nan_unique _ Hnan). destruct clamps_at_nan as [-> ->]. now split.
  - now rewrite (clamps_agree _ Hnan).
Qed.

(** On floats a zero has a sign: for the unit quaternion
    (1, -0.0, 0, 0) the roll's first argument is -0.0 and its second
    -1, and a C library that follows Annex F, where
    atan2(-0, x) = -pi for x < 0, makes the roll -180 degrees. *)
Lemma signed_zero_roll :
  c_atan2 (-0) (-1) = - FloatModel.pi ->
  exists pitch yaw q,
    Orientation_Fast.get_rpy_from_quaternion
      (PList [PFloat 1; PFloat (-0); PFloat 0; PFloat 0])
    = Ok (Tup4 (Some (-180)) pitch yaw q).
Proof.
  intros Hlib.
  assert (Hn : py_len (PList [PFloat 1; PFloat (-0); PFloat 0; PFloat 0])
               = Ok 4%nat) by reflexivity.
  assert (Hff : float_first_four (PList [PFloat 1; PFloat (-0); PFloat 0; PFloat 0])
                = Ok (1, -0, 0, 0)) by reflexivity.
  rewrite (fast_decode_float _ Hn (le_n 4) Hff). unfold viewer_answer.
  match goal with
  | |- context [c_atan2 ?a ?b] =>
      let Ha := fresh "Ha" in
      let Hb := fresh "Hb" in
      assert (Ha : a = -0) by (vm_compute; reflexivity);
      assert (Hb : b = -1) by (vm_compute; reflexivity);
      rewrite Ha, Hb, Hlib
  end.
  assert (Ed : FloatModel.degrees (- FloatModel.pi) = -180)
    by (vm_compute; reflexivity).
  rewrite Ed. eauto.
Qed.
End FloatDecoder.


(** C9 as stated fails, and on finite input: for (-b, b, b, b) with
    b = 2^600 (the JSON number 4.149515568880993e+180) both products of
    the pitch argument overflow to infinity and their difference is
    NaN; with a C library
    whose arcsine maps NaN to NaN and 1 to the double nearest pi/2,
    [Orientation_Fast] returns a NaN pitch and [Sensor_Dashboard] 90. *)
Lemma C9_nan_pitch_differs :
  exists x y z w : float,
    is_finite x && is_finite y && is_finite z && is_finite w = true
    /\ forall (c_atan2 : float -> float -> float) (c_asin : float -> float)
              (strtod : string -> option float),
         c_asin nan = nan ->
         c_asin 1%float = 0x1.921fb54442d18p+0%float ->
         let F : Float64 float := FloatModel.F_Float64 c_atan2 c_asin strtod in
         let vals := PList [PFloat x; PFloat y; PFloat z; PFloat w] in
         float_first_four vals = Ok (x, y, z, w)
         /\ exists roll yaw q,
              Orientation_Fast.get_rpy_from_quaternion vals
                = Ok (Tup4 (Some roll) (Some nan) (Some yaw) (Some q))
              /\ Sensor_Dashboard.get_rpy_from_quaternion vals
                 = Ok (Tup4 (Some roll) (Some 90%float) (Some yaw) (Some q))
              /\ Orientation_Fast.get_rpy_from_quaternion vals
                 <> Sensor_Dashboard.get_rpy_from_quaternion vals.
Proof.
  exists (-0x1p+600)%float, 0x1p+600%float, 0x1p+600%float, 0x1p+600%float.
  split; [vm_compute; reflexivity|].
  intros c_atan2 c_asin strtod Hnan Hone F vals. subst F.
  split; [reflexivity|].
  assert (Hn : py_len vals = Ok 4%nat) by reflexivity.
  assert (Hff : @float_first_four float (FloatModel.F_Float64 c_atan2 c_asin strtod)
                  vals
                = Ok ((-0x1p+600)%float, 0x1p+600%float, 0x1p+600%float, 0x1p+600%float))
    by reflexivity.
  pose proof (fast_decode_float c_atan2 c_asin strtod _ Hn (le_n 4) Hff) as HF.
  pose proof (dash_decode_float c_atan2 c_asin strtod _ Hn (le_n 4) Hff) as HD.
  assert (Ht : FloatSpec.pitch_arg (-0x1p+600) 0x1p+600 0x1p+600 0x1p+600 = nan)
    by (vm_compute; reflexivity).
  rewrite Ht in HF, HD. destruct clamps_at_nan as [EF ED].
  rewrite EF in HF. rewrite ED in HD.
  unfold viewer_answer in HF, HD. rewrite Hnan in HF. rewrite Hone in HD.
  assert (Hdn : FloatModel.degrees nan = nan) by (vm_compute; reflexivity).
  assert (Hd90 : FloatModel.degrees 0x1.921fb54442d18p+0%float = 90%float)
    by (vm_compute; reflexivity).
  rewrite Hdn in HF. rewrite Hd90 in HD.
  do 3 eexists. split; [exact HF|]. split; [exact HD|].
  rewrite HF, HD. intros E.
  assert (E' : nan = 90%float) by congruence.
  apply (f_equal is_nan) in E'. vm_compute in E'. discriminate.
Qed.

(** An instance of C9's hypotheses; the C library takes no part in
    them, and any functions will do for it. *)
Lemma C9_viewers_agree_off_nan_witness :
  let F : Float64 float :=
    FloatModel.F_Float64 (fun y _ => y) (fun t => t) (fun _ => None) in
  let vals : pyval float :=
    PList [PFloat 0%float; PFloat 0%float; PFloat 0%float; PFloat 1%float] in
  py_len vals = Ok 4%nat /\ (4 <= 4)%nat
  /\ float_first_four vals = Ok (0%float, 0%float, 0%float, 1%float)
  /\ is_nan (FloatSpec.pitch_arg 0 0 0 1) = false
  /\ Orientation_Fast.get_rpy_from_quaternion vals
     = Sensor_Dashboard.get_rpy_from_quaternion vals.
Proof.
  intros F vals.
  refine (conj eq_refl (conj (le_n 4) (conj eq_refl (conj eq_refl _)))).
  exact (@C9_viewers_agree_off_nan (fun y _ => y) (fun t => t) (fun _ => None)
           vals 4 0%float 0%float 0%float 1%float eq_refl (le_n 4) eq_refl).
Defined.

(** An integer [float] cannot hold raises [OverflowError], the
    exception no decoder catches. *)
Lemma unrepresentable_integer_raises
    (c_atan2 : float -> float -> float) (c_asin : float -> float)
    (strtod : string -> option float) (z : Z) :
  FloatModel.of_int z = None ->
  let F : Float64 float := FloatModel.F_Float64 c_atan2 c_asin strtod in
  let vals : pyval float := PList [PInt z; PInt 0; PInt 0; PInt 1] in
  Orientation_Fast.get_rpy_from_quaternion vals = Raise OverflowError
  /\ Sensor_Dashboard.get_rpy_from_quaternion vals = Raise OverflowError
  /\ rpy_output_text.get_rpy_from_quaternion vals = Raise OverflowError.
Proof.
  intros Hov F vals.
  assert (Hff : float_first_four vals = Raise OverflowError).
  { unfold float_first_four, vals, py_getitem, py_items, nth_error, bind, py_float.
    change (@float_of_int float F z) with (FloatModel.of_int z).
    now rewrite Hov. }
  assert (Hn : py_len vals = Ok 4%nat) by reflexivity.
  repeat split.
  - exact (fast_overflow _ Hn (le_n 4) Hff).
  - exact (dash_overflow _ Hn (le_n 4) Hff).
  - unfold rpy_output_text.get_rpy_from_quaternion. rewrite Hn.
    unfold bind. change (4 <? 4)%nat with false. cbv iota.
    unfold try_except. now rewrite Hff.
Qed.

(** An integer of 400 digits, a JSON number like any other, is one. *)
Lemma huge_integer_overflows : FloatModel.of_int (10 ^ 400) = None.
Proof. vm_compute. reflexivity. Qed.

(* ================================================================== *)
(** * What the decoders read                                            *)
(* ================================================================== *)

Section DecoderInput.
Context {T : Type} `{Float64 T}.

Lemma float_first_four_list (a b c d : pyval T) (rest : list (pyval T)) :
  float_first_four (PList (a :: b :: c :: d :: rest))
  = (x <- py_float a ;; y <- py_float b ;; z <- py_float c ;;
     w <- py_float d ;; Ok (x, y, z, w)).
Proof. reflexivity. Qed.

Lemma py_len_list (l : list (pyval T)) : py_len (PList l) = Ok (List.length l).
Proof. reflexivity. Qed.

(** The answer of each decoder is a function of what [float] makes of
    the first four entries: entries past the fourth are never read, and
    a number, a numeric string and a boolean that [float] sends to the
    same value (or rejects with the same exception) are
    interchangeable. *)
Theorem decoders_see_four_coerced_entries
    (a b c d a' b' c' d' : pyval T) (rest rest' : list (pyval T)) :
  py_float a = py_float a' -> py_float b = py_float b' ->
  py_float c = py_float c' -> py_float d = py_float d' ->
  Orientation_Fast.get_rpy_from_quaternion (PList (a :: b :: c :: d :: rest))
    = Orientation_Fast.get_rpy_from_quaternion (PList (a' :: b' :: c' :: d' :: rest'))
  /\ Sensor_Dashboard.get_rpy_from_quaternion (PList (a :: b :: c :: d :: rest))
     = Sensor_Dashboard.get_rpy_from_quaternion (PList (a' :: b' :: c' :: d' :: rest'))
  /\ rpy_output_text.get_rpy_from_quaternion (PList (a :: b :: c :: d :: rest))
     = rpy_output_text.get_rpy_from_quaternion (PList (a' :: b' :: c' :: d' :: rest')).
Proof.
  intros Ha Hb Hc Hd.
  assert (Hff : float_first_four (PList (a :: b :: c :: d :: rest))
                = float_first_four (PList (a' :: b' :: c' :: d' :: rest'))).
  { rewrite !float_first_four_list. now rewrite Ha, Hb, Hc, Hd. }
  assert (Hn : forall (u v w x : pyval T) (r : list (pyval T)),
             (4 <= List.length (u :: v :: w :: x :: r))%nat) by (intros; simpl; lia).
  repeat split.
  - unfold Orientation_Fast.get_rpy_from_quaternion. rewrite !py_len_list.
    cbn [bind List.length Nat.ltb Nat.leb]. now rewrite Hff.
  - unfold Sensor_Dashboard.get_rpy_from_quaternion. rewrite !py_len_list.
    cbn [bind List.length Nat.ltb Nat.leb].
    rewrite (map_float_slice_first_four _ (py_len_list _) (Hn a b c d rest)).
    rewrite (map_float_slice_first_four _ (py_len_list _) (Hn a' b' c' d' rest')).
    now rewrite Hff.
  - unfold rpy_output_text.get_rpy_from_quaternion. rewrite !py_len_list.
    cbn [bind List.length Nat.ltb Nat.leb]. now rewrite Hff.
Qed.
End DecoderInput.

Lemma decoders_see_four_coerced_entries_witness :
  let F : Float64 R := RealModel.R_Float64 no_numeral in
  let a := PList [PInt 1; PBool false; PFloat 0%R; PInt 0; PStr "tail"] in
  let b := PList [PFloat 1%R; PInt 0; PBool false; PFloat 0%R] in
  Orientation_Fast.get_rpy_from_quaternion a
    = Orientation_Fast.get_rpy_from_quaternion b
  /\ Sensor_Dashboard.get_rpy_from_quaternion a
     = Sensor_Dashboard.get_rpy_from_quaternion b
  /\ rpy_output_text.get_rpy_from_quaternion a
     = rpy_output_text.get_rpy_from_quaternion b.
Proof.
  intros F a b.
  exact (@decoders_see_four_coerced_entries R F
           (PInt 1) (PBool false) (PFloat 0%R) (PInt 0)
           (PFloat 1%R) (PInt 0) (PBool false) (PFloat 0%R)
           [PStr "tail"] [] eq_refl eq_refl eq_refl eq_refl).
Defined.

(** ** The exceptions that leave a decoder, on binary64 *)

Section TextSentinels.
Context {T : Type} `{Float64 T}.

Lemma text_not_numeric (vals : pyval T) (n : nat) (e : exn) :
  py_len vals = Ok n -> (4 <= n)%nat ->
  float_first_four vals = Raise e -> e <> OverflowError ->
  rpy_output_text.get_rpy_from_quaternion vals = Ok (Tup3 None None None).
Proof.
  intros Hn H4 He Hov. unfold rpy_output_text.get_rpy_from_quaternion.
  rewrite Hn. simpl. apply Nat.ltb_ge in H4 as ->. rewrite He.
  destruct (float_first_four_raises _ He) as [->|[->|[->| ->]]];
    simpl; congruence.
Qed.

Lemma text_overflow (vals : pyval T) (n : nat) :
  py_len vals = Ok n -> (4 <= n)%nat ->
  float_first_four vals = Raise OverflowError ->
  rpy_output_text.get_rpy_from_quaternion vals = Raise OverflowError.
Proof.
  intros Hn H4 He. unfold rpy_output_text.get_rpy_from_quaternion.
  rewrite Hn. simpl. apply Nat.ltb_ge in H4 as ->. now rewrite He.
Qed.

Lemma py_len_raises (v : pyval T) (e : exn) :
  py_len v = Raise e -> e = TypeError /\ py_items v = None.
Proof.
  unfold py_len. destruct (py_items v); intros E; inversion E. auto.
Qed.
End TextSentinels.

Section FloatExceptions.
Local Open Scope float_scope.
Variable c_atan2 : float -> float -> float.
Variable c_asin : float -> float.
Variable strtod : string -> option float.
Let F : Float64 float := FloatModel.F_Float64 c_atan2 c_asin strtod.
#[local] Existing Instance F.

Lemma text_decode_float (vals : pyval float) (n : nat) (x y z w : float) :
  py_len vals = Ok n -> (4 <= n)%nat ->
  float_first_four vals = Ok (x, y, z, w) ->
  exists t, rpy_output_text.get_rpy_from_quaternion vals = Ok t.
Proof.
  intros Hn H4 Hff. eexists. unfold rpy_output_text.get_rpy_from_quaternion.
  rewrite Hn. simpl bind. apply Nat.ltb_ge in H4 as ->.
  unfold try_except. rewrite Hff. cbv zeta. subst F.
  rewrite fast_asin_float. reflexivity.
Qed.

(** The common shape of the three case analyses. *)
Lemma raise_cases (decode : pyval float -> result (rpy float))
    (v : pyval float) (e : exn) :
  (forall e0, py_len v = Raise e0 -> decode v = Raise e0) ->
  (forall n, py_len v = Ok n -> (n < 4)%nat -> exists t, decode v = Ok t) ->
  (forall n x y z w, py_len v = Ok n -> (4 <= n)%nat ->
     float_first_four v = Ok (x, y, z, w) -> exists t, decode v = Ok t) ->
  (forall n e0, py_len v = Ok n -> (4 <= n)%nat ->
     float_first_four v = Raise e0 -> e0 <> OverflowError ->
     exists t, decode v = Ok t) ->
  (forall n, py_len v = Ok n -> (4 <= n)%nat ->
     float_first_four v = Raise OverflowError -> decode v = Raise OverflowError) ->
  decode v = Raise e ->
  (e = TypeError /\ py_items v = None)
  \/ (e = OverflowError /\ float_first_four v = Raise OverflowError).
Proof.
  intros Hlen Hshort Hok Hbad Hov E.
  destruct (py_len v) as [n|e0] eqn:Hn.
  - destruct (Nat.lt_ge_cases n 4) as [Hlt|Hge].
    + destruct (Hshort n eq_refl Hlt) as [t Ht]. congruence.
    + destruct (float_first_four v) as [[[[x y] z] w]|e1] eqn:Hff.
      * destruct (Hok n x y z w eq_refl Hge eq_refl) as [t Ht]. congruence.
      * destruct (exn_eqb e1 OverflowError) eqn:He1.
        -- destruct e1; try discriminate.
           rewrite (Hov n eq_refl Hge eq_refl) in E. inversion E. auto.
        -- assert (e1 <> OverflowError) by (intros ->; discriminate).
           destruct (Hbad n e1 eq_refl Hge eq_refl) as [t Ht]; [assumption|].
           congruence.
  - rewrite (Hlen e0 eq_refl) in E. inversion E; subst.
    left. now apply py_len_raises.
Qed.

Lemma fast_raises_float (v : pyval float) (e : exn) :
  Orientation_Fast.get_rpy_from_quaternion v = Raise e ->
  (e = TypeError /\ py_items v = None)
  \/ (e = OverflowError /\ float_first_four v = Raise OverflowError).
Proof.
  apply raise_cases.
  - intros e0 Hn. unfold Orientation_Fast.get_rpy_from_quaternion. now rewrite Hn.
  - intros n Hn Hlt. eexists. exact (fast_short _ Hn Hlt).
  - intros n x y z w Hn H4 Hff. eexists.
    exact (fast_decode_float c_atan2 c_asin strtod _ Hn H4 Hff).
  - intros n e0 Hn H4 Hff He. eexists. exact (fast_not_numeric _ Hn H4 Hff He).
  - intros n Hn H4 Hff. exact (fast_overflow _ Hn H4 Hff).
Qed.

Lemma dash_raises_float (v : pyval float) (e : exn) :
  Sensor_Dashboard.get_rpy_from_quaternion v = Raise e ->
  (e = TypeError /\ py_items v = None)
  \/ (e = OverflowError /\ float_first_four v = Raise OverflowError).
Proof.
  apply raise_cases.
  - intros e0 Hn. unfold Sensor_Dashboard.get_rpy_from_quaternion. now rewrite Hn.
  - intros n Hn Hlt. eexists. exact (dash_short _ Hn Hlt).
  - intros n x y z w Hn H4 Hff. eexists.
    exact (dash_decode_float c_atan2 c_asin strtod _ Hn H4 Hff).
  - intros n e0 Hn H4 Hff He. eexists. exact (dash_not_numeric _ Hn H4 Hff He).
  - intros n Hn H4 Hff. exact (dash_overflow _ Hn H4 Hff).
Qed.

Lemma text_raises_float (v : pyval float) (e : exn) :
  rpy_output_text.get_rpy_from_quaternion v = Raise e ->
  (e = TypeError /\ py_items v = None)
  \/ (e = OverflowError /\ float_first_four v = Raise OverflowError).
Proof.
  apply raise_cases.
  - intros e0 Hn. unfold rpy_output_text.get_rpy_from_quaternion. now rewrite Hn.
  - intros n Hn Hlt. eexists. exact (text_short _ Hn Hlt).
  - intros n x y z w Hn H4 Hff. exact (text_decode_float _ Hn H4 Hff).
  - intros n e0 Hn H4 Hff He. eexists. exact (text_not_numeric _ Hn H4 Hff He).
  - intros n Hn H4 Hff. exact (text_overflow _ Hn H4 Hff).
Qed.

(** On binary64, whatever value of [pyval] (null, boolean, number,
    string or list) a decoder is given and whatever the C library
    computes, an exception leaves it in two cases only:
    [TypeError] when the value has no length, and [OverflowError] when
    [float] meets an integer too large for a double. In particular
    [math.asin] never sees an argument outside its domain, be the
    entries infinite or NaN. *)
Theorem decoders_escape_only_two_ways (v : pyval float) (e : exn) :
  Orientation_Fast.get_rpy_from_quaternion v = Raise e
  \/ Sensor_Dashboard.get_rpy_from_quaternion v = Raise e
  \/ rpy_output_text.get_rpy_from_quaternion v = Raise e ->
  (e = TypeError /\ py_items v = None)
  \/ (e = OverflowError /\ float_first_four v = Raise OverflowError).
Proof.
  intros [E|[E|E]].
  - now apply fast_raises_float.
  - now apply dash_raises_float.
  - now apply text_raises_float.
Qed.
End FloatExceptions.

Lemma decoders_escape_only_two_ways_witness :
  let F : Float64 float :=
    FloatModel.F_Float64 (fun y _ => y) (fun t => t) (fun _ => None) in
  Sensor_Dashboard.get_rpy_from_quaternion (@PInt float 5) = Raise TypeError
  /\ ((TypeError = TypeError /\ py_items (@PInt float 5) = None)
      \/ (TypeError = OverflowError
          /\ float_first_four (@PInt float 5) = Raise OverflowError)).
Proof.
  intros F.
  exact (conj eq_refl
           (@decoders_escape_only_two_ways (fun y _ => y) (fun t => t)
              (fun _ => None) (PInt 5) TypeError (or_intror (or_introl eq_refl)))).
Defined.

(* ================================================================== *)
(** * The rotation matrix, over the reals                               *)
(* ================================================================== *)

Module MatSpec.
Local Open Scope R_scope.

(** The entry in row [i], column [j]. *)
Definition entry (m : list (list R)) (i j : nat) : R :=
  nth j (nth i m []) 0.

(** The transpose of a 3x3 matrix. *)
Definition transpose (m : list (list R)) : list (list R) :=
  [ [entry m 0 0; entry m 1 0; entry m 2 0];
    [entry m 0 1; entry m 1 1; entry m 2 1];
    [entry m 0 2; entry m 1 2; entry m 2 2] ].

(** The determinant of a 3x3 matrix, along the first row. *)
Definition det (m : list (list R)) : R :=
  entry m 0 0 * (entry m 1 1 * entry m 2 2 - entry m 1 2 * entry m 2 1)
  - entry m 0 1 * (entry m 1 0 * entry m 2 2 - entry m 1 2 * entry m 2 0)
  + entry m 0 2 * (entry m 1 0 * entry m 2 1 - entry m 1 1 * entry m 2 0).
End MatSpec.

Section RotationMatrix.
Local Open Scope R_scope.
Variable strtod : string -> option R.
Let F : Float64 R := RealModel.R_Float64 strtod.
#[local] Existing Instance F.

Lemma rotmat_entries (x y z w : R) :
  Orientation_Fast.rotmat_from_quat x y z w
  = [ [1 - 2 * (y * y + z * z); 2 * (x * y - z * w); 2 * (x * z + y * w)];
      [2 * (x * y + z * w); 1 - 2 * (x * x + z * z); 2 * (y * z - x * w)];
      [2 * (x * z - y * w); 2 * (y * z + x * w); 1 - 2 * (x * x + y * y)] ].
Proof. reflexivity. Qed.

(** [rotmat_from_quat] does not normalise, and its matrix is
    orthonormal for the unit quaternions and for the quaternions with
    x = y = z = 0 (whose matrix is the identity), and for no others. *)
Theorem rotmat_orthonormal_iff (x y z w : R) :
  RealSpec.orthonormal (Orientation_Fast.rotmat_from_quat x y z w)
  <-> (x * x + y * y + z * z + w * w = 1 \/ (x = 0 /\ y = 0 /\ z = 0)).
Proof.
  split.
  - rewrite rotmat_entries. unfold RealSpec.orthonormal, RealSpec.dot. cbn.
    intros (E1 & E2 & E3 & _).
    set (s := x * x + y * y + z * z + w * w).
    assert (H1 : (y * y + z * z) * (s - 1) = 0) by (unfold s; nra).
    assert (H2 : (x * x + z * z) * (s - 1) = 0) by (unfold s; nra).
    assert (H3 : (x * x + y * y) * (s - 1) = 0) by (unfold s; nra).
    destruct (Req_dec s 1) as [Hs|Hs]; [left; exact Hs|right].
    assert (Hs' : s - 1 <> 0) by lra.
    apply Rmult_integral in H1, H2, H3.
    destruct H1 as [H1|H1]; [|contradiction].
    destruct H2 as [H2|H2]; [|contradiction].
    destruct H3 as [H3|H3]; [|contradiction].
    repeat split; nra.
  - intros [Hu|(-> & -> & ->)].
    + now apply rotmat_orthonormal.
    + rewrite rotmat_entries. unfold RealSpec.orthonormal, RealSpec.dot. cbn.
      repeat split; lra.
Qed.

(** For a unit quaternion the matrix is a proper rotation: its
    determinant is 1, and its columns, like its rows, are orthonormal. *)
Theorem rotmat_proper_rotation (x y z w : R) :
  x * x + y * y + z * z + w * w = 1 ->
  MatSpec.det (Orientation_Fast.rotmat_from_quat x y z w) = 1
  /\ RealSpec.orthonormal
       (MatSpec.transpose (Orientation_Fast.rotmat_from_quat x y z w)).
Proof.
  intros Hu. rewrite rotmat_entries. split.
  - unfold MatSpec.det, MatSpec.entry. cbn. nsatz.
  - unfold RealSpec.orthonormal, RealSpec.dot, MatSpec.transpose, MatSpec.entry.
    cbn. repeat split; nsatz.
Qed.

(** Conjugating the quaternion transposes the matrix, and negating all
    four components leaves it unchanged. So the matrix a viewer renders,
    that of the conjugate of the flipped quaternion, is the transpose
    (the inverse rotation) of the flipped quaternion's. *)
Theorem rotmat_conjugate_transposes (x y z w : R) :
  Orientation_Fast.rotmat_from_quat (- x) (- y) (- z) w
    = MatSpec.transpose (Orientation_Fast.rotmat_from_quat x y z w)
  /\ Orientation_Fast.rotmat_from_quat (- x) (- y) (- z) (- w)
     = Orientation_Fast.rotmat_from_quat x y z w
  /\ (let qf := RealSpec.qFixed (Quat x y z w) in
      let qc := RealSpec.qCorrected qf in
      Sensor_Dashboard.rotmat_from_quat (qx qc) (qy qc) (qz qc) (qw qc)
      = MatSpec.transpose
          (Sensor_Dashboard.rotmat_from_quat (qx qf) (qy qf) (qz qf) (qw qf))).
Proof.
  assert (Hconj : forall a b c d : R,
            Orientation_Fast.rotmat_from_quat (- a) (- b) (- c) d
            = MatSpec.transpose (Orientation_Fast.rotmat_from_quat a b c d)).
  { intros a b c d. rewrite !rotmat_entries.
    unfold MatSpec.transpose, MatSpec.entry. cbn.
    repeat (f_equal; try ring). }
  split; [apply Hconj|]. split.
  - rewrite !rotmat_entries. repeat (f_equal; try ring).
  - cbv zeta. rewrite !rotmat_same. unfold RealSpec.qCorrected. cbn [qx qy qz qw].
    apply Hconj.
Qed.
End RotationMatrix.

Lemma rotmat_proper_rotation_witness :
  let F : Float64 R := RealModel.R_Float64 no_numeral in
  (0 * 0 + 0 * 0 + 0 * 0 + 1 * 1 = 1)%R
  /\ MatSpec.det (Orientation_Fast.rotmat_from_quat 0%R 0%R 0%R 1%R) = 1%R
  /\ RealSpec.orthonormal
       (MatSpec.transpose (Orientation_Fast.rotmat_from_quat 0%R 0%R 0%R 1%R)).
Proof.
  intros F.
  assert (Hu : (0 * 0 + 0 * 0 + 0 * 0 + 1 * 1 = 1)%R) by lra.
  exact (conj Hu (@rotmat_proper_rotation no_numeral 0 0 0 1 Hu)).
Defined.

(* ================================================================== *)
(** * Rotations about one axis, over the reals                          *)
(* ================================================================== *)

Section SingleAxis.
Local Open Scope R_scope.
Variable strtod : string -> option R.
Let F : Float64 R := RealModel.R_Float64 strtod.
#[local] Existing Instance F.

Lemma tan_shift_PI (t : R) : cos t <> 0 -> tan (t + PI) = tan t.
Proof.
  intros Hc. unfold tan. rewrite neg_sin, neg_cos. field. exact Hc.
Qed.

Lemma cos_pos_range (t : R) :
  - PI < t <= PI -> 0 < cos t -> - (PI / 2) < t < PI / 2.
Proof.
  intros [Hlo Hhi] Hc. pose proof PI_RGT_0. split.
  - destruct (Rlt_dec (- (PI / 2)) t) as [|Hn]; [assumption|].
    assert (cos (- t) <= 0) by (apply cos_le_0; lra).
    rewrite cos_neg in *. lra.
  - destruct (Rlt_dec t (PI / 2)) as [|Hn]; [assumption|].
    assert (cos t <= 0) by (apply cos_le_0; lra). lra.
Qed.

(** [atan2] recovers an angle of (-pi, pi] from its sine and cosine. *)
Lemma atan2_sin_cos (t : R) :
  - PI < t <= PI -> RealModel.atan2 (sin t) (cos t) = t.
Proof.
  intros [Hlo Hhi]. pose proof PI_RGT_0 as Hpi. unfold RealModel.atan2.
  destruct (Rlt_dec 0 (cos t)) as [Hc|Hc].
  - apply atan_tan. apply cos_pos_range; [split|]; assumption.
  - destruct (Rlt_dec (cos t) 0) as [Hc'|Hc'].
    + destruct (Rle_dec 0 (sin t)) as [Hs|Hs].
      * assert (Ht : 0 <= t).
        { destruct (Rle_dec 0 t); [assumption|].
          assert (sin t < 0) by (apply sin_lt_0_var; lra). lra. }
        assert (Ht2 : PI / 2 < t).
        { destruct (Rlt_dec (PI / 2) t); [assumption|].
          assert (0 <= cos t) by (apply cos_ge_0; lra). lra. }
        change (sin t / cos t) with (tan t).
        replace (tan t) with (tan (t - PI)).
        2:{ rewrite <- (tan_shift_PI (t - PI)).
            - f_equal. lra.
            - replace (t - PI) with (- (PI - t)) by lra. rewrite cos_neg.
              replace (PI - t) with (- t + PI) by lra.
              rewrite neg_cos, cos_neg. lra. }
        destruct (Req_dec t PI) as [->|Hne].
        -- replace (PI - PI) with 0 by lra. rewrite tan_0, atan_0. lra.
        -- rewrite atan_tan by lra. lra.
      * assert (Ht : t < 0).
        { destruct (Rlt_dec t 0); [assumption|].
          assert (0 <= sin t) by (apply sin_ge_0; lra). lra. }
        assert (Ht2 : t < - (PI / 2)).
        { destruct (Rlt_dec t (- (PI / 2))); [assumption|].
          assert (0 <= cos t) by (apply cos_ge_0; lra). lra. }
        change (sin t / cos t) with (tan t).
        rewrite <- (tan_shift_PI t) by lra.
        rewrite atan_tan by lra. lra.
    + assert (Hc0 : cos t = 0) by lra.
      destruct (Rle_dec 0 t) as [Ht|Ht].
      * destruct (cos_eq_0_2PI_0 t) as [E|E]; try lra.
        subst t. rewrite sin_PI2.
        destruct (Rlt_dec 0 1); lra.
      * assert (Hc1 : cos (- t) = 0) by (rewrite cos_neg; assumption).
        destruct (cos_eq_0_2PI_0 (- t)) as [E|E]; try lra.
        assert (Hs : sin t = -1).
        { replace t with (- (PI / 2)) by lra. rewrite sin_neg, sin_PI2. lra. }
        rewrite Hs. destruct (Rlt_dec 0 (-1)); [lra|].
        destruct (Rlt_dec (-1) 0); lra.
Qed.

Lemma atan2_0_nonneg (x : R) : 0 <= x -> RealModel.atan2 0 x = 0.
Proof.
  intros Hx. unfold RealModel.atan2.
  destruct (Rlt_dec 0 x).
  - unfold Rdiv. rewrite Rmult_0_l. apply atan_0.
  - destruct (Rlt_dec x 0); [lra|].
    destruct (Rlt_dec 0 0); [lra|]. reflexivity.
Qed.

Lemma sin_half (t : R) : 2 * (cos (t / 2) * sin (t / 2)) = sin t.
Proof.
  replace t with (2 * (t / 2)) at 3 by field. rewrite sin_2a. ring.
Qed.

Lemma cos_half (t : R) : 1 - 2 * (sin (t / 2) * sin (t / 2)) = cos t.
Proof.
  replace t with (2 * (t / 2)) at 3 by field. rewrite cos_2a_sin. ring.
Qed.

Lemma cos_half_nonneg (t : R) : - (PI / 2) <= t <= PI / 2 -> 0 <= cos t.
Proof. intros [Hlo Hhi]. apply cos_ge_0; assumption. Qed.

(** What the decoders make of four floats, with the corrected
    quaternion written out: only [x] changes sign. *)
Lemma viewers_decode_floats (x y z w : R) :
  let vals := PList [PFloat x; PFloat y; PFloat z; PFloat w] in
  let qc := Quat (- x) y z w in
  Orientation_Fast.get_rpy_from_quaternion vals
  = Ok (Tup4 (Some (RealSpec.roll qc)) (Some (RealSpec.pitch qc))
             (Some (RealSpec.yaw qc)) (Some qc))
  /\ Sensor_Dashboard.get_rpy_from_quaternion vals
     = Ok (Tup4 (Some (RealSpec.roll qc)) (Some (RealSpec.pitch qc))
                (Some (RealSpec.yaw qc)) (Some qc))
  /\ rpy_output_text.get_rpy_from_quaternion vals
     = Ok (Tup3 (Some (RealSpec.roll (Quat x y z w)))
                (Some (RealSpec.pitch (Quat x y z w)))
                (Some (RealSpec.yaw (Quat x y z w)))).
Proof.
  intros vals qc.
  destruct (four_floats strtod x y z w []) as [Hn Hff]. cbv zeta in Hn, Hff.
  assert (H4 : (4 <= 4 + @List.length (pyval R) [])%nat) by (simpl; lia).
  assert (Hqc : RealSpec.qCorrected (RealSpec.qFixed (Quat x y z w)) = qc).
  { unfold RealSpec.qCorrected, RealSpec.qFixed, qc. cbn [qx qy qz qw].
    f_equal; ring. }
  pose proof (fast_decode_real strtod _ Hn H4 Hff) as Hf.
  pose proof (dash_decode_real strtod _ Hn H4 Hff) as Hd.
  pose proof (text_decode_real strtod _ Hn H4 Hff) as Ht.
  cbv zeta in Hf, Hd, Ht. rewrite Hqc in Hf, Hd.
  repeat split; assumption.
Qed.

Lemma roll_of_x_turn (t : R) :
  - PI < t <= PI ->
  RealSpec.roll (Quat (sin (t / 2)) 0 0 (cos (t / 2))) = RealModel.degrees t.
Proof.
  intros Ht. unfold RealSpec.roll. cbn [qx qy qz qw]. f_equal.
  replace (2 * (cos (t / 2) * sin (t / 2) + 0 * 0)) with (sin t)
    by (rewrite <- sin_half; ring).
  replace (1 - 2 * (sin (t / 2) * sin (t / 2) + 0 * 0)) with (cos t)
    by (rewrite <- cos_half; ring).
  now apply atan2_sin_cos.
Qed.

Lemma yaw_of_z_turn (t : R) :
  - PI < t <= PI ->
  RealSpec.yaw (Quat 0 0 (sin (t / 2)) (cos (t / 2))) = RealModel.degrees t.
Proof.
  intros Ht. unfold RealSpec.yaw. cbn [qx qy qz qw]. f_equal.
  replace (2 * (cos (t / 2) * sin (t / 2) + 0 * 0)) with (sin t)
    by (rewrite <- sin_half; ring).
  replace (1 - 2 * (0 * 0 + sin (t / 2) * sin (t / 2))) with (cos t)
    by (rewrite <- cos_half; ring).
  now apply atan2_sin_cos.
Qed.

Lemma pitch_of_y_turn (t : R) :
  - (PI / 2) <= t <= PI / 2 ->
  RealSpec.pitch (Quat 0 (sin (t / 2)) 0 (cos (t / 2))) = RealModel.degrees t.
Proof.
  intros Ht. unfold RealSpec.pitch. cbn [qx qy qz qw]. f_equal.
  replace (2 * (cos (t / 2) * sin (t / 2) - 0 * 0)) with (sin t)
    by (rewrite <- sin_half; ring).
  rewrite clamp_inside by (pose proof (SIN_bound t); lra).
  now apply asin_sin.
Qed.

Lemma angle_of_zero (c : R) :
  0 <= c -> RealModel.degrees (RealModel.atan2 0 c) = 0.
Proof. intros Hc. rewrite atan2_0_nonneg by assumption. apply degrees_0. Qed.

Lemma pitch_of_zero (a : R) :
  a = 0 -> RealModel.degrees (asin (RealSpec.clamp a (-1) 1)) = 0.
Proof.
  intros ->. rewrite clamp_inside by lra. rewrite asin_0. apply degrees_0.
Qed.

(** A turn by [t] about the vertical axis, sent as the quaternion
    (0, 0, sin(t/2), cos(t/2)), is decoded by all three listeners as
    yaw [t] (in degrees) with roll and pitch 0, for [t] in (-pi, pi]. *)
Theorem yaw_round_trip (t : R) :
  - PI < t <= PI ->
  let vals :=
    PList [PFloat 0; PFloat 0; PFloat (sin (t / 2)); PFloat (cos (t / 2))] in
  Orientation_Fast.get_rpy_from_quaternion vals
  = Ok (Tup4 (Some 0) (Some 0) (Some (RealModel.degrees t))
             (Some (Quat 0 0 (sin (t / 2)) (cos (t / 2)))))
  /\ Sensor_Dashboard.get_rpy_from_quaternion vals
     = Ok (Tup4 (Some 0) (Some 0) (Some (RealModel.degrees t))
                (Some (Quat 0 0 (sin (t / 2)) (cos (t / 2)))))
  /\ rpy_output_text.get_rpy_from_quaternion vals
     = Ok (Tup3 (Some 0) (Some 0) (Some (RealModel.degrees t))).
Proof.
  intros Ht vals.
  destruct (viewers_decode_floats 0 0 (sin (t / 2)) (cos (t / 2)))
    as (Hf & Hd & Hx).
  fold vals in Hf, Hd, Hx. cbv zeta in Hf, Hd, Hx.
  rewrite Ropp_0 in Hf, Hd.
  rewrite (yaw_of_z_turn Ht) in Hf, Hd, Hx.
  assert (Hr : RealSpec.roll (Quat 0 0 (sin (t / 2)) (cos (t / 2))) = 0).
  { unfold RealSpec.roll. cbn [qx qy qz qw].
    replace (2 * (cos (t / 2) * 0 + 0 * sin (t / 2))) with 0 by ring.
    apply angle_of_zero. lra. }
  assert (Hp : RealSpec.pitch (Quat 0 0 (sin (t / 2)) (cos (t / 2))) = 0).
  { unfold RealSpec.pitch. cbn [qx qy qz qw]. apply pitch_of_zero. ring. }
  rewrite Hr, Hp in Hf, Hd, Hx. repeat split; assumption.
Qed.

(** A turn by [t] about the second axis, sent as
    (0, sin(t/2), 0, cos(t/2)), is decoded by all three listeners as
    pitch [t] with roll and yaw 0, for [t] in [-pi/2, pi/2]; at the two
    ends, where both arguments of [atan2] vanish, as well. *)
Theorem pitch_round_trip (t : R) :
  - (PI / 2) <= t <= PI / 2 ->
  let vals :=
    PList [PFloat 0; PFloat (sin (t / 2)); PFloat 0; PFloat (cos (t / 2))] in
  Orientation_Fast.get_rpy_from_quaternion vals
  = Ok (Tup4 (Some 0) (Some (RealModel.degrees t)) (Some 0)
             (Some (Quat 0 (sin (t / 2)) 0 (cos (t / 2)))))
  /\ Sensor_Dashboard.get_rpy_from_quaternion vals
     = Ok (Tup4 (Some 0) (Some (RealModel.degrees t)) (Some 0)
                (Some (Quat 0 (sin (t / 2)) 0 (cos (t / 2)))))
  /\ rpy_output_text.get_rpy_from_quaternion vals
     = Ok (Tup3 (Some 0) (Some (RealModel.degrees t)) (Some 0)).
Proof.
  intros Ht vals.
  destruct (viewers_decode_floats 0 (sin (t / 2)) 0 (cos (t / 2)))
    as (Hf & Hd & Hx).
  fold vals in Hf, Hd, Hx. cbv zeta in Hf, Hd, Hx.
  rewrite Ropp_0 in Hf, Hd.
  rewrite (pitch_of_y_turn Ht) in Hf, Hd, Hx.
  pose proof (cos_half_nonneg Ht) as Hc.
  assert (Hr : RealSpec.roll (Quat 0 (sin (t / 2)) 0 (cos (t / 2))) = 0).
  { unfold RealSpec.roll. cbn [qx qy qz qw].
    replace (2 * (cos (t / 2) * 0 + sin (t / 2) * 0)) with 0 by ring.
    replace (1 - 2 * (0 * 0 + sin (t / 2) * sin (t / 2))) with (cos t)
      by (rewrite <- cos_half; ring).
    now apply angle_of_zero. }
  assert (Hy : RealSpec.yaw (Quat 0 (sin (t / 2)) 0 (cos (t / 2))) = 0).
  { unfold RealSpec.yaw. cbn [qx qy qz qw].
    replace (2 * (cos (t / 2) * 0 + 0 * sin (t / 2))) with 0 by ring.
    replace (1 - 2 * (sin (t / 2) * sin (t / 2) + 0 * 0)) with (cos t)
      by (rewrite <- cos_half; ring).
    now apply angle_of_zero. }
  rewrite Hr, Hy in Hf, Hd, Hx. repeat split; assumption.
Qed.

(** A turn by [t] about the first axis, sent as
    (sin(t/2), 0, 0, cos(t/2)): the text listener reports roll [t], the
    two viewers, whose frame correction negates [x], report roll [-t];
    pitch and yaw are 0. Here [t] is strictly inside (-pi, pi). *)
Theorem roll_round_trip_mirrored (t : R) :
  - PI < t < PI ->
  let vals :=
    PList [PFloat (sin (t / 2)); PFloat 0; PFloat 0; PFloat (cos (t / 2))] in
  Orientation_Fast.get_rpy_from_quaternion vals
  = Ok (Tup4 (Some (- RealModel.degrees t)) (Some 0) (Some 0)
             (Some (Quat (- sin (t / 2)) 0 0 (cos (t / 2)))))
  /\ Sensor_Dashboard.get_rpy_from_quaternion vals
     = Ok (Tup4 (Some (- RealModel.degrees t)) (Some 0) (Some 0)
                (Some (Quat (- sin (t / 2)) 0 0 (cos (t / 2)))))
  /\ rpy_output_text.get_rpy_from_quaternion vals
     = Ok (Tup3 (Some (RealModel.degrees t)) (Some 0) (Some 0)).
Proof.
  intros Ht vals.
  destruct (viewers_decode_floats (sin (t / 2)) 0 0 (cos (t / 2)))
    as (Hf & Hd & Hx).
  fold vals in Hf, Hd, Hx. cbv zeta in Hf, Hd, Hx.
  assert (Hm : Quat (- sin (t / 2)) 0 0 (cos (t / 2))
               = Quat (sin (- t / 2)) 0 0 (cos (- t / 2))).
  { replace (- t / 2) with (- (t / 2)) by field.
    now rewrite sin_neg, cos_neg. }
  assert (Hall : forall s : R,
            RealSpec.pitch (Quat (sin (s / 2)) 0 0 (cos (s / 2))) = 0
            /\ RealSpec.yaw (Quat (sin (s / 2)) 0 0 (cos (s / 2))) = 0).
  { intros s. split.
    - unfold RealSpec.pitch. cbn [qx qy qz qw]. apply pitch_of_zero. ring.
    - unfold RealSpec.yaw. cbn [qx qy qz qw].
      replace (2 * (cos (s / 2) * 0 + sin (s / 2) * 0)) with 0 by ring.
      replace (1 - 2 * (0 * 0 + 0 * 0)) with 1 by ring.
      apply angle_of_zero. lra. }
  assert (Hdeg : RealModel.degrees (- t) = - RealModel.degrees t)
    by (unfold RealModel.degrees; ring).
  rewrite Hm in Hf, Hd.
  destruct (Hall t) as [Hp Hy]. destruct (Hall (- t)) as [Hp' Hy'].
  rewrite (@roll_of_x_turn (- t)), Hp', Hy', Hdeg in Hf, Hd by lra.
  rewrite (@roll_of_x_turn t), Hp, Hy in Hx by lra.
  rewrite Hm. repeat split; assumption.
Qed.
End SingleAxis.

Lemma yaw_round_trip_witness :
  let F : Float64 R := RealModel.R_Float64 no_numeral in
  (- PI < 0 <= PI)%R
  /\ Orientation_Fast.get_rpy_from_quaternion
       (PList [PFloat 0%R; PFloat 0%R; PFloat (sin (0 / 2)); PFloat (cos (0 / 2))])
     = Ok (Tup4 (Some 0%R) (Some 0%R) (Some (RealModel.degrees 0))
                (Some (Quat 0%R 0%R (sin (0 / 2)) (cos (0 / 2))))).
Proof.
  intros F.
  assert (Ht : (- PI < 0 <= PI)%R) by (pose proof PI_RGT_0; lra).
  exact (conj Ht (proj1 (@yaw_round_trip no_numeral 0%R Ht))).
Defined.

Lemma pitch_round_trip_witness :
  let F : Float64 R := RealModel.R_Float64 no_numeral in
  (- (PI / 2) <= 0 <= PI / 2)%R
  /\ Orientation_Fast.get_rpy_from_quaternion
       (PList [PFloat 0%R; PFloat (sin (0 / 2)); PFloat 0%R; PFloat (cos (0 / 2))])
     = Ok (Tup4 (Some 0%R) (Some (RealModel.degrees 0)) (Some 0%R)
                (Some (Quat 0%R (sin (0 / 2)) 0%R (cos (0 / 2))))).
Proof.
  intros F.
  assert (Ht : (- (PI / 2) <= 0 <= PI / 2)%R) by (pose proof PI_RGT_0; lra).
  exact (conj Ht (proj1 (@pitch_round_trip no_numeral 0%R Ht))).
Defined.

Lemma roll_round_trip_mirrored_witness :
  let F : Float64 R := RealModel.R_Float64 no_numeral in
  (- PI < 0 < PI)%R
  /\ rpy_output_text.get_rpy_from_quaternion
       (PList [PFloat (sin (0 / 2)); PFloat 0%R; PFloat 0%R; PFloat (cos (0 / 2))])
     = Ok (Tup3 (Some (RealModel.degrees 0)) (Some 0%R) (Some 0%R)).
Proof.
  intros F.
  assert (Ht : (- PI < 0 < PI)%R) by (pose proof PI_RGT_0; lra).
  exact (conj Ht (proj2 (proj2 (@roll_round_trip_mirrored no_numeral 0%R Ht)))).
Defined.

(* ================================================================== *)
(** * The angles and the matrix                                         *)
(* ================================================================== *)

Module EulerSpec.
Local Open Scope R_scope.

(** [math.radians]. *)
Definition radians (d : R) : R := d * (PI / 180).

(** The rotations by [a] about the three coordinate axes. *)
Definition rot_x (a : R) : list (list R) :=
  [ [1; 0; 0]; [0; cos a; - sin a]; [0; sin a; cos a] ].

Definition rot_y (a : R) : list (list R) :=
  [ [cos a; 0; sin a]; [0; 1; 0]; [- sin a; 0; cos a] ].

Definition rot_z (a : R) : list (list R) :=
  [ [cos a; - sin a; 0]; [sin a; cos a; 0]; [0; 0; 1] ].

(** The product of two 3x3 matrices. *)
Definition mul (a b : list (list R)) : list (list R) :=
  let e (i j : nat) :=
    MatSpec.entry a i 0 * MatSpec.entry b 0 j
    + MatSpec.entry a i 1 * MatSpec.entry b 1 j
    + MatSpec.entry a i 2 * MatSpec.entry b 2 j in
  [ [e 0%nat 0%nat; e 0%nat 1%nat; e 0%nat 2%nat];
    [e 1%nat 0%nat; e 1%nat 1%nat; e 1%nat 2%nat];
    [e 2%nat 0%nat; e 2%nat 1%nat; e 2%nat 2%nat] ].

(** The rotation with the given angles in degrees: roll about x, then
    pitch about y, then yaw about z. *)
Definition of_angles (roll pitch yaw : R) : list (list R) :=
  mul (rot_z (radians yaw)) (mul (rot_y (radians pitch)) (rot_x (radians roll))).
End EulerSpec.

Section AnglesAndMatrix.
Local Open Scope R_scope.
Variable strtod : string -> option R.
Let F : Float64 R := RealModel.R_Float64 strtod.
#[local] Existing Instance F.

Lemma radians_degrees (a : R) : EulerSpec.radians (RealModel.degrees a) = a.
Proof.
  unfold EulerSpec.radians, RealModel.degrees. pose proof PI_RGT_0. field. lra.
Qed.

Lemma sqrt_ratio (y x r : R) :
  0 < x -> 0 < r -> x * x + y * y = r * r -> R_sqrt.sqrt (1 + Rsqr (y / x)) = r / x.
Proof.
  intros Hx Hr E.
  replace (1 + Rsqr (y / x)) with (Rsqr (r / x)).
  - apply sqrt_Rsqr. apply Rlt_le, Rdiv_lt_0_compat; assumption.
  - unfold Rsqr. field_simplify_eq; [|lra]. nra.
Qed.

Lemma sqrt_ratio_neg (y x r : R) :
  x < 0 -> 0 < r -> x * x + y * y = r * r -> R_sqrt.sqrt (1 + Rsqr (y / x)) = - (r / x).
Proof.
  intros Hx Hr E.
  replace (1 + Rsqr (y / x)) with (Rsqr (- (r / x))).
  - apply sqrt_Rsqr.
    assert (r / x < 0).
    { unfold Rdiv. assert (/ x < 0) by now apply Rinv_lt_0_compat. nra. }
    lra.
  - unfold Rsqr. field_simplify_eq; [|lra]. nra.
Qed.

(** [atan2 y x] is the angle of the point [(x, y)]. *)
Lemma atan2_polar (y x r : R) :
  0 < r -> x * x + y * y = r * r ->
  cos (RealModel.atan2 y x) = x / r /\ sin (RealModel.atan2 y x) = y / r.
Proof.
  intros Hr E. unfold RealModel.atan2.
  destruct (Rlt_dec 0 x) as [Hx|Hx].
  - rewrite cos_atan, sin_atan, (sqrt_ratio Hx Hr E). split; field; lra.
  - destruct (Rlt_dec x 0) as [Hx'|Hx'].
    + destruct (Rle_dec 0 y) as [Hy|Hy].
      * rewrite neg_cos, neg_sin, cos_atan, sin_atan, (sqrt_ratio_neg Hx' Hr E).
        split; field; lra.
      * replace (atan (y / x) - PI) with (- (- atan (y / x) + PI)) by ring.
        rewrite cos_neg, sin_neg, neg_cos, neg_sin, cos_neg, sin_neg,
          cos_atan, sin_atan, (sqrt_ratio_neg Hx' Hr E).
        split; field; lra.
    + assert (Hx0 : x = 0) by lra. subst x.
      assert (Hyr : y * y = r * r) by lra.
      destruct (Rlt_dec 0 y) as [Hy|Hy].
      * assert (y = r) by nra. subst y. rewrite cos_PI2, sin_PI2.
        split; field; lra.
      * destruct (Rlt_dec y 0) as [Hy'|Hy'].
        -- assert (y = - r) by nra. subst y.
           rewrite cos_neg, sin_neg, cos_PI2, sin_PI2. split; field; lra.
        -- assert (y = 0) by lra. subst y. nra.
Qed.

Lemma mat3_ext (a b c d e f g h i a' b' c' d' e' f' g' h' i' : R) :
  a = a' -> b = b' -> c = c' -> d = d' -> e = e' -> f = f' ->
  g = g' -> h = h' -> i = i' ->
  [[a; b; c]; [d; e; f]; [g; h; i]] = [[a'; b'; c']; [d'; e'; f']; [g'; h'; i']].
Proof. intros. subst. reflexivity. Qed.

(** The angles of a unit quaternion whose pitch argument is strictly
    inside (-1, 1), composed again, give the quaternion's matrix. *)
Lemma angles_rebuild_matrix (x y z w : R) :
  x * x + y * y + z * z + w * w = 1 ->
  -1 < 2 * (w * y - z * x) < 1 ->
  let q := Quat x y z w in
  EulerSpec.of_angles (RealSpec.roll q) (RealSpec.pitch q) (RealSpec.yaw q)
  = Orientation_Fast.rotmat_from_quat x y z w.
Proof.
  intros Hu Ht q. subst F. rewrite rotmat_entries.
  unfold EulerSpec.of_angles, RealSpec.roll, RealSpec.pitch, RealSpec.yaw, q.
  cbn [qx qy qz qw]. rewrite !radians_degrees.
  set (t0 := 2 * (w * x + y * z)). set (t1 := 1 - 2 * (x * x + y * y)).
  set (t2 := 2 * (w * y - z * x)).
  set (t3 := 2 * (w * z + x * y)). set (t4 := 1 - 2 * (y * y + z * z)).
  rewrite clamp_inside by (fold t2 in Ht; lra).
  set (c := R_sqrt.sqrt (1 - Rsqr t2)).
  assert (Hpos : 0 < 1 - Rsqr t2) by (fold t2 in Ht; unfold Rsqr; nra).
  assert (Hc : 0 < c) by (apply sqrt_lt_R0; exact Hpos).
  assert (Hcc : c * c = 1 - t2 * t2).
  { unfold c. rewrite sqrt_sqrt by lra. reflexivity. }
  assert (E1 : t1 * t1 + t0 * t0 = c * c).
  { rewrite Hcc. unfold t0, t1, t2. nsatz. }
  assert (E2 : t4 * t4 + t3 * t3 = c * c).
  { rewrite Hcc. unfold t3, t4, t2. nsatz. }
  destruct (atan2_polar Hc E1) as [Cr Sr].
  destruct (atan2_polar Hc E2) as [Cy Sy].
  assert (Cp : cos (asin t2) = c) by (apply cos_asin; fold t2 in Ht; lra).
  assert (Sp : sin (asin t2) = t2) by (apply sin_asin; fold t2 in Ht; lra).
  unfold EulerSpec.mul, EulerSpec.rot_x, EulerSpec.rot_y, EulerSpec.rot_z,
    MatSpec.entry. cbn [nth].
  rewrite Cr, Sr, Cy, Sy, Cp, Sp.
  assert (Hne : c <> 0) by lra.
  assert (Hcc' : t2 * t2 = 1 - c * c) by lra.
  clearbody c. clear Hpos Hc Cr Sr Cy Sy Cp Sp E1 E2 Hcc Ht.
  unfold t0, t1, t2, t3, t4 in *.
  assert (Ha : / c * c = 1) by (field; assumption).
  unfold Rdiv. set (a := / c) in *. clearbody a. clear Hne.
  apply mat3_ext; nsatz.
Qed.

(** For a unit quaternion with pitch away from the two poles, the
    angles a viewer displays determine the rotation it renders: yaw
    about z after pitch about y after roll about x is the matrix
    [rotmat_from_quat] builds from the quaternion the decoder returns.
    In terms of the entries received, the pitch argument of the
    corrected quaternion (-x, y, z, w) is 2(wy + zx). *)
Theorem angles_rebuild_cube_rotation (x y z w : R) :
  x * x + y * y + z * z + w * w = 1 ->
  -1 < 2 * (w * y + z * x) < 1 ->
  let vals := PList [PFloat x; PFloat y; PFloat z; PFloat w] in
  exists (r p yw : R) (q : quat R),
    Orientation_Fast.get_rpy_from_quaternion vals
    = Ok (Tup4 (Some r) (Some p) (Some yw) (Some q))
    /\ Sensor_Dashboard.get_rpy_from_quaternion vals
       = Ok (Tup4 (Some r) (Some p) (Some yw) (Some q))
    /\ EulerSpec.of_angles r p yw
       = Orientation_Fast.rotmat_from_quat (qx q) (qy q) (qz q) (qw q)
    /\ Sensor_Dashboard.rotmat_from_quat (qx q) (qy q) (qz q) (qw q)
       = EulerSpec.of_angles r p yw.
Proof.
  intros Hu Ht vals.
  destruct (viewers_decode_floats strtod x y z w) as (Hf & Hd & _).
  set (qc := Quat (- x) y z w).
  exists (RealSpec.roll qc), (RealSpec.pitch qc), (RealSpec.yaw qc), qc.
  assert (Hm : EulerSpec.of_angles (RealSpec.roll qc) (RealSpec.pitch qc)
                 (RealSpec.yaw qc)
               = Orientation_Fast.rotmat_from_quat (- x) y z w).
  { apply angles_rebuild_matrix; [nra|].
    replace (w * y - z * - x) with (w * y + z * x) by ring. exact Ht. }
  split; [exact Hf|]. split; [exact Hd|]. cbn [qx qy qz qw].
  split; [exact Hm|]. rewrite rotmat_same. symmetry. exact Hm.
Qed.

Lemma pole_components (x y z w : R) :
  x * x + y * y + z * z + w * w = 1 ->
  2 * (w * y - z * x) = 1 -> w = y /\ z = - x.
Proof.
  intros Hu Ht.
  assert (E : Rsqr (w - y) + Rsqr (z + x) = 0) by (unfold Rsqr; nra).
  apply Rplus_sqr_eq_0 in E. destruct E. split; lra.
Qed.

Lemma pole_angles (x y z w : R) :
  x * x + y * y + z * z + w * w = 1 ->
  2 * (w * y - z * x) = 1 ->
  let q := Quat x y z w in
  RealSpec.roll q = 0 /\ RealSpec.pitch q = 90 /\ RealSpec.yaw q = 0.
Proof.
  intros Hu Ht q. destruct (pole_components Hu Ht) as [-> ->].
  unfold RealSpec.roll, RealSpec.pitch, RealSpec.yaw, q. cbn [qx qy qz qw].
  repeat split.
  - replace (2 * (y * x + y * - x)) with 0 by ring.
    replace (1 - 2 * (x * x + y * y)) with 0 by nra.
    apply angle_of_zero. lra.
  - rewrite Ht, clamp_inside, asin_1 by lra. apply degrees_right_angle.
  - replace (2 * (y * - x + x * y)) with 0 by ring.
    replace (1 - 2 * (y * y + - x * - x)) with 0 by nra.
    apply angle_of_zero. lra.
Qed.

Lemma opposite_pole_angles (x y z w : R) :
  x * x + y * y + z * z + w * w = 1 ->
  2 * (w * y - z * x) = -1 ->
  let q := Quat x y z w in
  RealSpec.roll q = 0 /\ RealSpec.pitch q = -90 /\ RealSpec.yaw q = 0.
Proof.
  intros Hu Ht q.
  assert (Hu' : x * x + (- y) * (- y) + (- z) * (- z) + w * w = 1) by nra.
  assert (Ht' : 2 * (w * - y - - z * x) = 1) by nra.
  destruct (pole_components Hu' Ht') as [Hw Hz].
  assert (Hz' : z = x) by lra. subst w z.
  unfold RealSpec.roll, RealSpec.pitch, RealSpec.yaw, q. cbn [qx qy qz qw].
  repeat split.
  - replace (2 * (- y * x + y * x)) with 0 by ring.
    replace (1 - 2 * (x * x + y * y)) with 0 by nra.
    apply angle_of_zero. lra.
  - rewrite Ht, clamp_inside by lra.
    replace (-1) with (- (1)) by ring. rewrite asin_opp, asin_1.
    unfold RealModel.degrees. pose proof PI_RGT_0. field. lra.
  - replace (2 * (- y * x + x * y)) with 0 by ring.
    replace (1 - 2 * (y * y + x * x)) with 0 by nra.
    apply angle_of_zero. lra.
Qed.

(** At the poles the decoders drop roll and yaw: every unit
    quaternion whose pitch argument 2(wy - zx) is exactly 1 is decoded
    as (0, 90, 0), and every one with argument -1 as (0, -90, 0), by
    the text listener on (x, y, z, w) and by the viewers on the input
    (-x, y, z, w) that they correct to it. *)
Theorem poles_lose_roll_and_yaw (x y z w : R) (s : R) :
  x * x + y * y + z * z + w * w = 1 ->
  (s = 1 \/ s = -1) ->
  2 * (w * y - z * x) = s ->
  rpy_output_text.get_rpy_from_quaternion
    (PList [PFloat x; PFloat y; PFloat z; PFloat w])
  = Ok (Tup3 (Some 0) (Some (s * 90)) (Some 0))
  /\ Orientation_Fast.get_rpy_from_quaternion
       (PList [PFloat (- x); PFloat y; PFloat z; PFloat w])
     = Ok (Tup4 (Some 0) (Some (s * 90)) (Some 0) (Some (Quat x y z w)))
  /\ Sensor_Dashboard.get_rpy_from_quaternion
       (PList [PFloat (- x); PFloat y; PFloat z; PFloat w])
     = Ok (Tup4 (Some 0) (Some (s * 90)) (Some 0) (Some (Quat x y z w))).
Proof.
  intros Hu Hs Ht.
  destruct (viewers_decode_floats strtod x y z w) as (_ & _ & Hx).
  destruct (viewers_decode_floats strtod (- x) y z w) as (Hf & Hd & _).
  cbv zeta in Hf, Hd, Hx. rewrite Ropp_involutive in Hf, Hd.
  assert (Hang : RealSpec.roll (Quat x y z w) = 0
                 /\ RealSpec.pitch (Quat x y z w) = s * 90
                 /\ RealSpec.yaw (Quat x y z w) = 0).
  { destruct Hs as [-> | ->].
    - destruct (pole_angles Hu Ht) as (Hr & Hp & Hy). cbv zeta in Hr, Hp, Hy.
      rewrite Hr, Hp, Hy. repeat split; lra.
    - destruct (opposite_pole_angles Hu Ht) as (Hr & Hp & Hy).
      cbv zeta in Hr, Hp, Hy. rewrite Hr, Hp, Hy. repeat split; lra. }
  destruct Hang as (Hr & Hp & Hy). rewrite Hr, Hp, Hy in Hf, Hd, Hx.
  repeat split; assumption.
Qed.

(** A quaternion and its negative, which are the same rotation, are
    decoded to the same three angles by every listener; the viewers
    return the corrected quaternion negated, whose matrix is the
    same. *)
Theorem decoders_ignore_quaternion_sign (x y z w : R) :
  let a := PList [PFloat x; PFloat y; PFloat z; PFloat w] in
  let b := PList [PFloat (- x); PFloat (- y); PFloat (- z); PFloat (- w)] in
  rpy_output_text.get_rpy_from_quaternion b
    = rpy_output_text.get_rpy_from_quaternion a
  /\ exists (r p yw : R) (q : quat R),
       Orientation_Fast.get_rpy_from_quaternion a
       = Ok (Tup4 (Some r) (Some p) (Some yw) (Some q))
       /\ Sensor_Dashboard.get_rpy_from_quaternion a
          = Ok (Tup4 (Some r) (Some p) (Some yw) (Some q))
       /\ Orientation_Fast.get_rpy_from_quaternion b
          = Ok (Tup4 (Some r) (Some p) (Some yw)
                     (Some (Quat (- qx q) (- qy q) (- qz q) (- qw q))))
       /\ Sensor_Dashboard.get_rpy_from_quaternion b
          = Ok (Tup4 (Some r) (Some p) (Some yw)
                     (Some (Quat (- qx q) (- qy q) (- qz q) (- qw q))))
       /\ Orientation_Fast.rotmat_from_quat (- qx q) (- qy q) (- qz q) (- qw q)
          = Orientation_Fast.rotmat_from_quat (qx q) (qy q) (qz q) (qw q).
Proof.
  intros a b.
  assert (Hneg : forall u v s t : R,
            RealSpec.roll (Quat (- u) (- v) (- s) (- t)) = RealSpec.roll (Quat u v s t)
            /\ RealSpec.pitch (Quat (- u) (- v) (- s) (- t))
               = RealSpec.pitch (Quat u v s t)
            /\ RealSpec.yaw (Quat (- u) (- v) (- s) (- t))
               = RealSpec.yaw (Quat u v s t)).
  { intros u v s t. unfold RealSpec.roll, RealSpec.pitch, RealSpec.yaw.
    cbn [qx qy qz qw]. repeat split.
    - f_equal. f_equal; ring.
    - replace (2 * (- t * - v - - s * - u)) with (2 * (t * v - s * u)) by ring.
      reflexivity.
    - f_equal. f_equal; ring. }
  destruct (viewers_decode_floats strtod x y z w) as (Hf & Hd & Hx).
  destruct (viewers_decode_floats strtod (- x) (- y) (- z) (- w))
    as (Hf' & Hd' & Hx').
  subst a b F. cbv zeta in Hf, Hd, Hx, Hf', Hd', Hx'.
  destruct (Hneg x y z w) as (Hr & Hp & Hy).
  destruct (Hneg (- x) y z w) as (Hr' & Hp' & Hy').
  split.
  - rewrite Hx, Hx', Hr, Hp, Hy. reflexivity.
  - exists (RealSpec.roll (Quat (- x) y z w)), (RealSpec.pitch (Quat (- x) y z w)),
      (RealSpec.yaw (Quat (- x) y z w)), (Quat (- x) y z w).
    cbn [qx qy qz qw]. rewrite Hr', Hp', Hy' in Hf', Hd'.
    split; [exact Hf|]. split; [exact Hd|]. split; [exact Hf'|].
    split; [exact Hd'|].
    rewrite !rotmat_entries. apply mat3_ext; ring.
Qed.
End AnglesAndMatrix.

Lemma angles_rebuild_cube_rotation_witness :
  let F : Float64 R := RealModel.R_Float64 no_numeral in
  (0 * 0 + 0 * 0 + 0 * 0 + 1 * 1 = 1)%R
  /\ (-1 < 2 * (1 * 0 + 0 * 0) < 1)%R
  /\ exists (r p yw : R) (q : quat R),
       Orientation_Fast.get_rpy_from_quaternion
         (PList [PFloat 0%R; PFloat 0%R; PFloat 0%R; PFloat 1%R])
       = Ok (Tup4 (Some r) (Some p) (Some yw) (Some q))
       /\ Sensor_Dashboard.get_rpy_from_quaternion
            (PList [PFloat 0%R; PFloat 0%R; PFloat 0%R; PFloat 1%R])
          = Ok (Tup4 (Some r) (Some p) (Some yw) (Some q))
       /\ EulerSpec.of_angles r p yw
          = Orientation_Fast.rotmat_from_quat (qx q) (qy q) (qz q) (qw q)
       /\ Sensor_Dashboard.rotmat_from_quat (qx q) (qy q) (qz q) (qw q)
          = EulerSpec.of_angles r p yw.
Proof.
  intros F.
  assert (Hu : (0 * 0 + 0 * 0 + 0 * 0 + 1 * 1 = 1)%R) by lra.
  assert (Ht : (-1 < 2 * (1 * 0 + 0 * 0) < 1)%R) by lra.
  exact (conj Hu (conj Ht (@angles_rebuild_cube_rotation no_numeral 0 0 0 1 Hu Ht))).
Defined.

Lemma poles_lose_roll_and_yaw_witness :
  let F : Float64 R := RealModel.R_Float64 no_numeral in
  (- (1 / 2) * - (1 / 2) + 1 / 2 * (1 / 2) + 1 / 2 * (1 / 2) + 1 / 2 * (1 / 2) = 1)%R
  /\ (2 * (1 / 2 * (1 / 2) - 1 / 2 * - (1 / 2)) = 1)%R
  /\ rpy_output_text.get_rpy_from_quaternion
       (PList [PFloat (- (1 / 2))%R; PFloat (1 / 2)%R; PFloat (1 / 2)%R;
               PFloat (1 / 2)%R])
     = Ok (Tup3 (Some 0%R) (Some (1 * 90)%R) (Some 0%R)).
Proof.
  intros F.
  assert (Hu : (- (1 / 2) * - (1 / 2) + 1 / 2 * (1 / 2) + 1 / 2 * (1 / 2)
                + 1 / 2 * (1 / 2) = 1)%R) by lra.
  assert (Ht : (2 * (1 / 2 * (1 / 2) - 1 / 2 * - (1 / 2)) = 1)%R) by lra.
  exact (conj Hu (conj Ht
           (proj1 (@poles_lose_roll_and_yaw no_numeral (- (1 / 2)) (1 / 2) (1 / 2)
                     (1 / 2) 1 Hu (or_introl eq_refl) Ht)))).
Defined.

(* ================================================================== *)
(** * A datagram's lines                                                *)
(* ================================================================== *)

Section Datagrams.
Context {T : Type} `{Float64 T}.
Variable json_loads : string -> option (pyval T).

(** The lines of a datagram that pass the type gate. *)
Definition rotation_lines (lines : list (string * packet T))
  : list (string * packet T) :=
  filter (fun l => Orientation_Fast.dispatches (snd l)) lines.

Lemma update_lines_app (l1 l2 : list (string * packet T))
    (st : Orientation_Fast.state) :
  Orientation_Fast.update_lines json_loads (l1 ++ l2) st
  = (st' <- Orientation_Fast.update_lines json_loads l1 st ;;
     Orientation_Fast.update_lines json_loads l2 st').
Proof.
  revert st. induction l1 as [|[ts obj] l1 IH]; intros st; simpl; [reflexivity|].
  destruct (Orientation_Fast.update_line json_loads ts obj st); simpl;
    [apply IH|reflexivity].
Qed.

(** One line of [Orientation_Fast]: the log keeps what it holds and
    gains one row of eight cells exactly when the line passes the gate;
    [have_quat] is never cleared. *)
Lemma fast_line_effect (ts : string) (obj : packet T)
    (st st' : Orientation_Fast.state) :
  Orientation_Fast.update_line json_loads ts obj st = Ok st' ->
  (Orientation_Fast.have_quat st = true -> Orientation_Fast.have_quat st' = true)
  /\ match Orientation_Fast.csv st with
     | None => Orientation_Fast.csv st' = None
     | Some rows =>
       exists new,
         Orientation_Fast.csv st' = Some (rows ++ new)
         /\ List.length new = (if Orientation_Fast.dispatches obj then 1 else 0)%nat
         /\ Forall (fun r => List.length r = 8%nat) new
     end.
Proof.
  unfold Orientation_Fast.update_line, Orientation_Fast.update_line_with,
    Orientation_Fast.dispatches.
  destruct (py_in_ints (dict_get obj "type" PNone) [11; 15]%Z).
  - destruct (Orientation_Fast.get_rpy_from_quaternion _) as [t|e] eqn:Hdec;
      simpl; [|discriminate].
    destruct (fast_shape _ Hdec) as [->|(r & p & y & q & ->)]; simpl;
      [discriminate|].
    destruct (Orientation_Fast.csv st) as [rows|] eqn:Hcsv.
    + destruct (join_values _) as [joined|e]; simpl; [|discriminate].
      intros E. inversion E; subst; simpl. split; [reflexivity|].
      eexists. split; [reflexivity|]. split; [reflexivity|].
      constructor; [reflexivity|constructor].
    + intros E. inversion E; subst; simpl. split; reflexivity.
  - intros E. inversion E; subst. split; [tauto|].
    destruct (Orientation_Fast.csv st') as [rows|]; [|reflexivity].
    exists []. rewrite app_nil_r. repeat split. constructor.
Qed.

(** When [Orientation_Fast]'s loop over a datagram's lines runs to its
    end, the log has kept every earlier row and gained exactly one row,
    of the header's eight cells, for each line whose type is 11 or 15;
    without [--csv] there is no log afterwards either; and [have_quat],
    once set, stays set. *)
Theorem fast_loop_logs_each_rotation_line
    (lines : list (string * packet T)) (st st' : Orientation_Fast.state) :
  Orientation_Fast.update_lines json_loads lines st = Ok st' ->
  (Orientation_Fast.have_quat st = true -> Orientation_Fast.have_quat st' = true)
  /\ (Orientation_Fast.csv st = None -> Orientation_Fast.csv st' = None)
  /\ (forall rows, Orientation_Fast.csv st = Some rows ->
        exists new,
          Orientation_Fast.csv st' = Some (rows ++ new)
          /\ List.length new = List.length (rotation_lines lines)
          /\ Forall (fun r => List.length r
                              = List.length (@Orientation_Fast.header T)) new).
Proof.
  revert st. induction lines as [|[ts obj] lines IH]; intros st; simpl.
  - intros E. inversion E; subst. split; [tauto|]. split; [tauto|].
    intros rows Hr. exists []. rewrite app_nil_r. repeat split; auto.
  - destruct (Orientation_Fast.update_line json_loads ts obj st) as [st1|e] eqn:E1;
      simpl; [|discriminate].
    intros E2. destruct (fast_line_effect _ _ _ E1) as [Hq Hlog].
    destruct (IH _ E2) as (Hq' & Hnone & Hsome).
    split; [auto|]. split.
    + intros Hc. rewrite Hc in Hlog. auto.
    + intros rows Hc. rewrite Hc in Hlog.
      destruct Hlog as (new1 & Hc1 & Hlen1 & Hall1).
      destruct (Hsome _ Hc1) as (new2 & Hc2 & Hlen2 & Hall2).
      exists (new1 ++ new2). rewrite Hc2, app_assoc. split; [reflexivity|].
      split.
      * rewrite length_app, Hlen1, Hlen2.
        destruct (Orientation_Fast.dispatches obj); reflexivity.
      * apply Forall_app. split; assumption.
Qed.

(** One line of [rpy_output_text]. *)
Lemma text_line_effect (ts : string) (obj : packet T)
    (st st' : rpy_output_text.state) :
  rpy_output_text.main_line json_loads ts obj st = Ok st' ->
  (exists pr,
     rpy_output_text.printed st' = rpy_output_text.printed st ++ pr
     /\ (List.length pr <= (if rpy_output_text.dispatches obj then 1 else 0))%nat)
  /\ match rpy_output_text.csv st with
     | None => rpy_output_text.csv st' = None
     | Some rows =>
       exists r, rpy_output_text.csv st' = Some (rows ++ [r])
                 /\ List.length r = 11%nat
     end.
Proof.
  unfold rpy_output_text.main_line, rpy_output_text.main_line_with,
    rpy_output_text.dispatches.
  set (vals := rpy_output_text.normalize_values _ _).
  assert (Htail : forall (a b c : option T) (out : list (T * T * T)),
    match rpy_output_text.csv st with
    | Some rows =>
        joined <- join_values vals ;;
        Ok (rpy_output_text.State out
              (Some (rows ++
                 [[CText ts; CValue (dict_get obj "ts_ns" PNone);
                   CValue (dict_get obj "type" PNone);
                   CValue (dict_get obj "name" (PStr "Unknown"));
                   CValue (dict_get obj "vendor" PNone);
                   CValue (dict_get obj "version" PNone);
                   CValue (dict_get obj "acc" (PStr "?")); joined;
                   rpy_output_text.angle_cell a; rpy_output_text.angle_cell b;
                   rpy_output_text.angle_cell c]])))
    | None => Ok (rpy_output_text.State out None)
    end = Ok st' ->
    rpy_output_text.printed st' = out
    /\ match rpy_output_text.csv st with
       | None => rpy_output_text.csv st' = None
       | Some rows =>
         exists r, rpy_output_text.csv st' = Some (rows ++ [r])
                   /\ List.length r = 11%nat
       end).
  { intros a b c out. destruct (rpy_output_text.csv st) as [rows|].
    - destruct (join_values vals) as [joined|e]; simpl; [|discriminate].
      intros E. inversion E; subst; simpl. split; [reflexivity|].
      eexists. split; reflexivity.
    - intros E. inversion E; subst; simpl. split; reflexivity. }
  destruct (py_in_ints (dict_get obj "type" PNone) [11; 15]%Z).
  - destruct (rpy_output_text.get_rpy_from_quaternion vals) as [t|e] eqn:Hdec;
      simpl; [|discriminate].
    destruct (text_shape _ Hdec) as [->|(r & p & y & ->)]; simpl.
    + intros E. destruct (Htail None None None _ E) as [Hp Hc].
      split; [|exact Hc].
      exists []. rewrite app_nil_r. split; [exact Hp|simpl; lia].
    + intros E. destruct (Htail (Some r) (Some p) (Some y) _ E) as [Hp Hc].
      split; [|exact Hc].
      exists [(r, p, y)]. split; [exact Hp|simpl; lia].
  - simpl. intros E. destruct (Htail None None None _ E) as [Hp Hc].
    split; [|exact Hc].
    exists []. rewrite app_nil_r. split; [exact Hp|simpl; lia].
Qed.

End Datagrams.

Section LastLine.
Local Open Scope R_scope.
Variable strtod : string -> option R.
Variable json_loads : string -> option (pyval R).
Let F : Float64 R := RealModel.R_Float64 strtod.
#[local] Existing Instance F.

End LastLine.

(* ================================================================== *)
(** * rpy_output_text.py: the lines as they arrive                      *)
(* ================================================================== *)

(** What [json.loads(line)] gives: a JSON object, or a JSON value of
    another kind (an array, a string, a number, true, false, null), on
    which [obj.get] raises [AttributeError]. *)
Inductive parsed_line (T : Type) : Type :=
| LObject (obj : packet T)
| LValue (v : pyval T).

Arguments LObject {T} obj.
Arguments LValue {T} v.

Section RawLines.
Context {T : Type} `{Float64 T}.
(** [json.loads] on a [values] string, as before. *)
Variable json_loads : string -> option (pyval T).
(** [json.loads] on a line: [None] is [json.JSONDecodeError]. *)
Variable loads_line : string -> option (parsed_line T).
(** [not line.strip()]. *)
Variable blank : string -> bool.

(** Lines 72-129 of [rpy_output_text.py]: one line of
    [text.splitlines()], with the clock reading taken for it. A blank
    line and a line that is not JSON are skipped; a line that is JSON
    is taken for an object. *)
Definition main_raw_line (host_ts line : string) (st : rpy_output_text.state)
  : result rpy_output_text.state :=
  if blank line then Ok st
  else match loads_line line with
       | None => Ok st
       | Some (LValue _) => Raise AttributeError
       | Some (LObject obj) => rpy_output_text.main_line json_loads host_ts obj st
       end.

Fixpoint main_raw_lines (lines : list (string * string))
    (st : rpy_output_text.state) : result rpy_output_text.state :=
  match lines with
  | [] => Ok st
  | (host_ts, line) :: lines' =>
    st' <- main_raw_line host_ts line st ;; main_raw_lines lines' st'
  end.
End RawLines.

Section ConsoleLoop.
Variable c_atan2 : float -> float -> float.
Variable c_asin : float -> float.
Variable strtod : string -> option float.
Variable json_loads : string -> option (pyval float).
Variable loads_line : string -> option (parsed_line float).
Variable blank : string -> bool.
Let F : Float64 float := FloatModel.F_Float64 c_atan2 c_asin strtod.
#[local] Existing Instance F.

(** Without a log, a parsed line is read without an exception exactly
    when it is no rotation vector, or its values are a sequence in
    which [float] meets no integer too large for a double. *)
Lemma console_line_survives_iff (ts : string) (obj : packet float)
    (st : rpy_output_text.state) :
  let vals :=
    rpy_output_text.normalize_values json_loads (dict_get obj "values" (PList [])) in
  rpy_output_text.csv st = None ->
  (exists st', rpy_output_text.main_line json_loads ts obj st = Ok st')
  <-> (rpy_output_text.dispatches obj = false
       \/ exists items,
            py_items vals = Some items
            /\ ((4 <= List.length items)%nat ->
                float_first_four vals <> Raise OverflowError)).
Proof.
  intros vals Hcsv.
  unfold rpy_output_text.main_line, rpy_output_text.main_line_with,
    rpy_output_text.dispatches.
  fold vals. rewrite Hcsv.
  destruct (py_in_ints (dict_get obj "type" PNone) [11; 15]%Z).
  - destruct (rpy_output_text.get_rpy_from_quaternion vals) as [t|e] eqn:Hdec.
    + assert (Hq : exists items,
                py_items vals = Some items
                /\ ((4 <= List.length items)%nat ->
                    float_first_four vals <> Raise OverflowError)).
      { pose proof Hdec as Hdec'. revert Hdec'.
        unfold rpy_output_text.get_rpy_from_quaternion at 1. unfold py_len.
        destruct (py_items vals) as [items|] eqn:Hit; [|discriminate].
        intros _. exists items. split; [reflexivity|].
        intros H4 Hff.
        assert (Hn : py_len vals = Ok (List.length items))
          by (unfold py_len; now rewrite Hit).
        rewrite (text_overflow _ Hn H4 Hff) in Hdec. discriminate. }
      destruct (text_shape _ Hdec) as [->|(r & p & y & ->)]; simpl;
        (split; [intros _; right; exact Hq|intros _; eexists; reflexivity]).
    + cbn [bind]. split; [intros [st' E]; discriminate|].
      intros [Hd|(items & Hit & Hov)]; [discriminate|]. exfalso.
      assert (Hn : py_len vals = Ok (List.length items))
        by (unfold py_len; now rewrite Hit).
      subst F.
      destruct (text_raises_float _ _ _ _ Hdec) as [[_ Hnone]|[_ Hff]].
      * congruence.
      * destruct (Nat.lt_ge_cases (List.length items) 4) as [Hlt|Hge].
        -- rewrite (text_short _ Hn Hlt) in Hdec. discriminate.
        -- exact (Hov Hge Hff).
  - cbn [bind]. split; [intros _; left; reflexivity|].
    intros _. eexists. reflexivity.
Qed.

Lemma console_raw_line_survives_iff (ts line : string)
    (st : rpy_output_text.state) :
  rpy_output_text.csv st = None ->
  ((exists st', main_raw_line json_loads loads_line blank ts line st = Ok st')
   <-> (blank line = true
        \/ loads_line line = None
        \/ exists obj,
             loads_line line = Some (LObject obj)
             /\ (rpy_output_text.dispatches obj = false
                 \/ exists items,
                      py_items (rpy_output_text.normalize_values json_loads
                                  (dict_get obj "values" (PList [])))
                      = Some items
                      /\ ((4 <= List.length items)%nat ->
                          float_first_four
                            (rpy_output_text.normalize_values json_loads
                               (dict_get obj "values" (PList [])))
                          <> Raise OverflowError))))
  /\ (forall st', main_raw_line json_loads loads_line blank ts line st = Ok st' ->
        rpy_output_text.csv st' = None).
Proof.
  intros Hcsv. unfold main_raw_line.
  destruct (blank line).
  - split; [|intros st' E; inversion E; subst; exact Hcsv].
    split; [auto|]. intros _. eexists. reflexivity.
  - destruct (loads_line line) as [[obj|v]|].
    + split.
      * rewrite (console_line_survives_iff ts obj st Hcsv). split.
        -- intros Hq. right. right. exists obj. auto.
        -- intros [Hb|[Hn|(obj' & Ho & Hq)]]; try discriminate.
           inversion Ho. subst obj'. exact Hq.
      * intros st' E.
        pose proof (proj2 (text_line_effect json_loads ts obj st E)) as Hlog.
        rewrite Hcsv in Hlog. exact Hlog.
    + split; [|discriminate]. split; [intros [st' E]; discriminate|].
      intros [Hb|[Hn|(obj' & Ho & _)]]; discriminate.
    + split; [|intros st' E; inversion E; subst; exact Hcsv].
      split; [auto|]. intros _. eexists. reflexivity.
Qed.

End ConsoleLoop.

Lemma fast_loop_logs_each_rotation_line_witness :
  let F : Float64 float :=
    FloatModel.F_Float64 (fun y _ => y) (fun t => t) (fun _ => None) in
  let lines : list (string * packet float) :=
    [("t0", [("type", PInt 1); ("values", PList [PFloat 0.5%float])]);
     ("t1", [("type", PInt 11);
             ("values", PList [PFloat 0%float; PFloat 0%float; PFloat 0%float;
                               PFloat 1%float])])]%string in
  let st := Orientation_Fast.init (Some "log.csv"%string) in
  exists st',
    Orientation_Fast.update_lines (fun _ => None) lines st = Ok st'
    /\ exists new,
         Orientation_Fast.csv st' = Some ([Orientation_Fast.header] ++ new)
         /\ List.length new = 1%nat.
Proof.
  intros F lines st.
  destruct (Orientation_Fast.update_lines (fun _ => None) lines st)
    as [st'|e] eqn:E; [|vm_compute in E; discriminate].
  exists st'. split; [reflexivity|].
  destruct (proj2 (proj2 (@fast_loop_logs_each_rotation_line float F
                            (fun _ => None) lines st st' E))
              [Orientation_Fast.header] eq_refl) as (new & Hc & Hl & _).
  exists new. split; [exact Hc|exact Hl].
Defined.



(* ================================================================== *)
(** * Sensor_Dashboard.py: position, battery and the status line       *)
(* ================================================================== *)

(** The rest of [SensorDashboard._update]: the GPS and battery branches
    of the loop (lines 242-254) and the status line (lines 262-265). *)
Module SensorDashboard.

(** [GPS_HISTORY], line 7. *)
Definition GPS_HISTORY : Z := 5000.

(** [d.append(x)] on a [collections.deque] with [maxlen]: the item is
    appended on the right and, the deque being then too long, one item
    leaves on the left. *)
Definition deque_append {A : Type} (maxlen : Z) (d : list A) (x : A) : list A :=
  let d' := d ++ [x] in
  if (maxlen <? Z.of_nat (List.length d'))%Z then tl d' else d'.

Section Program.
Context {T : Type} `{Float64 T}.
(** [json.loads]: [None] is [json.JSONDecodeError]. *)
Variable json_loads : string -> option (pyval T).
(** [int(v)], line 254. *)
Variable py_int : pyval T -> result Z.
(** [self._update_map_marker(lat, lon)], lines 202-207: what folium
    and the web view do with the position and the trail. *)
Variable _update_map_marker :
  pyval T -> pyval T -> list (pyval T * pyval T) -> result unit.

(** The position and battery fields of [SensorDashboard], which hold
    whatever the packets carried, and the GPS trail. *)
Record telemetry : Type := Telemetry {
  lat : pyval T;
  lon : pyval T;
  batt_v : pyval T;
  batt_a : pyval T;
  batt_w : pyval T;
  batt_chg : Z;
  gps_points : list (pyval T * pyval T)
}.

(** Lines 185-190. *)
Definition init : telemetry :=
  Telemetry (PInt 0) (PInt 0) (PInt 0) (PInt 0) (PInt 0) 0 [].

(** Lines 225-254: the body of the loop for one parsed line, as far as
    a line that completes goes: how the line ends and, when it raises
    nothing, the fields it leaves. The orientation branch is
    [Sensor_Dashboard._update_line]; a packet it passes over is tried
    as a GPS fix and then as a battery reading. The fields a line
    leaves when it raises are given by [_update_line_fields] below. *)
Definition _update_line (obj : packet T)
    (s : Sensor_Dashboard.state * telemetry)
  : result (Sensor_Dashboard.state * telemetry) :=
  let st := fst s in
  let tel := snd s in
  r <- Sensor_Dashboard._update_line json_loads obj st ;;
  match r with
  | Some st' => Ok (st', tel)
  | None =>
    let name := dict_get obj "name" (PStr "") in
    let vals :=
      Sensor_Dashboard.normalize_values json_loads
        (dict_get obj "values" (PList [])) in
    l <- py_lower name ;;
    if contains "gps" l then
      n <- py_len vals ;;
      if (2 <=? n)%nat then
        v0 <- py_getitem vals 0 ;;
        v1 <- py_getitem vals 1 ;;
        let points := deque_append GPS_HISTORY (gps_points tel) (v0, v1) in
        _ <- _update_map_marker v0 v1 points ;;
        Ok (st, Telemetry v0 v1 (batt_v tel) (batt_a tel) (batt_w tel)
                  (batt_chg tel) points)
      else Ok (st, tel)
    else
      l' <- py_lower name ;;
      if contains "battery" l' then
        n <- py_len vals ;;
        if (3 <=? n)%nat then
          first3 <- py_slice_to vals 3 ;;
          match first3 with
          | [v; a; w] =>
            n' <- py_len vals ;;
            if (4 <=? n')%nat then
              v3 <- py_getitem vals 3 ;;
              chg <- py_int v3 ;;
              Ok (st, Telemetry (lat tel) (lon tel) v a w chg (gps_points tel))
            else
              Ok (st, Telemetry (lat tel) (lon tel) v a w (batt_chg tel)
                        (gps_points tel))
          | _ => Raise ValueError
          end
        else Ok (st, tel)
      else Ok (st, tel)
  end.

(** The loop over the lines read in one call of [_update]. *)
Fixpoint _update_lines (lines : list (packet T))
    (s : Sensor_Dashboard.state * telemetry)
  : result (Sensor_Dashboard.state * telemetry) :=
  match lines with
  | [] => Ok s
  | obj :: lines' => s' <- _update_line obj s ;; _update_lines lines' s'
  end.

(** The same lines with the fields kept: a step of the method answers
    with the fields as it leaves them and with how it ended, so that an
    exception raised after an assignment leaves the assignment in
    place. *)
Definition fields : Type := (@Sensor_Dashboard.state T * telemetry)%type.

Definition step (A : Type) : Type := fields -> fields * result A.

(** An expression that touches no field. *)
Definition pure {A : Type} (r : result A) : step A := fun s => (s, r).

Definition and_then {A B : Type} (m : step A) (k : A -> step B) : step B :=
  fun s =>
    match m s with
    | (s', Ok a) => k a s'
    | (s', Raise e) => (s', Raise e)
    end.

(** An assignment to position or battery fields, and the reading of
    one. *)
Definition assign (f : telemetry -> telemetry) : step unit :=
  fun s => ((fst s, f (snd s)), Ok tt).

Definition field {A : Type} (f : telemetry -> A) : step A :=
  fun s => (s, Ok (f (snd s))).

#[local] Notation "x <~ m ;; k" := (and_then m (fun x => k))
  (at level 61, m at next level, right associativity).

(** Lines 225-254 again. Line 245 assigns [lat] and [lon], line 246
    appends to the trail, and only then line 247 draws the marker;
    line 252 assigns the three battery fields before line 254 calls
    [int]. The orientation branch assigns after the decoder has
    returned, so a line that raises there leaves the fields alone. *)
Definition _update_line_fields (obj : packet T) : step unit :=
  let name := dict_get obj "name" (PStr "") in
  let vals :=
    Sensor_Dashboard.normalize_values json_loads
      (dict_get obj "values" (PList [])) in
  fun s =>
    match Sensor_Dashboard._update_line json_loads obj (fst s) with
    | Raise e => (s, Raise e)
    | Ok (Some st') => ((st', snd s), Ok tt)
    | Ok None =>
      (l <~ pure (py_lower name) ;;
       if contains "gps" l then
         n <~ pure (py_len vals) ;;
         if (2 <=? n)%nat then
           v0 <~ pure (py_getitem vals 0) ;;
           v1 <~ pure (py_getitem vals 1) ;;
           _ <~ assign (fun tel =>
                  Telemetry v0 v1 (batt_v tel) (batt_a tel) (batt_w tel)
                            (batt_chg tel) (gps_points tel)) ;;
           _ <~ assign (fun tel =>
                  Telemetry (lat tel) (lon tel) (batt_v tel) (batt_a tel)
                            (batt_w tel) (batt_chg tel)
                            (deque_append GPS_HISTORY (gps_points tel)
                               (lat tel, lon tel))) ;;
           la <~ field lat ;;
           lo <~ field lon ;;
           points <~ field gps_points ;;
           pure (_update_map_marker la lo points)
         else pure (Ok tt)
       else
         l' <~ pure (py_lower name) ;;
         if contains "battery" l' then
           n <~ pure (py_len vals) ;;
           if (3 <=? n)%nat then
             first3 <~ pure (py_slice_to vals 3) ;;
             match first3 with
             | [v; a; w] =>
               _ <~ assign (fun tel =>
                      Telemetry (lat tel) (lon tel) v a w (batt_chg tel)
                                (gps_points tel)) ;;
               n' <~ pure (py_len vals) ;;
               if (4 <=? n')%nat then
                 v3 <~ pure (py_getitem vals 3) ;;
                 chg <~ pure (py_int v3) ;;
                 assign (fun tel =>
                   Telemetry (lat tel) (lon tel) (batt_v tel) (batt_a tel)
                             (batt_w tel) chg (gps_points tel))
               else pure (Ok tt)
             | _ => pure (Raise ValueError)
             end
           else pure (Ok tt)
         else pure (Ok tt)) s
    end.

(** The loop with the fields kept: the first line that raises ends
    it. *)
Fixpoint _update_lines_fields (lines : list (packet T)) : step unit :=
  match lines with
  | [] => pure (Ok tt)
  | obj :: lines' =>
    _ <~ _update_line_fields obj ;; _update_lines_fields lines'
  end.

(** [format(v, ".5f")] and [format(v, ".2f")], as far as the value
    shown goes: a float is shown as it is, an [int] or [bool] through
    its conversion to float; a string has no format code [f]
    ([ValueError]); [None] and a list take no format string
    ([TypeError]). *)
Definition format_f (v : pyval T) : result T :=
  match v with
  | PFloat t => Ok t
  | PInt z => match float_of_int z with
              | Some t => Ok t
              | None => Raise OverflowError
              end
  | PBool b => Ok (if b then fone else fzero)
  | PStr _ => Raise ValueError
  | PNone => Raise TypeError
  | PList _ => Raise TypeError
  end.

(** The numbers of the status line and whether the charging sign is
    shown. *)
Record status : Type := Status {
  shown_roll : T;
  shown_pitch : T;
  shown_yaw : T;
  shown_lat : T;
  shown_lon : T;
  shown_batt_v : T;
  charging_sign : bool
}.

(** Lines 262-265: the f-string handed to [self.status.setText], its
    fields formatted from left to right. *)
Definition status_text (s : Sensor_Dashboard.state * telemetry) : result status :=
  let st := fst s in
  let tel := snd s in
  la <- format_f (lat tel) ;;
  lo <- format_f (lon tel) ;;
  bv <- format_f (batt_v tel) ;;
  Ok (Status (Sensor_Dashboard.roll st) (Sensor_Dashboard.pitch st)
             (Sensor_Dashboard.yaw st) la lo bv
             (negb (Z.eqb (batt_chg tel) 0))).

(** One call of [_update], lines 209-265, on the lines it reads: the
    loop, then the status line, with the fields the call leaves.
    Between the two the cube is given [Sensor_Dashboard.cube_rotation]. *)
Definition _update (lines : list (packet T)) : step status :=
  _ <~ _update_lines_fields lines ;; (fun s => (s, status_text s)).
End Program.
End SensorDashboard.

Section Telemetry.
Context {T : Type} `{Float64 T}.
Variable json_loads : string -> option (pyval T).
Variable py_int : pyval T -> result Z.
Variable _update_map_marker :
  pyval T -> pyval T -> list (pyval T * pyval T) -> result unit.

#[local] Abbreviation update_line :=
  (SensorDashboard._update_line json_loads py_int _update_map_marker).
#[local] Abbreviation update_lines :=
  (SensorDashboard._update_lines json_loads py_int _update_map_marker).

Lemma deque_append_length {A : Type} (maxlen : Z) (d : list A) (x : A) :
  (0 < maxlen)%Z -> (Z.of_nat (List.length d) <= maxlen)%Z ->
  (Z.of_nat (List.length (SensorDashboard.deque_append maxlen d x)) <= maxlen)%Z.
Proof.
  intros Hm Hd. unfold SensorDashboard.deque_append. cbv zeta.
  destruct (maxlen <? Z.of_nat (List.length (d ++ [x])))%Z eqn:E.
  - destruct d as [|a d]; simpl in *; [lia|].
    rewrite length_app. simpl. lia.
  - apply Z.ltb_ge in E. exact E.
Qed.

Lemma deque_append_last {A : Type} (maxlen : Z) (d : list A) (x dflt : A) :
  (0 < maxlen)%Z ->
  last (SensorDashboard.deque_append maxlen d x) dflt = x.
Proof.
  intros Hm. unfold SensorDashboard.deque_append. cbv zeta.
  destruct (maxlen <? Z.of_nat (List.length (d ++ [x])))%Z eqn:E.
  - destruct d as [|a d]; simpl in *.
    + apply Z.ltb_lt in E. lia.
    + apply last_last.
  - apply last_last.
Qed.

(** What one line can do, branch by branch. *)
Lemma update_line_cases (obj : packet T)
    (st st' : Sensor_Dashboard.state)
    (tel tel' : SensorDashboard.telemetry) :
  update_line obj (st, tel) = Ok (st', tel') ->
  (Sensor_Dashboard.dispatches obj = Ok true /\ tel' = tel)
  \/ (Sensor_Dashboard.dispatches obj = Ok false /\ st' = st
      /\ exists nm, dict_get obj "name" (PStr "") = PStr nm
         /\ ((contains "gps" (lower nm) = true
              /\ (tel' = tel
                  \/ exists v0 v1,
                       py_getitem (Sensor_Dashboard.normalize_values json_loads
                                     (dict_get obj "values" (PList []))) 0 = Ok v0
                       /\ py_getitem (Sensor_Dashboard.normalize_values json_loads
                                        (dict_get obj "values" (PList []))) 1 = Ok v1
                       /\ tel' = SensorDashboard.Telemetry v0 v1
                                   (SensorDashboard.batt_v tel)
                                   (SensorDashboard.batt_a tel)
                                   (SensorDashboard.batt_w tel)
                                   (SensorDashboard.batt_chg tel)
                                   (SensorDashboard.deque_append
                                      SensorDashboard.GPS_HISTORY
                                      (SensorDashboard.gps_points tel) (v0, v1))))
             \/ (contains "gps" (lower nm) = false
                 /\ SensorDashboard.lat tel' = SensorDashboard.lat tel
                 /\ SensorDashboard.lon tel' = SensorDashboard.lon tel
                 /\ SensorDashboard.gps_points tel'
                    = SensorDashboard.gps_points tel
                 /\ (contains "battery" (lower nm) = false -> tel' = tel)))).
Proof.
  unfold SensorDashboard._update_line. cbn [fst snd].
  unfold Sensor_Dashboard._update_line, Sensor_Dashboard._update_line_with.
  set (vals := Sensor_Dashboard.normalize_values json_loads
                 (dict_get obj "values" (PList []))).
  destruct (Sensor_Dashboard.dispatches obj) as [[|]|e] eqn:Hd;
    cbn [bind]; [| |discriminate].
  - destruct (Sensor_Dashboard.get_rpy_from_quaternion vals) as [t|e] eqn:Hdec;
      cbn [bind]; [|discriminate].
    destruct (dash_shape _ Hdec) as [->|(r & p & y & q & ->)]; simpl;
      intros E; inversion E; subst; left; auto.
  - intros E. right. split; [reflexivity|].
    unfold Sensor_Dashboard.dispatches in Hd.
    destruct (py_in_ints (dict_get obj "type" PNone) [11; 15; 20]%Z);
      [discriminate|].
    destruct (dict_get obj "name" (PStr "")) as [| | | |nm|] eqn:Hname;
      simpl in Hd; try discriminate.
    cbn [bind py_lower] in E.
    assert (Hst : forall tel0, Ok (st, tel0) = Ok (st', tel') ->
                               st' = st /\ tel' = tel0).
    { intros tel0 E0. inversion E0. auto. }
    destruct (contains "gps" (lower nm)) eqn:Hg.
    + destruct (py_len vals) as [n|e]; cbn [bind] in E; [|discriminate].
      destruct (2 <=? n)%nat.
      * destruct (py_getitem vals 0) as [v0|e0]; cbn [bind] in E; [|discriminate].
        destruct (py_getitem vals 1) as [v1|e1]; cbn [bind] in E; [|discriminate].
        destruct (_update_map_marker _ _ _) as [[]|e2]; cbn [bind] in E;
          [|discriminate].
        destruct (Hst _ E) as [-> ->]. split; [reflexivity|].
        exists nm. split; [reflexivity|]. left. split; [exact Hg|].
        right. exists v0, v1. repeat split; reflexivity.
      * destruct (Hst _ E) as [-> ->]. split; [reflexivity|].
        exists nm. split; [reflexivity|]. left. auto.
    + destruct (contains "battery" (lower nm)) eqn:Hb.
      * destruct (py_len vals) as [n|e]; cbn [bind] in E; [|discriminate].
        destruct (3 <=? n)%nat.
        -- destruct (py_slice_to vals 3) as [[|v [|a [|w [|]]]]|e3];
             cbn [bind] in E; try discriminate.
           destruct (4 <=? n)%nat.
           ++ destruct (py_getitem vals 3) as [v3|e4]; cbn [bind] in E;
                [|discriminate].
              destruct (py_int v3) as [c|e5]; cbn [bind] in E; [|discriminate].
              destruct (Hst _ E) as [-> ->]. split; [reflexivity|].
              exists nm. split; [reflexivity|]. right. cbn.
              repeat split; try reflexivity; try exact Hg. congruence.
           ++ destruct (Hst _ E) as [-> ->]. split; [reflexivity|].
              exists nm. split; [reflexivity|]. right. cbn.
              repeat split; try reflexivity; try exact Hg. congruence.
        -- destruct (Hst _ E) as [-> ->]. split; [reflexivity|].
           exists nm. split; [reflexivity|]. right.
           repeat split; try reflexivity; exact Hg.
      * destruct (Hst _ E) as [-> ->]. split; [reflexivity|].
        exists nm. split; [reflexivity|]. right.
           repeat split; try reflexivity; exact Hg.
Qed.

Lemma deque_append_keeps_suffix {A : Type} (maxlen : Z) (d : list A) (x : A) :
  exists old, old ++ SensorDashboard.deque_append maxlen d x = d ++ [x].
Proof.
  unfold SensorDashboard.deque_append. cbv zeta.
  destruct (maxlen <? Z.of_nat (List.length (d ++ [x])))%Z.
  - destruct (d ++ [x]) as [|a l]; [exists []|exists [a]]; reflexivity.
  - exists []. reflexivity.
Qed.

(** The trail after one line. *)
Lemma update_line_trail (obj : packet T)
    (st st' : Sensor_Dashboard.state) (tel tel' : SensorDashboard.telemetry)
    (dflt : pyval T * pyval T) :
  update_line obj (st, tel) = Ok (st', tel') ->
  let pts := SensorDashboard.gps_points tel in
  let pts' := SensorDashboard.gps_points tel' in
  ((Z.of_nat (List.length pts) <= SensorDashboard.GPS_HISTORY)%Z ->
   (Z.of_nat (List.length pts') <= SensorDashboard.GPS_HISTORY)%Z)
  /\ (exists old new, old ++ pts' = pts ++ new /\ (List.length new <= 1)%nat)
  /\ (pts = [] \/ last pts dflt = (SensorDashboard.lat tel, SensorDashboard.lon tel) ->
      pts' = []
      \/ last pts' dflt = (SensorDashboard.lat tel', SensorDashboard.lon tel')).
Proof.
  intros E pts pts'.
  assert (Hsame : SensorDashboard.lat tel' = SensorDashboard.lat tel ->
                  SensorDashboard.lon tel' = SensorDashboard.lon tel ->
                  pts' = pts ->
    ((Z.of_nat (List.length pts) <= SensorDashboard.GPS_HISTORY)%Z ->
     (Z.of_nat (List.length pts') <= SensorDashboard.GPS_HISTORY)%Z)
    /\ (exists old new, old ++ pts' = pts ++ new /\ (List.length new <= 1)%nat)
    /\ (pts = [] \/ last pts dflt
                    = (SensorDashboard.lat tel, SensorDashboard.lon tel) ->
        pts' = []
        \/ last pts' dflt = (SensorDashboard.lat tel', SensorDashboard.lon tel'))).
  { intros -> -> ->. split; [tauto|]. split; [|tauto].
    exists [], []. rewrite app_nil_r. split; [reflexivity|simpl; lia]. }
  destruct (update_line_cases _ _ _ E)
    as [[_ ->]|(_ & _ & nm & _ & [[_ [->|(v0 & v1 & _ & _ & ->)]]|(_ & Hla & Hlo & Hp & _)])].
  - now apply Hsame.
  - now apply Hsame.
  - subst pts'. cbn [SensorDashboard.gps_points SensorDashboard.lat
                     SensorDashboard.lon].
    split; [|split].
    + intros Hb. apply deque_append_length; [reflexivity|exact Hb].
    + destruct (deque_append_keeps_suffix SensorDashboard.GPS_HISTORY pts (v0, v1))
        as [old Hold].
      exists old, [(v0, v1)]. split; [exact Hold|simpl; lia].
    + intros _. right. apply deque_append_last. reflexivity.
  - apply Hsame; assumption.
Qed.


(** The three branches of the loop exclude one another in the order
    they are written: a line that passes the orientation gate changes
    no position or battery field, whatever its name says; a line that
    does not leaves the orientation alone; a line whose name contains
    "gps" is never read as a battery reading, even when the name
    contains "battery" too; and any other line leaves the position and
    the trail alone. *)
Theorem update_line_takes_first_branch (obj : packet T)
    (st st' : Sensor_Dashboard.state) (tel tel' : SensorDashboard.telemetry) :
  update_line obj (st, tel) = Ok (st', tel') ->
  (Sensor_Dashboard.dispatches obj = Ok true -> tel' = tel)
  /\ (Sensor_Dashboard.dispatches obj = Ok false -> st' = st)
  /\ (forall nm, dict_get obj "name" (PStr "") = PStr nm ->
        contains "gps" (lower nm) = true ->
        SensorDashboard.batt_v tel' = SensorDashboard.batt_v tel
        /\ SensorDashboard.batt_a tel' = SensorDashboard.batt_a tel
        /\ SensorDashboard.batt_w tel' = SensorDashboard.batt_w tel
        /\ SensorDashboard.batt_chg tel' = SensorDashboard.batt_chg tel)
  /\ (forall nm, dict_get obj "name" (PStr "") = PStr nm ->
        contains "gps" (lower nm) = false ->
        SensorDashboard.lat tel' = SensorDashboard.lat tel
        /\ SensorDashboard.lon tel' = SensorDashboard.lon tel
        /\ SensorDashboard.gps_points tel' = SensorDashboard.gps_points tel).
Proof.
  intros E.
  destruct (update_line_cases _ _ _ E)
    as [[Hd ->]|(Hd & -> & nm & Hn & [[Hg [->|(v0 & v1 & _ & _ & ->)]]|(Hg & Hla & Hlo & Hp & _)])];
    (split; [intros Hd'; try reflexivity; congruence|]);
    (split; [intros Hd'; try reflexivity; congruence|]);
    split; intros nm' Hn' Hg'; try (repeat split; reflexivity);
    try (rewrite Hn in Hn'; inversion Hn'; subst nm'; congruence).
  repeat split; assumption.
Qed.

(** [_update_line] is [_update_line_fields] with the fields of a line
    that raises forgotten. *)
Lemma _update_line_completes (obj : packet T)
    (s : Sensor_Dashboard.state * SensorDashboard.telemetry) :
  update_line obj s
  = match SensorDashboard._update_line_fields json_loads py_int
            _update_map_marker obj s with
    | (s', Ok _) => Ok s'
    | (_, Raise e) => Raise e
    end.
Proof.
  destruct s as [st tel].
  unfold SensorDashboard._update_line, SensorDashboard._update_line_fields.
  cbn [fst snd].
  destruct (Sensor_Dashboard._update_line json_loads obj st) as [[st'|]|e];
    cbn [bind]; try reflexivity.
  unfold SensorDashboard.and_then, SensorDashboard.pure, SensorDashboard.assign,
    SensorDashboard.field.
  destruct (py_lower (dict_get obj "name" (PStr ""))) as [l|e];
    cbn [bind]; [|reflexivity].
  destruct (contains "gps" l).
  - destruct (py_len _) as [n|e]; cbn [bind]; [|reflexivity].
    destruct (2 <=? n)%nat; [|reflexivity].
    destruct (py_getitem _ 0) as [v0|e0]; cbn [bind]; [|reflexivity].
    destruct (py_getitem _ 1) as [v1|e1]; cbn [bind]; [|reflexivity].
    cbn [fst snd SensorDashboard.lat SensorDashboard.lon
         SensorDashboard.batt_v SensorDashboard.batt_a SensorDashboard.batt_w
         SensorDashboard.batt_chg SensorDashboard.gps_points].
    destruct (_update_map_marker _ _ _) as [[]|e2]; reflexivity.
  - destruct (contains "battery" l); [|reflexivity].
    destruct (py_len _) as [n|e]; cbn [bind]; [|reflexivity].
    destruct (3 <=? n)%nat; [|reflexivity].
    destruct (py_slice_to _ 3) as [[|v [|a [|w [|]]]]|e3]; cbn [bind];
      try reflexivity.
    cbn [fst snd].
    destruct (4 <=? n)%nat; [|reflexivity].
    destruct (py_getitem _ 3) as [v3|e4]; cbn [bind]; [|reflexivity].
    destruct (py_int v3) as [c|e5]; reflexivity.
Qed.

(** The position is stored as the packet carries it, and before the
    marker is drawn: after a GPS line with list values the two fields
    are the list's first two entries, unchecked, whether
    [_update_map_marker] returns or raises, and the line ends as the
    marker does. If [format] rejects one of the two (a string, a null,
    a list, an integer too large), the call of [_update] that reads the
    fix raises: in the marker, or else at the status line; and from
    the fields it leaves every call of [_update] that reads nothing
    raises at the status line. *)
Theorem unchecked_fix_breaks_status (obj : packet T)
    (st : Sensor_Dashboard.state) (tel : SensorDashboard.telemetry)
    (nm : string) (v0 v1 : pyval T) (rest : list (pyval T)) :
  Sensor_Dashboard.dispatches obj = Ok false ->
  dict_get obj "name" (PStr "") = PStr nm ->
  contains "gps" (lower nm) = true ->
  dict_get obj "values" (PList []) = PList (v0 :: v1 :: rest) ->
  let line :=
    SensorDashboard._update_line_fields json_loads py_int _update_map_marker
      obj (st, tel) in
  let kept := fst line in
  let drawn :=
    _update_map_marker v0 v1
      (SensorDashboard.deque_append SensorDashboard.GPS_HISTORY
         (SensorDashboard.gps_points tel) (v0, v1)) in
  fst kept = st
  /\ SensorDashboard.lat (snd kept) = v0
  /\ SensorDashboard.lon (snd kept) = v1
  /\ snd line = drawn
  /\ forall e,
       SensorDashboard.format_f v0 = Raise e
       \/ ((exists t, SensorDashboard.format_f v0 = Ok t)
           /\ SensorDashboard.format_f v1 = Raise e) ->
       SensorDashboard.status_text kept = Raise e
       /\ SensorDashboard._update json_loads py_int _update_map_marker [] kept
          = (kept, Raise e)
       /\ SensorDashboard._update json_loads py_int _update_map_marker [obj]
            (st, tel)
          = (kept, match drawn with
                   | Ok _ => Raise e
                   | Raise e' => Raise e'
                   end).
Proof.
  intros Hd Hn Hg Hv line kept drawn.
  assert (Hline : line
                  = ((st, SensorDashboard.Telemetry v0 v1
                            (SensorDashboard.batt_v tel) (SensorDashboard.batt_a tel)
                            (SensorDashboard.batt_w tel) (SensorDashboard.batt_chg tel)
                            (SensorDashboard.deque_append SensorDashboard.GPS_HISTORY
                               (SensorDashboard.gps_points tel) (v0, v1))),
                     drawn)).
  { unfold line, SensorDashboard._update_line_fields. cbn [fst snd].
    unfold Sensor_Dashboard._update_line, Sensor_Dashboard._update_line_with.
    rewrite Hd, Hn, Hv. cbn [bind py_lower Sensor_Dashboard.normalize_values].
    unfold SensorDashboard.and_then, SensorDashboard.pure, SensorDashboard.assign,
      SensorDashboard.field.
    rewrite Hg. reflexivity. }
  unfold kept. rewrite Hline. cbn [fst snd SensorDashboard.lat SensorDashboard.lon].
  repeat (split; [reflexivity|]).
  intros e He.
  match goal with |- ?lhs = _ /\ _ => assert (Hs : lhs = Raise e) end.
  { unfold SensorDashboard.status_text.
    cbn [fst snd SensorDashboard.lat SensorDashboard.lon].
    destruct He as [->|([t ->] & ->)]; reflexivity. }
  split; [exact Hs|]. split.
  - unfold SensorDashboard._update, SensorDashboard._update_lines_fields,
      SensorDashboard.and_then, SensorDashboard.pure.
    rewrite Hs. reflexivity.
  - unfold SensorDashboard._update. cbn [SensorDashboard._update_lines_fields].
    unfold SensorDashboard.and_then at 1 2.
    fold line. rewrite Hline. unfold SensorDashboard.pure.
    destruct drawn as [[]|e']; [|reflexivity].
    rewrite Hs. reflexivity.
Qed.

(** [name.lower()] is called on whatever the packet's [name] holds
    whenever the type is none of 11, 15 and 20. A name that is present
    and is not a string (a null, a number, a list) makes the dashboard
    raise [AttributeError] before any branch is taken;
    [Orientation_Fast], which never looks at the name, passes over the
    same line. *)
Theorem dashboard_needs_string_name (obj : packet T) (ts : string)
    (st : Sensor_Dashboard.state) (tel : SensorDashboard.telemetry)
    (st0 : Orientation_Fast.state) :
  py_in_ints (dict_get obj "type" PNone) [11; 15; 20]%Z = false ->
  (forall nm, dict_get obj "name" (PStr "") <> PStr nm) ->
  Sensor_Dashboard.dispatches obj = Raise AttributeError
  /\ Sensor_Dashboard._update_line json_loads obj st = Raise AttributeError
  /\ update_line obj (st, tel) = Raise AttributeError
  /\ Orientation_Fast.update_line json_loads ts obj st0 = Ok st0.
Proof.
  intros Ht Hn.
  assert (Hd : Sensor_Dashboard.dispatches obj = Raise AttributeError).
  { unfold Sensor_Dashboard.dispatches. rewrite Ht.
    destruct (dict_get obj "name" (PStr "")) as [| | | |nm|]; try reflexivity.
    now destruct (Hn nm). }
  assert (Hl : Sensor_Dashboard._update_line json_loads obj st
               = Raise AttributeError).
  { unfold Sensor_Dashboard._update_line, Sensor_Dashboard._update_line_with.
    rewrite Hd. reflexivity. }
  split; [exact Hd|]. split; [exact Hl|]. split.
  - unfold SensorDashboard._update_line. cbn [fst snd]. rewrite Hl. reflexivity.
  - unfold Orientation_Fast.update_line, Orientation_Fast.update_line_with.
    unfold py_in_ints in *. cbn [existsb] in *.
    destruct (py_eq_int (dict_get obj "type" PNone) 11); [discriminate|].
    destruct (py_eq_int (dict_get obj "type" PNone) 15); [discriminate|].
    reflexivity.
Qed.
End Telemetry.


Lemma update_line_takes_first_branch_witness :
  let F : Float64 float :=
    FloatModel.F_Float64 (fun y _ => y) (fun t => t) (fun _ => None) in
  let obj : packet float :=
    [("name", PStr "GPS battery"); ("type", PInt 1);
     ("values", PList [PFloat 48.5%float; PFloat 2.25%float; PInt 3; PInt 1])]%string in
  let st := Sensor_Dashboard.init None in
  exists st' tel',
    SensorDashboard._update_line (fun _ => None) (fun _ => Ok 0%Z)
      (fun _ _ _ => Ok tt) obj (st, SensorDashboard.init) = Ok (st', tel')
    /\ (Sensor_Dashboard.dispatches obj = Ok false -> st' = st).
Proof.
  intros F obj st.
  destruct (SensorDashboard._update_line (fun _ => None) (fun _ => Ok 0%Z)
              (fun _ _ _ => Ok tt) obj (st, SensorDashboard.init))
    as [[st' tel']|e] eqn:E; [|vm_compute in E; discriminate].
  exists st', tel'. split; [reflexivity|].
  exact (proj1 (proj2 (@update_line_takes_first_branch float F (fun _ => None)
                         (fun _ => Ok 0%Z) (fun _ _ _ => Ok tt) obj st st'
                         SensorDashboard.init tel' E))).
Defined.

Lemma unchecked_fix_breaks_status_witness :
  let F : Float64 float :=
    FloatModel.F_Float64 (fun y _ => y) (fun t => t) (fun _ => None) in
  let obj : packet float :=
    [("name", PStr "GPS"); ("values", PList [PStr "48.5"; PStr "2.25"])]%string in
  let marker : pyval float -> pyval float -> list (pyval float * pyval float)
               -> result unit :=
    fun la _ _ => match la with PStr _ => Raise TypeError | _ => Ok tt end in
  let st := Sensor_Dashboard.init None in
  let kept :=
    fst (SensorDashboard._update_line_fields (fun _ => None) (fun _ => Ok 0%Z)
           marker obj (st, SensorDashboard.init)) in
  SensorDashboard.lat (snd kept) = PStr "48.5"
  /\ SensorDashboard._update (fun _ => None) (fun _ => Ok 0%Z) marker [obj]
       (st, SensorDashboard.init)
     = (kept, Raise TypeError)
  /\ SensorDashboard._update (fun _ => None) (fun _ => Ok 0%Z) marker [] kept
     = (kept, Raise ValueError).
Proof.
  intros F obj marker st left.
  destruct (@unchecked_fix_breaks_status float F (fun _ => None)
              (fun _ => Ok 0%Z) marker obj st SensorDashboard.init
              "GPS"%string (PStr "48.5") (PStr "2.25") []
              eq_refl eq_refl eq_refl eq_refl)
    as (_ & Hla & _ & _ & Hst).
  destruct (Hst ValueError (or_introl eq_refl)) as (_ & Hnext & Hcall).
  exact (conj Hla (conj Hcall Hnext)).
Defined.

Lemma dashboard_needs_string_name_witness :
  let F : Float64 float :=
    FloatModel.F_Float64 (fun y _ => y) (fun t => t) (fun _ => None) in
  let obj : packet float :=
    [("type", PInt 1); ("name", PNone); ("values", PList [])]%string in
  Sensor_Dashboard._update_line (fun _ => None) obj (Sensor_Dashboard.init None)
    = Raise AttributeError
  /\ Orientation_Fast.update_line (fun _ => None) "t0" obj
       (Orientation_Fast.init None)
     = Ok (Orientation_Fast.init None).
Proof.
  intros F obj.
  assert (Hn : forall nm : string,
            dict_get obj "name" (PStr "") <> @PStr float nm)
    by (intros nm; vm_compute; discriminate).
  destruct (@dashboard_needs_string_name float F (fun _ => None)
              (fun _ => Ok 0%Z) (fun _ _ _ => Ok tt) obj "t0"%string
              (Sensor_Dashboard.init None) SensorDashboard.init
              (Orientation_Fast.init None) eq_refl Hn)
    as (_ & Hl & _ & Hf).
  exact (conj Hl Hf).
Defined.
